(** * CrazyLib front end: a shallow embedding of the React components
    and of the HTTP client wrapper, with the properties of the
    specification stated over it.

  Each component is embedded as a record of its [useState]/[useRef]
  cells, one function per event handler or effect, and a partial [step]
  function whose guard is the render condition that makes the event
  possible.  Calls that leave the component (requests through
  [apiService], parent callbacks, [alert]) are appended to logs kept in
  the state; promises that have not settled yet are kept as a list of
  pending continuations with the closure variables they captured. *)

From Stdlib Require Import ZArith List String Ascii Bool Lia Arith Sorted.
From Stdlib Require Import DecimalString.
Import ListNotations.
Local Open Scope string_scope.
Set Warnings "-register-all".

(** ** JavaScript values used by the components *)

Module JS.

(** Strings are sequences of code units; a Rocq [ascii] stands for a code
    unit below 256.  In that range [String.prototype.trim] strips TAB, LF,
    VT, FF, CR, SPACE and NBSP. *)
Definition isWhiteSpace (c : ascii) : bool :=
  existsb (N.eqb (N_of_ascii c)) [9; 10; 11; 12; 13; 32; 160]%N.

Fixpoint trimStart (s : string) : string :=
  match s with
  | EmptyString => EmptyString
  | String c r => if isWhiteSpace c then trimStart r else s
  end.

Fixpoint trimEnd (s : string) : string :=
  match s with
  | EmptyString => EmptyString
  | String c r =>
      match trimEnd r with
      | EmptyString => if isWhiteSpace c then EmptyString else String c EmptyString
      | r' => String c r'
      end
  end.

Definition trim (s : string) : string := trimEnd (trimStart s).

(** [s.length === 0] and the truthiness of a string. *)
Definition isEmpty (s : string) : bool :=
  match s with EmptyString => true | _ => false end.

(** Integer-valued numbers and their decimal rendering in a template
    literal. *)
Definition numberToString (z : Z) : string :=
  NilZero.string_of_int (Z.to_int z).

(** JSON numbers are the platform's doubles.  The code applies two
    operations of the platform to them, taken here as given: truthiness
    (false for 0, -0 and NaN) and the conversion to a string
    (Number::toString). *)
Record doubles : Type := {
  double : Type;
  isTruthy : double -> bool;
  toText : double -> string
}.

(** Parsed JSON, as [response.json()] resolves to.  An object is given by
    its own properties; where the list repeats a name, its first entry is
    the property. *)
Inductive json (D : doubles) : Type :=
| JNull
| JBool (b : bool)
| JNum (x : double D)
| JStr (s : string)
| JArr (items : list (json D))
| JObj (members : list (string * json D)).
Arguments JNull {D}.
Arguments JBool {D} b.
Arguments JNum {D} x.
Arguments JStr {D} s.
Arguments JArr {D} items.
Arguments JObj {D} members.

Inductive value (D : doubles) : Type :=
| undefined
| ofJson (j : json D).
Arguments undefined {D}.
Arguments ofJson {D} j.

Fixpoint lookup {D : doubles} (k : string) (members : list (string * json D))
    : value D :=
  match members with
  | [] => undefined
  | (k', v) :: rest => if String.eqb k k' then ofJson v else lookup k rest
  end.

Definition hasOwnProperty {D : doubles} (k : string)
    (members : list (string * json D)) : bool :=
  match lookup k members with
  | undefined => false
  | ofJson _ => true
  end.

(** [j.k], for a name [k] that the prototypes do not define (the code
    reads [detail]): reading a property of [null] throws a TypeError
    ([None]); a primitive or an array has no such own property. *)
Definition getProperty {D : doubles} (j : json D) (k : string)
    : option (value D) :=
  match j with
  | JNull => None
  | JObj members => Some (lookup k members)
  | _ => Some undefined
  end.

Definition truthy {D : doubles} (v : value D) : bool :=
  match v with
  | undefined => false
  | ofJson JNull => false
  | ofJson (JBool b) => b
  | ofJson (JNum x) => isTruthy D x
  | ofJson (JStr s) => negb (isEmpty s)
  | ofJson (JArr _) => true
  | ofJson (JObj _) => true
  end.

Fixpoint join (sep : string) (parts : list string) : string :=
  match parts with
  | [] => ""
  | [p] => p
  | p :: rest => p ++ sep ++ join sep rest
  end.

(** ToString, as [new Error(x)] applies it to its argument; [None] when it
    throws a TypeError.  An array is joined with commas, a null element
    giving the empty string.  A parsed object inherits
    [Object.prototype.toString] unless it has an own member named
    toString: that member is not callable, and neither it nor [valueOf]
    yields a primitive, so the conversion throws. *)
Fixpoint jsonToString {D : doubles} (j : json D) : option string :=
  match j with
  | JNull => Some "null"
  | JBool true => Some "true"
  | JBool false => Some "false"
  | JNum x => Some (toText D x)
  | JStr s => Some s
  | JArr items =>
      match
        (fix elements (l : list (json D)) : option (list string) :=
           match l with
           | [] => Some []
           | x :: rest =>
               match
                 match x with
                 | JNull => Some ""
                 | _ => jsonToString x
                 end, elements rest
               with
               | Some p, Some ps => Some (p :: ps)
               | _, _ => None
               end
           end) items
      with
      | Some parts => Some (join "," parts)
      | None => None
      end
  | JObj members =>
      if hasOwnProperty "toString" members then None
      else Some "[object Object]"
  end.

Definition toString {D : doubles} (v : value D) : option string :=
  match v with
  | undefined => Some "undefined"
  | ofJson j => jsonToString j
  end.

(** [a || b] *)
Definition orElse {D : doubles} (a b : value D) : value D :=
  if truthy a then a else b.

(** A settled promise. *)
Inductive settled (A E : Type) : Type :=
| Fulfilled (x : A)
| Rejected (e : E).
Arguments Fulfilled {A E} x.
Arguments Rejected {A E} e.

End JS.

(** ** The HTTP client wrapper: [ApiService.request] *)

Module ApiService.
Import JS.

(** What [fetch] resolved to: the status line and the outcome of
    [response.json()] ([None] when the body does not parse). *)
Record Response (D : doubles) : Type := {
  status : Z;
  body : option (json D)
}.
Arguments status {D} r.
Arguments body {D} r.

(** [response.ok] is the platform's test for a status in 200..299. *)
Definition ok {D : doubles} (r : Response D) : bool :=
  (200 <=? status r)%Z && (status r <=? 299)%Z.

Inductive exn : Type :=
| Error (message : string)
| TypeError          (* a property read on null, or a value that has no
                        conversion to a string *)
| SyntaxError        (* response.json() on a body that is not JSON *)
| FetchError.        (* fetch itself rejected *)

Definition httpError {D : doubles} (r : Response D) : string :=
  "HTTP error! status: " ++ numberToString (status r).

(** [request(endpoint, options)], as a function of what the network
    answered.  The outer [catch] logs and rethrows, so it does not show. *)
Definition request {D : doubles} (fetched : settled (Response D) unit)
    : settled (json D) exn :=
  match fetched with
  | Rejected _ => Rejected FetchError
  | Fulfilled response =>
      if negb (ok response) then
        (* response.json().catch(() => ({})) *)
        let errorData :=
          match body response with
          | Some j => j
          | None => JObj []
          end in
        match getProperty errorData "detail" with
        | None => Rejected TypeError
        | Some detail =>
            (* new Error(errorData.detail || `HTTP error! ...`) *)
            match toString (orElse detail (ofJson (JStr (httpError response)))) with
            | Some message => Rejected (Error message)
            | None => Rejected TypeError
            end
        end
      else
        match body response with
        | Some data => Fulfilled data
        | None => Rejected SyntaxError
        end
  end.

End ApiService.

(** ** Entities fetched from the server *)

Module Book.
Record t : Type := {
  id : Z;
  title : string;
  author_name : string;
  unique_id : string;
  copies_count : Z;
  available_copies : Z;
  total_borrowed : Z
}.
End Book.

Module Customer.
Record t : Type := {
  id : Z;
  first_name : string;
  last_name : string;
  email : string;
  birth_date : string;
  address : string
}.
End Customer.

Module BorrowRecord.
Record t : Type := {
  event_id : Z;
  id : Z;
  title : string;
  author : string;
  borrowed_on : string
}.
End BorrowRecord.

Module Suggestion.
Record t : Type := {
  id : Z;
  text : string;
  detail : string   (* author_name, or phone and passport *)
}.
End Suggestion.

(** Helpers shared by the component models. *)
Module Util.

(** The double-quote character of the template literals. *)
Definition dquote : string := String (ascii_of_nat 34) EmptyString.

(** [customerDetails?.id] and [bookData?.id] used as conditions: a missing
    object or the number 0 is falsy. *)
Definition truthyId {A : Type} (id : A -> Z) (o : option A) : option Z :=
  match o with
  | Some x => if Z.eqb (id x) 0 then None else Some (id x)
  | None => None
  end.

Definition isSome {A : Type} (o : option A) : bool :=
  match o with Some _ => true | None => false end.

(** Removes the first element satisfying [f], when there is one. *)
Fixpoint removeFirst {A : Type} (f : A -> bool) (l : list A) : option (list A) :=
  match l with
  | [] => None
  | x :: r =>
      if f x then Some r
      else match removeFirst f r with
           | Some r' => Some (x :: r')
           | None => None
           end
  end.

(** [sub] occurs in [s]. *)
Definition includes (sub s : string) : Prop :=
  exists pre post, s = pre ++ sub ++ post.

End Util.

(** ** The borrow form: [BorrowBook] *)

Module BorrowBook.
Import JS Util.

Record props : Type := {
  customerDetails : option Customer.t;
  onBorrowSuccess : bool    (* whether the parent passed the callback *)
}.

Inductive request : Type :=
| GetBook (id : string)
| BorrowBookFor (customerId bookId : Z).

(** A handler suspended at its [await], with what its closure captured. *)
Inductive pending : Type :=
| SearchPending (bookId : string)
| BorrowPending.

Record state : Type := {
  bookId : string;
  bookData : option Book.t;
  availableCopy : option Z;        (* { book_id } *)
  isSearching : bool;
  isBorrowing : bool;
  errorMessage : string;
  requests : list request;         (* calls of apiService, oldest first *)
  refreshed : nat;                 (* calls of onBorrowSuccess *)
  awaiting : list pending
}.

Definition initial : state :=
  {| bookId := ""; bookData := None; availableCopy := None;
     isSearching := false; isBorrowing := false; errorMessage := "";
     requests := []; refreshed := 0; awaiting := [] |}.

Definition setBookId (v : string) (s : state) : state :=
  {| bookId := v; bookData := bookData s; availableCopy := availableCopy s;
     isSearching := isSearching s; isBorrowing := isBorrowing s;
     errorMessage := errorMessage s; requests := requests s;
     refreshed := refreshed s; awaiting := awaiting s |}.

Definition setBookData (v : option Book.t) (s : state) : state :=
  {| bookId := bookId s; bookData := v; availableCopy := availableCopy s;
     isSearching := isSearching s; isBorrowing := isBorrowing s;
     errorMessage := errorMessage s; requests := requests s;
     refreshed := refreshed s; awaiting := awaiting s |}.

Definition setAvailableCopy (v : option Z) (s : state) : state :=
  {| bookId := bookId s; bookData := bookData s; availableCopy := v;
     isSearching := isSearching s; isBorrowing := isBorrowing s;
     errorMessage := errorMessage s; requests := requests s;
     refreshed := refreshed s; awaiting := awaiting s |}.

Definition setIsSearching (v : bool) (s : state) : state :=
  {| bookId := bookId s; bookData := bookData s; availableCopy := availableCopy s;
     isSearching := v; isBorrowing := isBorrowing s;
     errorMessage := errorMessage s; requests := requests s;
     refreshed := refreshed s; awaiting := awaiting s |}.

Definition setIsBorrowing (v : bool) (s : state) : state :=
  {| bookId := bookId s; bookData := bookData s; availableCopy := availableCopy s;
     isSearching := isSearching s; isBorrowing := v;
     errorMessage := errorMessage s; requests := requests s;
     refreshed := refreshed s; awaiting := awaiting s |}.

Definition setErrorMessage (v : string) (s : state) : state :=
  {| bookId := bookId s; bookData := bookData s; availableCopy := availableCopy s;
     isSearching := isSearching s; isBorrowing := isBorrowing s;
     errorMessage := v; requests := requests s;
     refreshed := refreshed s; awaiting := awaiting s |}.

(** Calls [apiService] and suspends the handler. *)
Definition call (r : request) (k : pending) (s : state) : state :=
  {| bookId := bookId s; bookData := bookData s; availableCopy := availableCopy s;
     isSearching := isSearching s; isBorrowing := isBorrowing s;
     errorMessage := errorMessage s; requests := requests s ++ [r];
     refreshed := refreshed s; awaiting := awaiting s ++ [k] |}.

Definition resume (rest : list pending) (s : state) : state :=
  {| bookId := bookId s; bookData := bookData s; availableCopy := availableCopy s;
     isSearching := isSearching s; isBorrowing := isBorrowing s;
     errorMessage := errorMessage s; requests := requests s;
     refreshed := refreshed s; awaiting := rest |}.

(** [onBorrowSuccess?.()] *)
Definition notifyParent (p : props) (s : state) : state :=
  {| bookId := bookId s; bookData := bookData s; availableCopy := availableCopy s;
     isSearching := isSearching s; isBorrowing := isBorrowing s;
     errorMessage := errorMessage s; requests := requests s;
     refreshed := if onBorrowSuccess p then S (refreshed s) else refreshed s;
     awaiting := awaiting s |}.

Definition noCopiesMessage (book : Book.t) : string :=
  "Book " ++ dquote ++ Book.title book ++ dquote ++ " has no available copies ("
    ++ numberToString (Book.available_copies book) ++ "/"
    ++ numberToString (Book.copies_count book) ++ ")".

Definition notFoundMessage (bookId : string) : string :=
  "Book with ID " ++ dquote ++ bookId ++ dquote ++ " not found".

(** [searchBookCopy], up to its [await]. *)
Definition searchBookCopy (s : state) : state :=
  if isEmpty (trim (bookId s)) then
    setErrorMessage "Please enter book ID" s
  else
    call (GetBook (trim (bookId s))) (SearchPending (bookId s))
      (setAvailableCopy None
        (setBookData None
          (setErrorMessage ""
            (setIsSearching true s)))).

(** [searchBookCopy], from the moment [getBook] settles. *)
Definition searchSettled (bookId : string) (r : settled Book.t string)
    (s : state) : state :=
  setIsSearching false
    match r with
    | Fulfilled book =>
        let s1 := setBookData (Some book) s in
        if (Book.available_copies book >? 0)%Z then
          setAvailableCopy (Some (Book.id book)) s1
        else
          setErrorMessage (noCopiesMessage book) s1
    | Rejected _ =>
        setErrorMessage (notFoundMessage bookId) s
    end.

(** [handleBorrowConfirm], up to its [await]. *)
Definition handleBorrowConfirm (p : props) (s : state) : state :=
  match truthyId Customer.id (customerDetails p), truthyId Book.id (bookData s) with
  | Some customerId, Some bookId =>
      call (BorrowBookFor customerId bookId) BorrowPending (setIsBorrowing true s)
  | _, _ => s
  end.

(** [handleBorrowConfirm], from the moment [borrowBook] settles; a
    rejection carries [error.message]. *)
Definition borrowSettled (p : props) (r : settled unit string) (s : state) : state :=
  setIsBorrowing false
    match r with
    | Fulfilled _ =>
        notifyParent p
          (setErrorMessage ""
            (setAvailableCopy None
              (setBookData None
                (setBookId "" s))))
    | Rejected message =>
        setErrorMessage
          (if isEmpty message then "Failed to borrow book" else message) s
    end.

Definition handleCancel (s : state) : state :=
  setErrorMessage "" (setAvailableCopy None (setBookData None s)).

Inductive event : Type :=
| Edit (value : string)                           (* onChange of the input *)
| Find                                            (* the button, or Enter *)
| SearchSettles (bookId : string) (r : settled Book.t string)
| Confirm
| Cancel
| BorrowSettles (r : settled unit string).

Definition isSearchPending (bookId : string) (k : pending) : bool :=
  match k with
  | SearchPending b => String.eqb b bookId
  | BorrowPending => false
  end.

Definition isBorrowPending (k : pending) : bool :=
  match k with
  | BorrowPending => true
  | SearchPending _ => false
  end.

(** The input and the Find button are disabled while a request runs; the
    confirmation block is rendered when [bookData && availableCopy], and
    its buttons are disabled while borrowing. *)
Definition inputEnabled (s : state) : bool :=
  negb (isSearching s || isBorrowing s).

Definition confirmationEnabled (s : state) : bool :=
  isSome (bookData s) && isSome (availableCopy s) && negb (isBorrowing s).

Definition step (p : props) (e : event) (s : state) : option state :=
  match e with
  | Edit v => if inputEnabled s then Some (setBookId v s) else None
  | Find => if inputEnabled s then Some (searchBookCopy s) else None
  | SearchSettles b r =>
      match removeFirst (isSearchPending b) (awaiting s) with
      | Some rest => Some (searchSettled b r (resume rest s))
      | None => None
      end
  | Confirm =>
      if confirmationEnabled s then Some (handleBorrowConfirm p s) else None
  | Cancel => if confirmationEnabled s then Some (handleCancel s) else None
  | BorrowSettles r =>
      match removeFirst isBorrowPending (awaiting s) with
      | Some rest => Some (borrowSettled p r (resume rest s))
      | None => None
      end
  end.

Fixpoint run (p : props) (es : list event) (s : state) : option state :=
  match es with
  | [] => Some s
  | e :: rest =>
      match step p e s with
      | Some s' => run p rest s'
      | None => None
      end
  end.

Definition isBorrowRequest (r : request) : bool :=
  match r with
  | BorrowBookFor _ _ => true
  | GetBook _ => false
  end.

(** The borrow mutations issued so far. *)
Definition borrowRequests (s : state) : list request :=
  filter isBorrowRequest (requests s).

(** The confirmations still waiting for the server. *)
Definition pendingBorrows (s : state) : nat :=
  List.length (filter isBorrowPending (awaiting s)).

(** Every call of the parent's callback and every pending confirmation is
    backed by a borrow request of its own. *)
Definition callbacks_bounded (s : state) : Prop :=
  refreshed s + pendingBorrows s <= List.length (borrowRequests s).

(** The form runs one request at a time: it is idle, or searching with the
    previous result cleared, or borrowing. *)
Definition sequential (s : state) : Prop :=
  match awaiting s with
  | [] => isSearching s = false /\ isBorrowing s = false
  | [SearchPending _] =>
      isSearching s = true /\ isBorrowing s = false /\
      bookData s = None /\ availableCopy s = None
  | [BorrowPending] => isSearching s = false /\ isBorrowing s = true
  | _ => False
  end.

End BorrowBook.

(** ** The customer's actions panel: [SearchProperties] *)

Module SearchProperties.
Import JS Util.

Record props : Type := {
  customerDetails : option Customer.t
}.

Inductive tab : Type := borrowed_tab | history_tab | borrow_tab.

Inductive request : Type :=
| GetCustomerBorrowed (customerId : Z)
| ReturnBook (customerId borrowEventId : Z).

(** Who awaits [loadBorrowed], and so what runs once it has settled. *)
Inductive caller : Type := FromEffect | FromReturn | FromBorrowSuccess.

Inductive pending : Type :=
| ReturnPending (borrowEventId : Z)     (* handleReturn at returnBook *)
| LoadPending (k : caller).             (* loadBorrowed at getCustomerBorrowed *)

Record state : Type := {
  activeSubTab : tab;
  borrowed : list BorrowRecord.t;
  isLoading : bool;
  returningId : option Z;
  requests : list request;     (* calls of apiService, oldest first *)
  alerts : list string;        (* calls of alert *)
  awaiting : list pending
}.

Definition setActiveSubTab (v : tab) (s : state) : state :=
  {| activeSubTab := v; borrowed := borrowed s; isLoading := isLoading s;
     returningId := returningId s; requests := requests s;
     alerts := alerts s; awaiting := awaiting s |}.

Definition setBorrowed (v : list BorrowRecord.t) (s : state) : state :=
  {| activeSubTab := activeSubTab s; borrowed := v; isLoading := isLoading s;
     returningId := returningId s; requests := requests s;
     alerts := alerts s; awaiting := awaiting s |}.

Definition setIsLoading (v : bool) (s : state) : state :=
  {| activeSubTab := activeSubTab s; borrowed := borrowed s; isLoading := v;
     returningId := returningId s; requests := requests s;
     alerts := alerts s; awaiting := awaiting s |}.

Definition setReturningId (v : option Z) (s : state) : state :=
  {| activeSubTab := activeSubTab s; borrowed := borrowed s;
     isLoading := isLoading s; returningId := v; requests := requests s;
     alerts := alerts s; awaiting := awaiting s |}.

Definition alert (message : string) (s : state) : state :=
  {| activeSubTab := activeSubTab s; borrowed := borrowed s;
     isLoading := isLoading s; returningId := returningId s;
     requests := requests s; alerts := alerts s ++ [message];
     awaiting := awaiting s |}.

Definition call (r : request) (k : pending) (s : state) : state :=
  {| activeSubTab := activeSubTab s; borrowed := borrowed s;
     isLoading := isLoading s; returningId := returningId s;
     requests := requests s ++ [r]; alerts := alerts s;
     awaiting := awaiting s ++ [k] |}.

Definition resume (rest : list pending) (s : state) : state :=
  {| activeSubTab := activeSubTab s; borrowed := borrowed s;
     isLoading := isLoading s; returningId := returningId s;
     requests := requests s; alerts := alerts s; awaiting := rest |}.

(** What the caller of [loadBorrowed] does after its [await]: the effect
    nothing, [handleReturn] its [finally], [handleBorrowSuccess] the switch
    back to the borrowed tab. *)
Definition afterLoad (k : caller) (s : state) : state :=
  match k with
  | FromEffect => s
  | FromReturn => setReturningId None s
  | FromBorrowSuccess => setActiveSubTab borrowed_tab s
  end.

(** [loadBorrowed], up to its [await]. *)
Definition loadBorrowed (p : props) (k : caller) (s : state) : state :=
  match truthyId Customer.id (customerDetails p) with
  | None => afterLoad k (setBorrowed [] s)
  | Some customerId =>
      call (GetCustomerBorrowed customerId) (LoadPending k) (setIsLoading true s)
  end.

(** [loadBorrowed], from the moment the list request settles;
    [res.results || []] is [[]] when [results] is missing. *)
Definition loadSettled (k : caller)
    (r : settled (option (list BorrowRecord.t)) string) (s : state) : state :=
  afterLoad k
    (setIsLoading false
      match r with
      | Fulfilled (Some results) => setBorrowed results s
      | Fulfilled None => setBorrowed [] s
      | Rejected _ => setBorrowed [] s
      end).

(** The effect on [customerDetails?.id], run when the panel mounts. *)
Definition mount (p : props) : state :=
  loadBorrowed p FromEffect
    {| activeSubTab := borrowed_tab; borrowed := []; isLoading := false;
       returningId := None; requests := []; alerts := []; awaiting := [] |}.

(** [handleReturn], up to its first [await]. *)
Definition handleReturn (p : props) (borrowEventId : Z) (s : state) : state :=
  match truthyId Customer.id (customerDetails p) with
  | None => s
  | Some customerId =>
      call (ReturnBook customerId borrowEventId) (ReturnPending borrowEventId)
        (setReturningId (Some borrowEventId) s)
  end.

(** [handleReturn], from the moment [returnBook] settles; a rejection
    carries [e.message]. *)
Definition returnSettled (p : props) (r : settled unit string) (s : state) : state :=
  match r with
  | Fulfilled _ => loadBorrowed p FromReturn s
  | Rejected message =>
      setReturningId None
        (alert (if isEmpty message then "Return failed" else message) s)
  end.

Definition handleBorrowSuccess (p : props) (s : state) : state :=
  loadBorrowed p FromBorrowSuccess s.

(** [disabled={isLoading || returningId === row.event_id}] *)
Definition rowDisabled (s : state) (row : BorrowRecord.t) : bool :=
  isLoading s ||
  match returningId s with
  | Some id => Z.eqb id (BorrowRecord.event_id row)
  | None => false
  end.

Definition isBorrowedTab (t : tab) : bool :=
  match t with borrowed_tab => true | _ => false end.

(** The Return button of a row exists when the panel is rendered, the
    borrowed tab is open, the list is loaded and holds the row. *)
Definition returnClickable (p : props) (s : state) (borrowEventId : Z) : bool :=
  isSome (customerDetails p) && isBorrowedTab (activeSubTab s) &&
  negb (isLoading s) &&
  existsb (fun row => Z.eqb (BorrowRecord.event_id row) borrowEventId
                      && negb (rowDisabled s row)) (borrowed s).

Inductive event : Type :=
| SelectTab (t : tab)
| ClickReturn (borrowEventId : Z)
| ReturnSettles (borrowEventId : Z) (r : settled unit string)
| LoadSettles (k : caller) (r : settled (option (list BorrowRecord.t)) string)
| BorrowSucceeded.             (* the borrow form calls onBorrowSuccess *)

Definition isReturnPending (borrowEventId : Z) (k : pending) : bool :=
  match k with
  | ReturnPending id => Z.eqb id borrowEventId
  | LoadPending _ => false
  end.

Definition sameCaller (a b : caller) : bool :=
  match a, b with
  | FromEffect, FromEffect => true
  | FromReturn, FromReturn => true
  | FromBorrowSuccess, FromBorrowSuccess => true
  | _, _ => false
  end.

Definition isLoadPending (c : caller) (k : pending) : bool :=
  match k with
  | LoadPending c' => sameCaller c' c
  | ReturnPending _ => false
  end.

Definition step (p : props) (e : event) (s : state) : option state :=
  match e with
  | SelectTab t =>
      if isSome (customerDetails p) then Some (setActiveSubTab t s) else None
  | ClickReturn id =>
      if returnClickable p s id then Some (handleReturn p id s) else None
  | ReturnSettles id r =>
      match removeFirst (isReturnPending id) (awaiting s) with
      | Some rest => Some (returnSettled p r (resume rest s))
      | None => None
      end
  | LoadSettles k r =>
      match removeFirst (isLoadPending k) (awaiting s) with
      | Some rest => Some (loadSettled k r (resume rest s))
      | None => None
      end
  | BorrowSucceeded => Some (handleBorrowSuccess p s)
  end.

Fixpoint run (p : props) (es : list event) (s : state) : option state :=
  match es with
  | [] => Some s
  | e :: rest =>
      match step p e s with
      | Some s' => run p rest s'
      | None => None
      end
  end.

(** A return request for the record is still in flight. *)
Definition returnInFlight (s : state) (borrowEventId : Z) : bool :=
  existsb (isReturnPending borrowEventId) (awaiting s).

End SearchProperties.

(** ** The book search box: [BookSearchbar] *)

Module BookSearchbar.
Import JS Util.

Record props : Type := {
  onBookSelect : bool;     (* whether the parent passed the callback *)
  onAction : bool;
  actionMode : bool;       (* mode === 'action' *)
  showBookInfo : bool
}.

(** The callback handed to [setTimeout] by the search effect, with the
    variables of its closure and the time from which it may run. *)
Record timer : Type := {
  due : nat;
  searchTerm : string;
  currentRequestId : nat
}.

Inductive request : Type :=
| SearchBooks (query : string)
| GetBook (id : Z).

Inductive pending : Type :=
| SearchPending (searchTerm : string) (currentRequestId : nat)
| BookPending.

Record state : Type := {
  (* useState *)
  showPopup : bool;
  searchValue : string;
  suggestions : list Suggestion.t;
  isLoading : bool;
  selectedBook : option Book.t;
  (* useRef *)
  currentSearchRef : string;
  searchTimeoutRef : option timer;      (* the pending debounce callback *)
  requestIdRef : nat;
  (* outside the component *)
  blurTimers : list nat;                (* due times of handleBlur's timeouts *)
  requests : list (nat * request);      (* calls of apiService, with their time *)
  selections : list (option Book.t);    (* calls of onBookSelect *)
  actions : list Book.t;                (* calls of onAction *)
  awaiting : list pending;
  clock : nat                           (* time of the last event, in ms *)
}.

Definition initial : state :=
  {| showPopup := false; searchValue := ""; suggestions := [];
     isLoading := false; selectedBook := None;
     currentSearchRef := ""; searchTimeoutRef := None; requestIdRef := 0;
     blurTimers := []; requests := []; selections := []; actions := [];
     awaiting := []; clock := 0 |}.

Definition setShowPopup (v : bool) (s : state) : state :=
  {| showPopup := v; searchValue := searchValue s;
     suggestions := suggestions s; isLoading := isLoading s;
     selectedBook := selectedBook s; currentSearchRef := currentSearchRef s;
     searchTimeoutRef := searchTimeoutRef s; requestIdRef := requestIdRef s;
     blurTimers := blurTimers s; requests := requests s;
     selections := selections s; actions := actions s;
     awaiting := awaiting s; clock := clock s |}.

Definition setSearchValue (v : string) (s : state) : state :=
  {| showPopup := showPopup s; searchValue := v;
     suggestions := suggestions s; isLoading := isLoading s;
     selectedBook := selectedBook s; currentSearchRef := currentSearchRef s;
     searchTimeoutRef := searchTimeoutRef s; requestIdRef := requestIdRef s;
     blurTimers := blurTimers s; requests := requests s;
     selections := selections s; actions := actions s;
     awaiting := awaiting s; clock := clock s |}.

Definition setSuggestions (v : list Suggestion.t) (s : state) : state :=
  {| showPopup := showPopup s; searchValue := searchValue s;
     suggestions := v; isLoading := isLoading s;
     selectedBook := selectedBook s; currentSearchRef := currentSearchRef s;
     searchTimeoutRef := searchTimeoutRef s; requestIdRef := requestIdRef s;
     blurTimers := blurTimers s; requests := requests s;
     selections := selections s; actions := actions s;
     awaiting := awaiting s; clock := clock s |}.

Definition setIsLoading (v : bool) (s : state) : state :=
  {| showPopup := showPopup s; searchValue := searchValue s;
     suggestions := suggestions s; isLoading := v;
     selectedBook := selectedBook s; currentSearchRef := currentSearchRef s;
     searchTimeoutRef := searchTimeoutRef s; requestIdRef := requestIdRef s;
     blurTimers := blurTimers s; requests := requests s;
     selections := selections s; actions := actions s;
     awaiting := awaiting s; clock := clock s |}.

Definition setSelectedBook (v : option Book.t) (s : state) : state :=
  {| showPopup := showPopup s; searchValue := searchValue s;
     suggestions := suggestions s; isLoading := isLoading s;
     selectedBook := v; currentSearchRef := currentSearchRef s;
     searchTimeoutRef := searchTimeoutRef s; requestIdRef := requestIdRef s;
     blurTimers := blurTimers s; requests := requests s;
     selections := selections s; actions := actions s;
     awaiting := awaiting s; clock := clock s |}.

Definition setCurrentSearchRef (v : string) (s : state) : state :=
  {| showPopup := showPopup s; searchValue := searchValue s;
     suggestions := suggestions s; isLoading := isLoading s;
     selectedBook := selectedBook s; currentSearchRef := v;
     searchTimeoutRef := searchTimeoutRef s; requestIdRef := requestIdRef s;
     blurTimers := blurTimers s; requests := requests s;
     selections := selections s; actions := actions s;
     awaiting := awaiting s; clock := clock s |}.

Definition setSearchTimeoutRef (v : option timer) (s : state) : state :=
  {| showPopup := showPopup s; searchValue := searchValue s;
     suggestions := suggestions s; isLoading := isLoading s;
     selectedBook := selectedBook s; currentSearchRef := currentSearchRef s;
     searchTimeoutRef := v; requestIdRef := requestIdRef s;
     blurTimers := blurTimers s; requests := requests s;
     selections := selections s; actions := actions s;
     awaiting := awaiting s; clock := clock s |}.

Definition setRequestIdRef (v : nat) (s : state) : state :=
  {| showPopup := showPopup s; searchValue := searchValue s;
     suggestions := suggestions s; isLoading := isLoading s;
     selectedBook := selectedBook s; currentSearchRef := currentSearchRef s;
     searchTimeoutRef := searchTimeoutRef s; requestIdRef := v;
     blurTimers := blurTimers s; requests := requests s;
     selections := selections s; actions := actions s;
     awaiting := awaiting s; clock := clock s |}.

Definition setBlurTimers (v : list nat) (s : state) : state :=
  {| showPopup := showPopup s; searchValue := searchValue s;
     suggestions := suggestions s; isLoading := isLoading s;
     selectedBook := selectedBook s; currentSearchRef := currentSearchRef s;
     searchTimeoutRef := searchTimeoutRef s; requestIdRef := requestIdRef s;
     blurTimers := v; requests := requests s; selections := selections s;
     actions := actions s; awaiting := awaiting s; clock := clock s |}.

Definition setClock (v : nat) (s : state) : state :=
  {| showPopup := showPopup s; searchValue := searchValue s;
     suggestions := suggestions s; isLoading := isLoading s;
     selectedBook := selectedBook s; currentSearchRef := currentSearchRef s;
     searchTimeoutRef := searchTimeoutRef s; requestIdRef := requestIdRef s;
     blurTimers := blurTimers s; requests := requests s;
     selections := selections s; actions := actions s;
     awaiting := awaiting s; clock := v |}.

(** Calls [apiService] at time [t]. *)
Definition send (t : nat) (r : request) (s : state) : state :=
  {| showPopup := showPopup s; searchValue := searchValue s;
     suggestions := suggestions s; isLoading := isLoading s;
     selectedBook := selectedBook s; currentSearchRef := currentSearchRef s;
     searchTimeoutRef := searchTimeoutRef s; requestIdRef := requestIdRef s;
     blurTimers := blurTimers s; requests := requests s ++ [(t, r)];
     selections := selections s; actions := actions s;
     awaiting := awaiting s; clock := clock s |}.

(** Suspends a handler at its [await]; [resume] takes it off again. *)
Definition suspend (k : pending) (s : state) : state :=
  {| showPopup := showPopup s; searchValue := searchValue s;
     suggestions := suggestions s; isLoading := isLoading s;
     selectedBook := selectedBook s; currentSearchRef := currentSearchRef s;
     searchTimeoutRef := searchTimeoutRef s; requestIdRef := requestIdRef s;
     blurTimers := blurTimers s; requests := requests s;
     selections := selections s; actions := actions s;
     awaiting := awaiting s ++ [k]; clock := clock s |}.

Definition resume (rest : list pending) (s : state) : state :=
  {| showPopup := showPopup s; searchValue := searchValue s;
     suggestions := suggestions s; isLoading := isLoading s;
     selectedBook := selectedBook s; currentSearchRef := currentSearchRef s;
     searchTimeoutRef := searchTimeoutRef s; requestIdRef := requestIdRef s;
     blurTimers := blurTimers s; requests := requests s;
     selections := selections s; actions := actions s; awaiting := rest;
     clock := clock s |}.

(** [onBookSelect?.(book)] *)
Definition notifyParent (p : props) (book : option Book.t) (s : state) : state :=
  {| showPopup := showPopup s; searchValue := searchValue s;
     suggestions := suggestions s; isLoading := isLoading s;
     selectedBook := selectedBook s; currentSearchRef := currentSearchRef s;
     searchTimeoutRef := searchTimeoutRef s; requestIdRef := requestIdRef s;
     blurTimers := blurTimers s; requests := requests s;
     selections := if onBookSelect p then selections s ++ [book] else selections s;
     actions := actions s; awaiting := awaiting s; clock := clock s |}.

(** [onAction(book)] *)
Definition callAction (book : Book.t) (s : state) : state :=
  {| showPopup := showPopup s; searchValue := searchValue s;
     suggestions := suggestions s; isLoading := isLoading s;
     selectedBook := selectedBook s; currentSearchRef := currentSearchRef s;
     searchTimeoutRef := searchTimeoutRef s; requestIdRef := requestIdRef s;
     blurTimers := blurTimers s; requests := requests s;
     selections := selections s; actions := actions s ++ [book];
     awaiting := awaiting s; clock := clock s |}.

(** [clearTimeout(searchTimeoutRef.current)]: a callback that has already
    run is not in the cell any more, so clearing it is a no-op as in the
    browser. *)
Definition clearTimeout (s : state) : state := setSearchTimeoutRef None s.

Definition debounce : nat := 300.

(** The debounced search effect, run at time [t] after a render that
    changed [searchValue] or [onBookSelect]. *)
Definition searchEffect (p : props) (t : nat) (s : state) : state :=
  let searchTerm := trim (searchValue s) in
  let s := clearTimeout s in
  if isEmpty searchTerm then
    notifyParent p None
      (setCurrentSearchRef ""
        (setSelectedBook None
          (setShowPopup false
            (setSuggestions [] s))))
  else
    let currentRequestId := S (requestIdRef s) in
    setSearchTimeoutRef
      (Some {| due := t + debounce; searchTerm := searchTerm;
               currentRequestId := currentRequestId |})
      (setRequestIdRef currentRequestId s).

(** The effect runs after the render only when [searchValue] differs from
    the one of the previous render. *)
Definition afterRender (p : props) (t : nat) (before s : state) : state :=
  if String.eqb (searchValue before) (searchValue s) then s
  else searchEffect p t s.

(** The timeout callback, up to its [await]. *)
Definition searchNow (t : nat) (tm : timer) (s : state) : state :=
  suspend (SearchPending (searchTerm tm) (currentRequestId tm))
    (send t (SearchBooks (searchTerm tm))
      (setIsLoading true
        (setCurrentSearchRef (searchTerm tm) s))).

Definition isStillCurrent (searchTerm : string) (currentRequestId : nat)
    (s : state) : bool :=
  String.eqb (currentSearchRef s) searchTerm
  && Nat.eqb currentRequestId (requestIdRef s).

(** The timeout callback, from the moment [searchBooks] settles;
    [response.suggestions || []] is [[]] when the field is missing. *)
Definition searchSettled (searchTerm : string) (currentRequestId : nat)
    (r : settled (option (list Suggestion.t)) string) (s : state) : state :=
  if isStillCurrent searchTerm currentRequestId s then
    setIsLoading false
      match r with
      | Fulfilled (Some found) => setShowPopup true (setSuggestions found s)
      | Fulfilled None => setShowPopup true (setSuggestions [] s)
      | Rejected _ => setSuggestions [] s
      end
  else s.

Definition handleInputChange (p : props) (value : string) (s : state) : state :=
  let s1 := setSearchValue value s in
  match selectedBook s with
  | Some book =>
      if negb (String.eqb value (Book.title book)) then
        notifyParent p None (setSelectedBook None s1)
      else s1
  | None => s1
  end.

Definition handleFocus (s : state) : state :=
  if negb (isEmpty (trim (searchValue s)))
     && negb (Nat.eqb (List.length (suggestions s)) 0)
  then setShowPopup true s
  else s.

Definition handleBlur (t : nat) (s : state) : state :=
  setBlurTimers (blurTimers s ++ [t + 200]) s.

(** [handleSelectSuggestion], up to its [await]. *)
Definition handleSelectSuggestion (t : nat) (suggestion : Suggestion.t)
    (s : state) : state :=
  suspend BookPending
    (send t (GetBook (Suggestion.id suggestion))
      (setIsLoading true
        (setShowPopup false
          (setSearchValue (Suggestion.text suggestion)
            (clearTimeout s))))).

(** [handleSelectSuggestion], from the moment [getBook] settles. *)
Definition bookSettled (p : props) (r : settled Book.t string) (s : state) : state :=
  setIsLoading false
    match r with
    | Fulfilled fullBook =>
        notifyParent p (Some fullBook) (setSelectedBook (Some fullBook) s)
    | Rejected _ =>
        notifyParent p None (setSelectedBook None s)
    end.

Definition handleAction (p : props) (s : state) : state :=
  match selectedBook s with
  | Some book => if onAction p then callAction book s else s
  | None => s
  end.

Definition clearSelection (p : props) (s : state) : state :=
  notifyParent p None
    (setCurrentSearchRef ""
      (setShowPopup false
        (setSuggestions []
          (setSelectedBook None
            (setSearchValue ""
              (clearTimeout s)))))).

Inductive event : Type :=
| Change (value : string)          (* onChange of the input *)
| ParentRenders                    (* a new onBookSelect is passed down *)
| TimerFires                       (* the debounce timeout runs *)
| SearchSettles (searchTerm : string) (currentRequestId : nat)
    (r : settled (option (list Suggestion.t)) string)
| Focus
| Blur
| BlurTimerFires
| Pick (n : nat)                   (* click on the n-th suggestion shown *)
| BookSettles (r : settled Book.t string)
| Act                              (* the action button *)
| Clear.                           (* the clear button *)

Definition isSearchPending (searchTerm : string) (currentRequestId : nat)
    (k : pending) : bool :=
  match k with
  | SearchPending q n => String.eqb q searchTerm && Nat.eqb n currentRequestId
  | BookPending => false
  end.

Definition isBookPending (k : pending) : bool :=
  match k with
  | BookPending => true
  | SearchPending _ _ => false
  end.

(** What an event does at time [t]; [None] when the page does not offer
    it: a timeout before its delay has passed, a promise that is not
    pending, a control that is not rendered. *)
Definition react (p : props) (t : nat) (e : event) (s : state) : option state :=
  match e with
  | Change value => Some (afterRender p t s (handleInputChange p value s))
  | ParentRenders => Some (searchEffect p t s)
  | TimerFires =>
      match searchTimeoutRef s with
      | Some tm =>
          if Nat.leb (due tm) t then Some (searchNow t tm (clearTimeout s))
          else None
      | None => None
      end
  | SearchSettles q n r =>
      match removeFirst (isSearchPending q n) (awaiting s) with
      | Some rest => Some (searchSettled q n r (resume rest s))
      | None => None
      end
  | Focus => Some (handleFocus s)
  | Blur => Some (handleBlur t s)
  | BlurTimerFires =>
      match blurTimers s with
      | d :: rest =>
          if Nat.leb d t then Some (setShowPopup false (setBlurTimers rest s))
          else None
      | [] => None
      end
  | Pick n =>
      match nth_error (suggestions s) n with
      | Some suggestion =>
          if showPopup s && negb (isLoading s) then
            Some (afterRender p t s (handleSelectSuggestion t suggestion s))
          else None
      | None => None
      end
  | BookSettles r =>
      match removeFirst isBookPending (awaiting s) with
      | Some rest => Some (bookSettled p r (resume rest s))
      | None => None
      end
  | Act =>
      if actionMode p && onAction p && showBookInfo p && isSome (selectedBook s)
      then Some (handleAction p s) else None
  | Clear =>
      if isSome (selectedBook s) || negb (isEmpty (searchValue s))
      then Some (afterRender p t s (clearSelection p s)) else None
  end.

(** Time does not run backwards. *)
Definition step (p : props) (t : nat) (e : event) (s : state) : option state :=
  if Nat.leb (clock s) t then
    match react p t e s with
    | Some s' => Some (setClock t s')
    | None => None
    end
  else None.

Fixpoint run (p : props) (es : list (nat * event)) (s : state) : option state :=
  match es with
  | [] => Some s
  | (t, e) :: rest =>
      match step p t e s with
      | Some s' => run p rest s'
      | None => None
      end
  end.

(** The component after its first render: the effect has run once on the
    empty input. *)
Definition mounted (p : props) : state := searchEffect p 0 initial.

(** The lookups sent so far: time and query. *)
Fixpoint lookups (l : list (nat * request)) : list (nat * string) :=
  match l with
  | [] => []
  | (t, SearchBooks q) :: rest => (t, q) :: lookups rest
  | (_, GetBook _) :: rest => lookups rest
  end.

(** What ties the refs to the input between events: the pending timeout
    belongs to the latest effect run and searches for the trimmed input;
    a lookup in flight has a non-empty query and a tag that was issued,
    and when its tag is the latest and its query is the stored current
    query, the query is the trimmed input. *)
Definition coherent (s : state) : Prop :=
  (forall tm, searchTimeoutRef s = Some tm ->
     currentRequestId tm = requestIdRef s /\
     searchTerm tm = trim (searchValue s) /\
     searchTerm tm <> "") /\
  (forall q n, In (SearchPending q n) (awaiting s) ->
     q <> "" /\ n <= requestIdRef s /\
     (n = requestIdRef s -> currentSearchRef s = q ->
      trim (searchValue s) = q)).

(** The part of [coherent] that the effect needs to restore the rest. *)
Definition tagged (s : state) : Prop :=
  forall q n, In (SearchPending q n) (awaiting s) ->
    q <> "" /\ n <= requestIdRef s.




End BookSearchbar.

(** ** The customer search box: [SearchBar] *)

Module SearchBar.
Import JS Util.

Record props : Type := {
  onSelectSuggestion : bool    (* whether the parent passed the callback *)
}.

Record state : Type := {
  (* useState *)
  showPopup : bool;
  searchValue : string;
  suggestions : list Suggestion.t;
  isLoading : bool;
  (* outside the component *)
  blurTimers : list nat;              (* due times of handleBlur's timeouts *)
  requests : list (nat * string);     (* calls of searchCustomers, with their time *)
  chosen : list Suggestion.t;         (* calls of onSelectSuggestion *)
  awaiting : list string;             (* queries whose answer is pending *)
  clock : nat                         (* time of the last event, in ms *)
}.

Definition initial : state :=
  {| showPopup := false; searchValue := ""; suggestions := [];
     isLoading := false; blurTimers := []; requests := []; chosen := [];
     awaiting := []; clock := 0 |}.

Definition setShowPopup (v : bool) (s : state) : state :=
  {| showPopup := v; searchValue := searchValue s;
     suggestions := suggestions s; isLoading := isLoading s;
     blurTimers := blurTimers s; requests := requests s; chosen := chosen s;
     awaiting := awaiting s; clock := clock s |}.

Definition setSearchValue (v : string) (s : state) : state :=
  {| showPopup := showPopup s; searchValue := v;
     suggestions := suggestions s; isLoading := isLoading s;
     blurTimers := blurTimers s; requests := requests s; chosen := chosen s;
     awaiting := awaiting s; clock := clock s |}.

Definition setSuggestions (v : list Suggestion.t) (s : state) : state :=
  {| showPopup := showPopup s; searchValue := searchValue s;
     suggestions := v; isLoading := isLoading s; blurTimers := blurTimers s;
     requests := requests s; chosen := chosen s; awaiting := awaiting s;
     clock := clock s |}.

Definition setIsLoading (v : bool) (s : state) : state :=
  {| showPopup := showPopup s; searchValue := searchValue s;
     suggestions := suggestions s; isLoading := v;
     blurTimers := blurTimers s; requests := requests s; chosen := chosen s;
     awaiting := awaiting s; clock := clock s |}.

Definition setBlurTimers (v : list nat) (s : state) : state :=
  {| showPopup := showPopup s; searchValue := searchValue s;
     suggestions := suggestions s; isLoading := isLoading s; blurTimers := v;
     requests := requests s; chosen := chosen s; awaiting := awaiting s;
     clock := clock s |}.

Definition setClock (v : nat) (s : state) : state :=
  {| showPopup := showPopup s; searchValue := searchValue s;
     suggestions := suggestions s; isLoading := isLoading s;
     blurTimers := blurTimers s; requests := requests s; chosen := chosen s;
     awaiting := awaiting s; clock := v |}.

(** [apiService.searchCustomers(query)] called at time [t]; the handler
    is suspended until it settles. *)
Definition searchCustomers (t : nat) (query : string) (s : state) : state :=
  {| showPopup := showPopup s; searchValue := searchValue s;
     suggestions := suggestions s; isLoading := isLoading s;
     blurTimers := blurTimers s; requests := requests s ++ [(t, query)];
     chosen := chosen s; awaiting := awaiting s; clock := clock s |}.

Definition suspend (query : string) (s : state) : state :=
  {| showPopup := showPopup s; searchValue := searchValue s;
     suggestions := suggestions s; isLoading := isLoading s;
     blurTimers := blurTimers s; requests := requests s; chosen := chosen s;
     awaiting := awaiting s ++ [query]; clock := clock s |}.

Definition resume (rest : list string) (s : state) : state :=
  {| showPopup := showPopup s; searchValue := searchValue s;
     suggestions := suggestions s; isLoading := isLoading s;
     blurTimers := blurTimers s; requests := requests s; chosen := chosen s;
     awaiting := rest; clock := clock s |}.

(** [onSelectSuggestion(suggestion)] *)
Definition notifyParent (p : props) (suggestion : Suggestion.t) (s : state) : state :=
  {| showPopup := showPopup s; searchValue := searchValue s;
     suggestions := suggestions s; isLoading := isLoading s;
     blurTimers := blurTimers s; requests := requests s;
     chosen := if onSelectSuggestion p then chosen s ++ [suggestion] else chosen s;
     awaiting := awaiting s; clock := clock s |}.

(** [handleInputChange], up to its [await] when it has one. *)
Definition handleInputChange (t : nat) (value : string) (s : state) : state :=
  let s1 := setSearchValue value s in
  if negb (isEmpty (trim value)) then
    suspend value (searchCustomers t value (setIsLoading true s1))
  else
    setShowPopup false (setSuggestions [] s1).

(** [handleInputChange], from the moment [searchCustomers] settles. *)
Definition searchSettled (r : settled (option (list Suggestion.t)) string)
    (s : state) : state :=
  setIsLoading false
    match r with
    | Fulfilled (Some found) => setShowPopup true (setSuggestions found s)
    | Fulfilled None => setShowPopup true (setSuggestions [] s)
    | Rejected _ => setSuggestions [] s
    end.

Definition handleFocus (s : state) : state :=
  if negb (isEmpty (trim (searchValue s))) then setShowPopup true s else s.

Definition handleBlur (t : nat) (s : state) : state :=
  setBlurTimers (blurTimers s ++ [t + 200]) s.

Definition handleSelectSuggestion (p : props) (suggestion : Suggestion.t)
    (s : state) : state :=
  notifyParent p suggestion
    (setShowPopup false
      (setSearchValue (Suggestion.text suggestion) s)).

Inductive event : Type :=
| Change (value : string)
| SearchSettles (query : string)
    (r : settled (option (list Suggestion.t)) string)
| Focus
| Blur
| BlurTimerFires
| Pick (n : nat).

Definition react (p : props) (t : nat) (e : event) (s : state) : option state :=
  match e with
  | Change value => Some (handleInputChange t value s)
  | SearchSettles q r =>
      match removeFirst (String.eqb q) (awaiting s) with
      | Some rest => Some (searchSettled r (resume rest s))
      | None => None
      end
  | Focus => Some (handleFocus s)
  | Blur => Some (handleBlur t s)
  | BlurTimerFires =>
      match blurTimers s with
      | d :: rest =>
          if Nat.leb d t then Some (setShowPopup false (setBlurTimers rest s))
          else None
      | [] => None
      end
  | Pick n =>
      match nth_error (suggestions s) n with
      | Some suggestion =>
          if showPopup s && negb (isLoading s) then
            Some (handleSelectSuggestion p suggestion s)
          else None
      | None => None
      end
  end.

Definition step (p : props) (t : nat) (e : event) (s : state) : option state :=
  if Nat.leb (clock s) t then
    match react p t e s with
    | Some s' => Some (setClock t s')
    | None => None
    end
  else None.

Fixpoint run (p : props) (es : list (nat * event)) (s : state) : option state :=
  match es with
  | [] => Some s
  | (t, e) :: rest =>
      match step p t e s with
      | Some s' => run p rest s'
      | None => None
      end
  end.

End SearchBar.

(** ** The container: [Mainwindow] *)

Module Mainwindow.
Import JS Util.

Inductive tab : Type := temp1 | temp2 | temp3.

Record state : Type := {
  (* useState *)
  activeTab : tab;
  customerDetails : option Customer.t;
  isLoading : bool;
  bookDetails : option Book.t;
  isBookLoading : bool;
  (* outside the component *)
  requests : list Z;          (* ids passed to getCustomer, oldest first *)
  awaiting : nat              (* calls of getCustomer that have not settled *)
}.

Definition initial : state :=
  {| activeTab := temp1; customerDetails := None; isLoading := false;
     bookDetails := None; isBookLoading := false; requests := [];
     awaiting := 0 |}.

Definition setActiveTab (v : tab) (s : state) : state :=
  {| activeTab := v; customerDetails := customerDetails s;
     isLoading := isLoading s; bookDetails := bookDetails s;
     isBookLoading := isBookLoading s; requests := requests s;
     awaiting := awaiting s |}.

Definition setCustomerDetails (v : option Customer.t) (s : state) : state :=
  {| activeTab := activeTab s; customerDetails := v;
     isLoading := isLoading s; bookDetails := bookDetails s;
     isBookLoading := isBookLoading s; requests := requests s;
     awaiting := awaiting s |}.

Definition setIsLoading (v : bool) (s : state) : state :=
  {| activeTab := activeTab s; customerDetails := customerDetails s;
     isLoading := v; bookDetails := bookDetails s;
     isBookLoading := isBookLoading s; requests := requests s;
     awaiting := awaiting s |}.

Definition setBookDetails (v : option Book.t) (s : state) : state :=
  {| activeTab := activeTab s; customerDetails := customerDetails s;
     isLoading := isLoading s; bookDetails := v;
     isBookLoading := isBookLoading s; requests := requests s;
     awaiting := awaiting s |}.

Definition setIsBookLoading (v : bool) (s : state) : state :=
  {| activeTab := activeTab s; customerDetails := customerDetails s;
     isLoading := isLoading s; bookDetails := bookDetails s;
     isBookLoading := v; requests := requests s; awaiting := awaiting s |}.

(** [apiService.getCustomer(id)]; the handler is suspended until it
    settles. *)
Definition getCustomer (id : Z) (s : state) : state :=
  {| activeTab := activeTab s; customerDetails := customerDetails s;
     isLoading := isLoading s; bookDetails := bookDetails s;
     isBookLoading := isBookLoading s; requests := requests s ++ [id];
     awaiting := awaiting s |}.

Definition suspend (s : state) : state :=
  {| activeTab := activeTab s; customerDetails := customerDetails s;
     isLoading := isLoading s; bookDetails := bookDetails s;
     isBookLoading := isBookLoading s; requests := requests s;
     awaiting := S (awaiting s) |}.

Definition resume (s : state) : state :=
  {| activeTab := activeTab s; customerDetails := customerDetails s;
     isLoading := isLoading s; bookDetails := bookDetails s;
     isBookLoading := isBookLoading s; requests := requests s;
     awaiting := pred (awaiting s) |}.

(** [handleSelectCustomer], up to its [await]. *)
Definition handleSelectCustomer (customer : Suggestion.t) (s : state) : state :=
  suspend (getCustomer (Suggestion.id customer) (setIsLoading true s)).

(** [handleSelectCustomer], from the moment [getCustomer] settles. *)
Definition customerSettled (r : settled Customer.t string) (s : state) : state :=
  setIsLoading false
    match r with
    | Fulfilled fullDetails => setCustomerDetails (Some fullDetails) s
    | Rejected _ => setCustomerDetails None s
    end.

(** [handleSelectBook]: it has no [await], so it runs to its end at once. *)
Definition handleSelectBook (book : option Book.t) (s : state) : state :=
  match book with
  | None => setIsBookLoading false (setBookDetails None s)
  | Some b =>
      setIsBookLoading false (setBookDetails (Some b) (setIsBookLoading true s))
  end.

Inductive event : Type :=
| OpenTab (t : tab)
| SelectCustomer (customer : Suggestion.t)    (* SearchBar calls onSelectSuggestion *)
| CustomerSettles (r : settled Customer.t string)
| SelectBook (book : option Book.t).          (* BookSearchbar calls onBookSelect *)

Definition step (e : event) (s : state) : option state :=
  match e with
  | OpenTab t => Some (setActiveTab t s)
  | SelectCustomer customer => Some (handleSelectCustomer customer s)
  | CustomerSettles r =>
      match awaiting s with
      | O => None
      | S _ => Some (customerSettled r (resume s))
      end
  | SelectBook book => Some (handleSelectBook book s)
  end.

Fixpoint run (es : list event) (s : state) : option state :=
  match es with
  | [] => Some s
  | e :: rest =>
      match step e s with
      | Some s' => run rest s'
      | None => None
      end
  end.

(** The container after the calls of [onBookSelect] that a book search box
    has made, in order. *)
Definition told (calls : list (option Book.t)) (s : state) : state :=
  fold_left (fun m book => handleSelectBook book m) calls s.

End Mainwindow.

(** ** Invariants of the components, used by the properties beyond the
    specification *)

Module BorrowBookInv.
Import JS Util BorrowBook.

(** What the form shows fits together: an available-copy marker belongs to
    the displayed book, which had a copy left when it was fetched; a
    search in flight was started for the text still in the input, was the
    last request sent, and no error is shown meanwhile; a borrow in flight
    was confirmed on a displayed offer. *)
Definition consistent (s : state) : Prop :=
  (forall x, availableCopy s = Some x ->
     exists book, bookData s = Some book /\ x = Book.id book /\
                  (0 < Book.available_copies book)%Z) /\
  (forall b, In (SearchPending b) (awaiting s) ->
     bookId s = b /\ errorMessage s = "" /\
     exists earlier, requests s = (earlier ++ [GetBook (trim b)])%list) /\
  (In BorrowPending (awaiting s) ->
     isSome (bookData s) = true /\ isSome (availableCopy s) = true).

(** Without a customer id nothing is ever borrowed. *)
Definition neverBorrowed (s : state) : Prop :=
  borrowRequests s = [] /\ ~ In BorrowPending (awaiting s) /\
  refreshed s = 0 /\ isBorrowing s = false.

End BorrowBookInv.

Module SearchPropertiesInv.
Import JS Util SearchProperties.

Definition isListPending (k : pending) : bool :=
  match k with
  | LoadPending _ => true
  | ReturnPending _ => false
  end.

(** A return that has not finished: its request, or the reload that
    follows it. *)
Definition isReturnRunning (k : pending) : bool :=
  match k with
  | ReturnPending _ => true
  | LoadPending FromReturn => true
  | LoadPending _ => false
  end.

(** The two busy markers are backed by work in flight. *)
Definition backed (s : state) : Prop :=
  (isLoading s = true -> existsb isListPending (awaiting s) = true) /\
  (forall id, returningId s = Some id ->
     existsb isReturnRunning (awaiting s) = true).

Definition customerOf (r : request) : Z :=
  match r with
  | GetCustomerBorrowed customerId => customerId
  | ReturnBook customerId _ => customerId
  end.

(** Nothing was asked of the server and nothing is shown. *)
Definition silent (s : state) : Prop :=
  requests s = [] /\ awaiting s = [] /\ borrowed s = [] /\
  isLoading s = false /\ returningId s = None /\ alerts s = [].

End SearchPropertiesInv.

Module BookSearchbarInv.
Import JS Util BookSearchbar.

(** The parent was told last what the box has selected. *)
Definition agreed (s : state) : Prop :=
  exists earlier, selections s = (earlier ++ [selectedBook s])%list.

(** A blank input shows nothing. *)
Definition blankIsQuiet (s : state) : Prop :=
  trim (searchValue s) = "" -> suggestions s = [] /\ showPopup s = false.

(** The sequence tags of the lookups in flight. *)
Fixpoint pendingTags (l : list pending) : list nat :=
  match l with
  | [] => []
  | SearchPending _ n :: rest => n :: pendingTags rest
  | BookPending :: rest => pendingTags rest
  end.

(** Tags are issued once: the lookups in flight have distinct tags, all
    issued already, and the tag of the pending timeout is not among
    them. *)
Definition distinctTags (s : state) : Prop :=
  NoDup (pendingTags (awaiting s)) /\
  Forall (fun n => n <= requestIdRef s) (pendingTags (awaiting s)) /\
  (forall tm, searchTimeoutRef s = Some tm ->
     currentRequestId tm = requestIdRef s /\
     ~ In (requestIdRef s) (pendingTags (awaiting s))).

(** The part of [distinctTags] that survives a cleared timeout. *)
Definition issued (s : state) : Prop :=
  NoDup (pendingTags (awaiting s)) /\
  Forall (fun n => n <= requestIdRef s) (pendingTags (awaiting s)).

(** The lookups in flight that would still pass the guard. *)
Definition currentLookups (s : state) : list nat :=
  filter (fun n => Nat.eqb n (requestIdRef s)) (pendingTags (awaiting s)).

(** No lookup in the log asks for the empty string. *)
Definition nonBlank (l : list (nat * string)) : Prop :=
  Forall (fun a => snd a <> "") l.

End BookSearchbarInv.

Module SearchBarInv.
Import JS Util SearchBar.

(** Every query sent has something to search for, and the loading flag is
    backed by a lookup in flight. *)
Definition sound (s : state) : Prop :=
  Forall (fun r => trim (snd r) <> "") (requests s) /\
  Forall (fun q => trim q <> "") (awaiting s) /\
  (isLoading s = true -> awaiting s <> []) /\
  List.length (awaiting s) <= List.length (requests s).

End SearchBarInv.

(** How a component sees a call of [apiService] whose data it does not
    read ([borrowBook], [returnBook]): fulfilled, or rejected with
    [error.message]. *)
Module Wiring.
Import JS.

(** [error.message] of what [request] throws; [None] where the text is the
    JavaScript engine's own (a TypeError, a SyntaxError, a failed fetch). *)
Definition message (e : ApiService.exn) : option string :=
  match e with
  | ApiService.Error m => Some m
  | _ => None
  end.

Definition outcome {D : doubles} (fetched : settled (ApiService.Response D) unit)
    : option (settled unit string) :=
  match ApiService.request fetched with
  | Fulfilled _ => Some (Fulfilled tt)
  | Rejected e =>
      match message e with
      | Some m => Some (Rejected m)
      | None => None
      end
  end.

End Wiring.

Module MainwindowInv.
Import JS Util Mainwindow.

(** The ids of the customers picked in a sequence of events, in order. *)
Fixpoint picked (es : list event) : list Z :=
  match es with
  | [] => []
  | SelectCustomer customer :: rest => Suggestion.id customer :: picked rest
  | _ :: rest => picked rest
  end.

Fixpoint settledCount (es : list event) : nat :=
  match es with
  | [] => 0
  | CustomerSettles _ :: rest => S (settledCount rest)
  | _ :: rest => settledCount rest
  end.

End MainwindowInv.

(** ** Concrete inputs used by the examples below *)

Module Examples.
Import JS.

(** The doubles that are integers of absolute value at most 2^53 - 1:
    every one of them is a double, falsy exactly when it is 0, and
    printed by the platform in plain decimal. *)
Record SafeInteger : Type := {
  integer : Z;
  isSafe : (Z.abs integer <=? 9007199254740991)%Z = true
}.

Definition integers : doubles :=
  {| double := SafeInteger;
     isTruthy := fun n => negb (Z.eqb (integer n) 0);
     toText := fun n => numberToString (integer n) |}.

Definition dune : Book.t :=
  {| Book.id := 7; Book.title := "Dune"; Book.author_name := "Frank Herbert";
     Book.unique_id := "B-0007"; Book.copies_count := 3;
     Book.available_copies := 2; Book.total_borrowed := 11 |}.

(** The same title with every copy lent out. *)
Definition dune_out : Book.t :=
  {| Book.id := 7; Book.title := "Dune"; Book.author_name := "Frank Herbert";
     Book.unique_id := "B-0007"; Book.copies_count := 3;
     Book.available_copies := 0; Book.total_borrowed := 12 |}.

Definition alice : Customer.t :=
  {| Customer.id := 4; Customer.first_name := "Alice";
     Customer.last_name := "Liddell"; Customer.email := "alice@example.org";
     Customer.birth_date := "1990-05-04"; Customer.address := "Oxford" |}.

Definition borrowProps : BorrowBook.props :=
  {| BorrowBook.customerDetails := Some alice;
     BorrowBook.onBorrowSuccess := true |}.

Definition blank_form : BorrowBook.state :=
  BorrowBook.setBookId "   " BorrowBook.initial.

(** A form that found "Dune" and was asked to borrow it. *)
Definition findDune : list BorrowBook.event :=
  [BorrowBook.Edit "7"; BorrowBook.Find;
   BorrowBook.SearchSettles "7" (Fulfilled dune)].

Definition formAfter (es : list BorrowBook.event) : BorrowBook.state :=
  match BorrowBook.run borrowProps es BorrowBook.initial with
  | Some s => s
  | None => BorrowBook.initial
  end.

(** The form while the borrow request for "Dune" is in flight, and after
    the server accepted it. *)
Definition borrowingDune : BorrowBook.state :=
  formAfter (findDune ++ [BorrowBook.Confirm]).

Definition borrowedDune : BorrowBook.state :=
  BorrowBook.borrowSettled borrowProps (Fulfilled tt)
    (BorrowBook.resume [] borrowingDune).

(** The form while the search for "7" is in flight, and after it found
    the title with no copy left. *)
Definition searchingDune : BorrowBook.state :=
  formAfter [BorrowBook.Edit "7"; BorrowBook.Find].

Definition duneUnavailable : BorrowBook.state :=
  BorrowBook.searchSettled "7" (Fulfilled dune_out)
    (BorrowBook.resume [] searchingDune).

(** The form opened without a customer. *)
Definition strangerProps : BorrowBook.props :=
  {| BorrowBook.customerDetails := None;
     BorrowBook.onBorrowSuccess := true |}.

Definition strangerAfter (es : list BorrowBook.event) : BorrowBook.state :=
  match BorrowBook.run strangerProps es BorrowBook.initial with
  | Some s => s
  | None => BorrowBook.initial
  end.

(** The server refuses the borrow of "Dune". *)
Definition refused : BorrowBook.event :=
  BorrowBook.BorrowSettles (Rejected "No copies left").

Definition refusedDune : BorrowBook.state :=
  formAfter (findDune ++ [BorrowBook.Confirm; refused]).

(** The id is typed with blanks around it and is unknown to the server. *)
Definition findUnknown : list BorrowBook.event :=
  [BorrowBook.Edit " 99 "; BorrowBook.Find].

Definition unknownBook : BorrowBook.event :=
  BorrowBook.SearchSettles " 99 " (Rejected "HTTP error! status: 404").

(** HTTP 400 whose body is [{ detail: '' }], and one whose body is
    [{ detail: 'No copies left' }]. *)
Definition emptyDetail : ApiService.Response integers :=
  {| ApiService.status := 400;
     ApiService.body := Some (JObj [("detail", JStr "")]) |}.

Definition withDetail : ApiService.Response integers :=
  {| ApiService.status := 400;
     ApiService.body := Some (JObj [("detail", JStr "No copies left")]) |}.

Definition panelProps : SearchProperties.props :=
  {| SearchProperties.customerDetails := Some alice |}.

Definition loanOf (event_id id : Z) (title : string) : BorrowRecord.t :=
  {| BorrowRecord.event_id := event_id; BorrowRecord.id := id;
     BorrowRecord.title := title; BorrowRecord.author := "";
     BorrowRecord.borrowed_on := "2025-01-15" |}.

Definition loans : list BorrowRecord.t :=
  [loanOf 101 7 "Dune"; loanOf 102 9 "Emma"].

(** The panel with Alice's two loans on screen. *)
Definition loansShown : list SearchProperties.event :=
  [SearchProperties.LoadSettles SearchProperties.FromEffect
     (Fulfilled (Some loans))].

Definition panelAfter (es : list SearchProperties.event) : SearchProperties.state :=
  match SearchProperties.run panelProps es (SearchProperties.mount panelProps) with
  | Some s => s
  | None => SearchProperties.mount panelProps
  end.

Definition loansOnScreen : SearchProperties.state := panelAfter loansShown.

(** Return is clicked on "Dune", and on "Emma" before the first request
    has settled. *)
Definition twoReturns : list SearchProperties.event :=
  loansShown ++
  [SearchProperties.ClickReturn 101; SearchProperties.ClickReturn 102].

Definition returningDune : SearchProperties.state :=
  SearchProperties.handleReturn panelProps 101 loansOnScreen.

(** Return is clicked on "Dune" and accepted by the server: the list is
    being reloaded while the row is still marked as returning. *)
Definition reloadingAfterReturn : list SearchProperties.event :=
  loansShown ++
  [SearchProperties.ClickReturn 101;
   SearchProperties.ReturnSettles 101 (Fulfilled tt)].

Definition searchProps : BookSearchbar.props :=
  {| BookSearchbar.onBookSelect := true; BookSearchbar.onAction := false;
     BookSearchbar.actionMode := false; BookSearchbar.showBookInfo := false |}.

Definition suggestDune : Suggestion.t :=
  {| Suggestion.id := 7; Suggestion.text := "Dune";
     Suggestion.detail := "Frank Herbert" |}.

Definition suggestDubliners : Suggestion.t :=
  {| Suggestion.id := 8; Suggestion.text := "Dubliners";
     Suggestion.detail := "James Joyce" |}.

(** "Du" is looked up after its quiet interval; the user types on at 350
    ms, while that lookup is in flight. *)
Definition typedOn : list (nat * BookSearchbar.event) :=
  [(0, BookSearchbar.Change "Du"); (300, BookSearchbar.TimerFires);
   (350, BookSearchbar.Change "Dun")].


(** A book was picked from the suggestions and has loaded. *)
Definition pickedDune : list (nat * BookSearchbar.event) :=
  [(0, BookSearchbar.Change "Du"); (300, BookSearchbar.TimerFires);
   (340, BookSearchbar.SearchSettles "Du" 1
           (Fulfilled (Some [suggestDune; suggestDubliners])));
   (900, BookSearchbar.Pick 0);
   (950, BookSearchbar.BookSettles (Fulfilled dune))].

Definition customerProps : SearchBar.props :=
  {| SearchBar.onSelectSuggestion := true |}.

Definition suggestAlice : Suggestion.t :=
  {| Suggestion.id := 4; Suggestion.text := "Alice Liddell";
     Suggestion.detail := "555-0104" |}.

Definition suggestAdam : Suggestion.t :=
  {| Suggestion.id := 5; Suggestion.text := "Adam Smith";
     Suggestion.detail := "555-0105" |}.



Definition customerAfter (es : list (nat * SearchBar.event)) : SearchBar.state :=
  match SearchBar.run customerProps es SearchBar.initial with
  | Some s => s
  | None => SearchBar.initial
  end.

Definition stateAfter (es : list (nat * BookSearchbar.event)) : BookSearchbar.state :=
  match BookSearchbar.run searchProps es (BookSearchbar.mounted searchProps) with
  | Some s => s
  | None => BookSearchbar.initial
  end.



(** The customer box: "Al" is typed and emptied again before the answer
    arrives. *)
Definition emptiedEarly : list (nat * SearchBar.event) :=
  [(0, SearchBar.Change "Al"); (40, SearchBar.Change "");
   (90, SearchBar.SearchSettles "Al" (Fulfilled (Some [suggestAlice])))].



(** A panel whose customer has the id 0, which JavaScript takes as no
    id. *)
Definition nobody : Customer.t :=
  {| Customer.id := 0; Customer.first_name := "N"; Customer.last_name := "N";
     Customer.email := ""; Customer.birth_date := ""; Customer.address := "" |}.

Definition nobodyProps : SearchProperties.props :=
  {| SearchProperties.customerDetails := Some nobody |}.

Definition nobodyClicks : list SearchProperties.event :=
  [SearchProperties.SelectTab SearchProperties.borrow_tab;
   SearchProperties.BorrowSucceeded;
   SearchProperties.SelectTab SearchProperties.borrowed_tab].

Definition nobodyAfter (es : list SearchProperties.event) : SearchProperties.state :=
  match SearchProperties.run nobodyProps es (SearchProperties.mount nobodyProps) with
  | Some s => s
  | None => SearchProperties.mount nobodyProps
  end.

(** The first return is refused by the server while the second is still
    in flight. *)
Definition firstRefused : list SearchProperties.event :=
  twoReturns ++
  [SearchProperties.ReturnSettles 101 (Rejected "Already returned")].

(** The book box: "Du" is looked up, the input is blanked while the
    lookup is in flight, and the answer arrives afterwards. *)
Definition clearedWhileInFlight : list (nat * BookSearchbar.event) :=
  [(0, BookSearchbar.Change "Du"); (300, BookSearchbar.TimerFires);
   (320, BookSearchbar.Change " ");
   (340, BookSearchbar.SearchSettles "Du" 1
           (Fulfilled (Some [suggestDune; suggestDubliners])));
   (350, BookSearchbar.Focus)].

(** The book box: the lookup for "Du" and the lookup for "Dun" are both
    in flight. *)
Definition twoInFlight : list (nat * BookSearchbar.event) :=
  typedOn ++ [(650, BookSearchbar.TimerFires)].

(** The book box: " Du " is typed with blanks around it. *)
Definition typedPadded : list (nat * BookSearchbar.event) :=
  [(0, BookSearchbar.Change " Du ")].

(** The book box: "Dune" was picked and has loaded; the clear button is
    pressed while the lookup that the pick scheduled is still pending. *)
Definition pickedThenCleared : list (nat * BookSearchbar.event) :=
  pickedDune ++ [(1000, BookSearchbar.Clear)].

(** The book box: the suggestions for "Du" are on screen. *)
Definition suggested : list (nat * BookSearchbar.event) :=
  [(0, BookSearchbar.Change "Du"); (300, BookSearchbar.TimerFires);
   (340, BookSearchbar.SearchSettles "Du" 1
           (Fulfilled (Some [suggestDune; suggestDubliners])))].

(** HTTP 409 whose body is [{ detail: 409 }], and one whose body is
    [{ detail: { toString: 1 } }]. *)
Definition numericDetail : ApiService.Response integers :=
  {| ApiService.status := 409;
     ApiService.body :=
       Some (JObj [("detail",
                    JNum (D := integers)
                      {| integer := 409; isSafe := eq_refl |})]) |}.

Definition opaqueDetail : ApiService.Response integers :=
  {| ApiService.status := 409;
     ApiService.body :=
       Some (JObj [("detail", JObj [("toString", JBool true)])]) |}.

(** HTTP 502 with a body that is not JSON. *)
Definition badGateway : ApiService.Response integers :=
  {| ApiService.status := 502; ApiService.body := None |}.

(** The container: Adam is picked, then Alice, and Alice's details
    arrive. *)
Definition twoPicks : list Mainwindow.event :=
  [Mainwindow.SelectCustomer suggestAdam;
   Mainwindow.SelectCustomer suggestAlice;
   Mainwindow.CustomerSettles (Fulfilled alice)].

Definition containerAfter (es : list Mainwindow.event) : Mainwindow.state :=
  match Mainwindow.run es Mainwindow.initial with
  | Some s => s
  | None => Mainwindow.initial
  end.

End Examples.

(** ** Proof automation *)

(** Case analysis on every [match] and [if] that decides the outcome of an
    event, in a hypothesis or in the goal. *)
Ltac split_cases :=
  repeat match goal with
         | H : Some _ = Some _ |- _ => inversion H; subst; clear H
         | H : None = Some _ |- _ => discriminate H
         | H : context [match ?x with _ => _ end] |- _ => destruct x eqn:?
         end.

Ltac split_goal :=
  repeat match goal with
         | |- context [match ?x with _ => _ end] => destruct x eqn:?; simpl
         end.

(** ** Properties *)

Import JS.

Example numberToString_0 : numberToString 0 = "0".
Proof. reflexivity. Qed.

Example numberToString_neg : numberToString (-15) = "-15".
Proof. reflexivity. Qed.

Example trim_example : trim "  Al i " = "Al i".
Proof. reflexivity. Qed.

(** *** The client wrapper *)

Section Request.
Variable D : doubles.
Implicit Types (r : ApiService.Response D) (d : json D).

Lemma request_not_ok_rejects r :
  ApiService.ok r = false ->
  exists e, ApiService.request (Fulfilled r) = Rejected e.
Proof.
  intros Hok. unfold ApiService.request. rewrite Hok. simpl.
  destruct (getProperty _ _); [destruct (toString _)|]; eauto.
Qed.

Lemma request_detail r members d (m : string) :
  ApiService.ok r = false ->
  ApiService.body r = Some (JObj members) ->
  lookup "detail" members = ofJson d ->
  truthy (ofJson d) = true ->
  jsonToString d = Some m ->
  ApiService.request (Fulfilled r) = Rejected (ApiService.Error m).
Proof.
  intros Hok Hb Hd Ht Hm. unfold ApiService.request.
  rewrite Hok, Hb. simpl. rewrite Hd. unfold orElse. rewrite Ht.
  simpl. rewrite Hm. reflexivity.
Qed.

Lemma request_generic r :
  ApiService.ok r = false ->
  (ApiService.body r = None \/
   exists j v, ApiService.body r = Some j /\ getProperty j "detail" = Some v /\
               truthy v = false) ->
  ApiService.request (Fulfilled r) =
    Rejected (ApiService.Error (ApiService.httpError r)).
Proof.
  intros Hok [Hb | (j & v & Hb & Hp & Ht)]; unfold ApiService.request;
    rewrite Hok, Hb; simpl.
  - reflexivity.
  - rewrite Hp. unfold orElse. rewrite Ht. reflexivity.
Qed.

End Request.

(** C9, as the code has it.  A response that is not 2xx always makes
    [request] throw.  The error's message is the body's [detail] when the
    body parses as a JSON object whose [detail] is truthy and converts to
    a string (the string itself when it is a non-empty string, otherwise
    the string the platform converts it to); it is 'HTTP error! status: N'
    when the body does not parse, or parses to a value other than null
    with no truthy [detail].  A 2xx response whose body parses returns the
    parsed body. *)
Theorem request_outcomes (D : doubles) (r : ApiService.Response D) :
  (ApiService.ok r = false ->
     exists e, ApiService.request (Fulfilled r) = Rejected e) /\
  (forall members d m,
     ApiService.ok r = false ->
     ApiService.body r = Some (JObj members) ->
     lookup "detail" members = ofJson d ->
     truthy (ofJson d) = true ->
     jsonToString d = Some m ->
     ApiService.request (Fulfilled r) = Rejected (ApiService.Error m)) /\
  (forall members m,
     ApiService.ok r = false ->
     ApiService.body r = Some (JObj members) ->
     lookup "detail" members = ofJson (JStr m) ->
     m <> "" ->
     ApiService.request (Fulfilled r) = Rejected (ApiService.Error m)) /\
  (ApiService.ok r = false ->
     (ApiService.body r = None \/
      exists j v, ApiService.body r = Some j /\
                  getProperty j "detail" = Some v /\ truthy v = false) ->
     ApiService.request (Fulfilled r)
       = Rejected (ApiService.Error
                     ("HTTP error! status: " ++ numberToString (ApiService.status r)))) /\
  (forall data,
     ApiService.ok r = true ->
     ApiService.body r = Some data ->
     ApiService.request (Fulfilled r) = Fulfilled data).
Proof.
  split; [apply request_not_ok_rejects|].
  split; [intros; eapply request_detail; eauto|].
  split.
  { intros members m Hok Hb Hd Hm.
    apply (request_detail D r members (JStr m) m Hok Hb Hd); [|reflexivity].
    destruct m; [contradiction | reflexivity]. }
  split; [apply request_generic|].
  intros data Hok Hb. unfold ApiService.request. rewrite Hok, Hb. reflexivity.
Qed.

Lemma request_outcomes_witness :
  ApiService.ok Examples.withDetail = false /\
  ApiService.request (Fulfilled Examples.withDetail)
    = Rejected (ApiService.Error "No copies left") /\
  ApiService.ok Examples.numericDetail = false /\
  ApiService.request (Fulfilled Examples.numericDetail)
    = Rejected (ApiService.Error "409").
Proof.
  assert (Hok : ApiService.ok Examples.withDetail = false)
    by (vm_compute; reflexivity).
  assert (Hok' : ApiService.ok Examples.numericDetail = false)
    by (vm_compute; reflexivity).
  split; [exact Hok|]. split.
  - destruct (request_outcomes Examples.integers Examples.withDetail)
      as (_ & _ & H & _).
    apply (H [("detail", JStr "No copies left")] "No copies left" Hok);
      [reflexivity | vm_compute; reflexivity | discriminate].
  - split; [exact Hok'|].
    destruct (request_outcomes Examples.integers Examples.numericDetail)
      as (_ & H & _).
    eapply (H _ _ "409" Hok'); [reflexivity | | |]; vm_compute; reflexivity.
Defined.

(** C9 as stated fails: a 400 whose body is [{ detail: '' }] contains a
    [detail], yet the message thrown is the generic one. *)
Lemma request_empty_detail :
  ApiService.ok Examples.emptyDetail = false /\
  ApiService.body Examples.emptyDetail = Some (JObj [("detail", JStr "")]) /\
  ApiService.request (Fulfilled Examples.emptyDetail)
    = Rejected (ApiService.Error "HTTP error! status: 400") /\
  ApiService.request (Fulfilled Examples.emptyDetail)
    <> Rejected (ApiService.Error "").
Proof.
  split; [vm_compute; reflexivity|]. split; [reflexivity|].
  split; [vm_compute; reflexivity|]. vm_compute. discriminate.
Qed.

(** A [detail] that has no conversion to a string makes [new Error] throw:
    the caller gets a TypeError instead of a message. *)
Lemma request_opaque_detail :
  ApiService.ok Examples.opaqueDetail = false /\
  ApiService.request (Fulfilled Examples.opaqueDetail)
    = Rejected ApiService.TypeError.
Proof.
  split; vm_compute; reflexivity.
Qed.

(** *** The borrow form *)

Section BorrowBookFacts.
Import BorrowBook Util.
Variable p : props.

Lemma includes_middle (a b c : string) : includes b (a ++ b ++ c).
Proof. exists a, c. reflexivity. Qed.

Lemma append_assoc (a b c : string) : (a ++ b) ++ c = a ++ b ++ c.
Proof. induction a as [|ch a IH]; simpl; [reflexivity | now rewrite IH]. Qed.

Lemma noCopiesMessage_title (book : Book.t) :
  includes (Book.title book) (noCopiesMessage book).
Proof.
  unfold noCopiesMessage.
  exists ("Book " ++ dquote). eexists.
  rewrite append_assoc. reflexivity.
Qed.

Lemma noCopiesMessage_counts (book : Book.t) :
  includes (numberToString (Book.available_copies book) ++ "/"
              ++ numberToString (Book.copies_count book))
           (noCopiesMessage book).
Proof.
  unfold noCopiesMessage.
  exists ("Book " ++ dquote ++ Book.title book ++ dquote
            ++ " has no available copies ("), ")".
  rewrite !append_assoc. reflexivity.
Qed.

(** A borrow mutation leaves the component only through the Borrow button,
    which is rendered only next to an available copy. *)
Lemma no_copy_no_borrow (s s' : state) (e : event) :
  availableCopy s = None ->
  step p e s = Some s' ->
  borrowRequests s' = borrowRequests s.
Proof.
  intros Hc Hstep. destruct e; simpl in Hstep.
  - destruct (inputEnabled s); inversion Hstep; reflexivity.
  - destruct (inputEnabled s); inversion Hstep; subst.
    unfold searchBookCopy. destruct (isEmpty _); [reflexivity|].
    unfold borrowRequests. simpl. rewrite filter_app. simpl.
    now rewrite app_nil_r.
  - destruct (removeFirst _ _); inversion Hstep; subst.
    unfold searchSettled. destruct r; [destruct (_ >? _)%Z|]; reflexivity.
  - unfold confirmationEnabled in Hstep. rewrite Hc in Hstep. simpl in Hstep.
    rewrite andb_false_r in Hstep. discriminate.
  - unfold confirmationEnabled in Hstep. rewrite Hc in Hstep. simpl in Hstep.
    rewrite andb_false_r in Hstep. discriminate.
  - destruct (removeFirst _ _); inversion Hstep; subst.
    unfold borrowSettled. destruct r; reflexivity.
Qed.

End BorrowBookFacts.

(** C10. Submitting a blank or whitespace-only book identifier sets the
    error message to 'Please enter book ID' and does nothing else: no
    request is issued and every other field keeps its value. *)
Theorem searchBookCopy_blank (s : BorrowBook.state) :
  trim (BorrowBook.bookId s) = "" ->
  let s' := BorrowBook.searchBookCopy s in
  BorrowBook.errorMessage s' = "Please enter book ID" /\
  BorrowBook.requests s' = BorrowBook.requests s /\
  BorrowBook.awaiting s' = BorrowBook.awaiting s /\
  BorrowBook.bookData s' = BorrowBook.bookData s /\
  BorrowBook.availableCopy s' = BorrowBook.availableCopy s /\
  BorrowBook.isSearching s' = BorrowBook.isSearching s /\
  BorrowBook.isBorrowing s' = BorrowBook.isBorrowing s /\
  BorrowBook.bookId s' = BorrowBook.bookId s /\
  BorrowBook.refreshed s' = BorrowBook.refreshed s.
Proof.
  intros Hblank. unfold BorrowBook.searchBookCopy. rewrite Hblank. simpl.
  repeat split.
Qed.

Lemma searchBookCopy_blank_witness :
  trim (BorrowBook.bookId Examples.blank_form) = "" /\
  BorrowBook.errorMessage (BorrowBook.searchBookCopy Examples.blank_form)
    = "Please enter book ID" /\
  BorrowBook.requests (BorrowBook.searchBookCopy Examples.blank_form)
    = BorrowBook.requests Examples.blank_form.
Proof.
  assert (Hblank : trim (BorrowBook.bookId Examples.blank_form) = "")
    by (vm_compute; reflexivity).
  split; [exact Hblank|].
  pose proof (searchBookCopy_blank Examples.blank_form Hblank) as H.
  cbv zeta in H. destruct H as (H1 & H2 & _).
  split; [exact H1 | exact H2].
Defined.

Section BorrowCount.
Import BorrowBook Util.
Variable p : props.

Lemma removeFirst_filter {A : Type} (f g : A -> bool) (l rest : list A) :
  removeFirst f l = Some rest ->
  exists x, f x = true /\
    List.length (filter g l)
      = List.length (filter g rest) + (if g x then 1 else 0).
Proof.
  revert rest. induction l as [|a l IH]; intros rest H; simpl in H.
  - discriminate.
  - destruct (f a) eqn:Hfa.
    + inversion H; subst. exists a. split; [assumption|].
      simpl. destruct (g a); simpl; lia.
    + destruct (removeFirst f l) as [r'|]; [|discriminate].
      inversion H; subst. destruct (IH r' eq_refl) as (x & Hx & Hlen).
      exists x. split; [assumption|]. simpl.
      destruct (g a); simpl; lia.
Qed.

Lemma callbacks_bounded_step (e : event) (s s' : state) :
  callbacks_bounded s -> step p e s = Some s' -> callbacks_bounded s'.
Proof.
  unfold callbacks_bounded, pendingBorrows, borrowRequests.
  intros Inv Hstep. destruct e; simpl in Hstep.
  - destruct (inputEnabled s); inversion Hstep; subst. exact Inv.
  - destruct (inputEnabled s); inversion Hstep; subst.
    unfold searchBookCopy. destruct (isEmpty _); simpl; [exact Inv|].
    rewrite !filter_app. simpl. rewrite !app_nil_r. exact Inv.
  - destruct (removeFirst _ _) as [rest|] eqn:Hrm; inversion Hstep; subst.
    destruct (removeFirst_filter _ isBorrowPending _ _ Hrm) as (x & Hx & Hlen).
    destruct x as [b|]; simpl in Hx; [|discriminate]. simpl in Hlen.
    unfold searchSettled.
    destruct r; [destruct (_ >? _)%Z|]; simpl; lia.
  - destruct (confirmationEnabled s); inversion Hstep; subst.
    unfold handleBorrowConfirm.
    destruct (truthyId _ (customerDetails p)); [|exact Inv].
    destruct (truthyId _ (bookData s)); [|exact Inv].
    simpl. rewrite !filter_app, !length_app. simpl. lia.
  - destruct (confirmationEnabled s); inversion Hstep; subst. exact Inv.
  - destruct (removeFirst _ _) as [rest|] eqn:Hrm; inversion Hstep; subst.
    destruct (removeFirst_filter _ isBorrowPending _ _ Hrm) as (x & Hx & Hlen).
    rewrite Hx in Hlen.
    unfold borrowSettled. destruct r; simpl.
    + destruct (onBorrowSuccess p); lia.
    + lia.
Qed.

Lemma callbacks_bounded_run (es : list event) (s s' : state) :
  callbacks_bounded s -> run p es s = Some s' -> callbacks_bounded s'.
Proof.
  revert s. induction es as [|e es IH]; intros s Inv Hrun; simpl in Hrun.
  - inversion Hrun; subst. exact Inv.
  - destruct (step p e s) as [s1|] eqn:Hstep; [|discriminate].
    eapply IH; [|exact Hrun]. eapply callbacks_bounded_step; eauto.
Qed.

End BorrowCount.

(** C4. When the borrow mutation succeeds, [bookId], [bookData],
    [availableCopy] and [errorMessage] go back to their initial values
    ('', null, null, ''), and the parent's refresh callback is called once
    for it; over a whole session the callback is never called more often
    than borrow requests were confirmed. *)
Theorem borrow_success_resets (p : BorrowBook.props)
    (es : list BorrowBook.event) (s s' : BorrowBook.state) :
  BorrowBook.onBorrowSuccess p = true ->
  BorrowBook.run p es BorrowBook.initial = Some s ->
  BorrowBook.step p (BorrowBook.BorrowSettles (Fulfilled tt)) s = Some s' ->
  (BorrowBook.bookId s' = "" /\ BorrowBook.bookData s' = None /\
   BorrowBook.availableCopy s' = None /\ BorrowBook.errorMessage s' = "") /\
  (BorrowBook.bookId s' = BorrowBook.bookId BorrowBook.initial /\
   BorrowBook.bookData s' = BorrowBook.bookData BorrowBook.initial /\
   BorrowBook.availableCopy s' = BorrowBook.availableCopy BorrowBook.initial /\
   BorrowBook.errorMessage s' = BorrowBook.errorMessage BorrowBook.initial) /\
  BorrowBook.isBorrowing s' = false /\
  BorrowBook.refreshed s' = S (BorrowBook.refreshed s) /\
  BorrowBook.requests s' = BorrowBook.requests s /\
  BorrowBook.refreshed s' + BorrowBook.pendingBorrows s'
    <= List.length (BorrowBook.borrowRequests s').
Proof.
  intros Hcb Hrun Hstep.
  assert (Hinv : BorrowBook.callbacks_bounded s').
  { eapply callbacks_bounded_step; [|exact Hstep].
    eapply callbacks_bounded_run; [|exact Hrun].
    unfold BorrowBook.callbacks_bounded. cbn. lia. }
  simpl in Hstep.
  destruct (Util.removeFirst _ _) as [rest|]; inversion Hstep; subst.
  simpl. rewrite Hcb. repeat split.
  unfold BorrowBook.callbacks_bounded in Hinv. simpl in Hinv. rewrite Hcb in Hinv.
  exact Hinv.
Qed.

Lemma borrow_success_resets_witness :
  BorrowBook.run Examples.borrowProps
    (Examples.findDune ++ [BorrowBook.Confirm]) BorrowBook.initial
    = Some Examples.borrowingDune /\
  BorrowBook.step Examples.borrowProps
    (BorrowBook.BorrowSettles (Fulfilled tt)) Examples.borrowingDune
    = Some Examples.borrowedDune /\
  BorrowBook.requests Examples.borrowingDune
    = [BorrowBook.GetBook "7"; BorrowBook.BorrowBookFor 4 7] /\
  BorrowBook.bookId Examples.borrowedDune = "" /\
  BorrowBook.refreshed Examples.borrowedDune
    = S (BorrowBook.refreshed Examples.borrowingDune).
Proof.
  assert (Hcb : BorrowBook.onBorrowSuccess Examples.borrowProps = true)
    by reflexivity.
  assert (Hrun : BorrowBook.run Examples.borrowProps
                   (Examples.findDune ++ [BorrowBook.Confirm])
                   BorrowBook.initial = Some Examples.borrowingDune)
    by (vm_compute; reflexivity).
  assert (Hstep : BorrowBook.step Examples.borrowProps
                    (BorrowBook.BorrowSettles (Fulfilled tt))
                    Examples.borrowingDune = Some Examples.borrowedDune)
    by (vm_compute; reflexivity).
  split; [exact Hrun|]. split; [exact Hstep|].
  split; [vm_compute; reflexivity|].
  destruct (borrow_success_resets Examples.borrowProps _ _ _ Hcb Hrun Hstep)
    as ((H1 & _) & _ & _ & H4 & _).
  split; [exact H1 | exact H4].
Defined.

Section BorrowSequential.
Import BorrowBook Util.
Variable p : props.

Lemma sequential_step (e : event) (s s' : state) :
  sequential s -> step p e s = Some s' -> sequential s'.
Proof.
  unfold sequential. intros Inv Hstep.
  destruct e; simpl in Hstep; unfold inputEnabled, confirmationEnabled in Hstep.
  - destruct (isSearching s) eqn:Hs, (isBorrowing s) eqn:Hb;
      inversion Hstep; subst; simpl. rewrite Hs, Hb. exact Inv.
  - destruct (isSearching s) eqn:Hs, (isBorrowing s) eqn:Hb;
      inversion Hstep; subst.
    unfold searchBookCopy. destruct (isEmpty _); simpl.
    + rewrite Hs, Hb. exact Inv.
    + destruct (awaiting s) as [|[b|] [|k l]]; simpl;
        intuition congruence.
  - destruct (awaiting s) as [|[b|] [|k l]] eqn:Hw; simpl in Hstep;
      try tauto; try discriminate.
    destruct (String.eqb b bookId0); inversion Hstep; subst.
    unfold searchSettled.
    destruct r; [destruct (_ >? _)%Z|]; simpl; tauto.
  - destruct (bookData s) eqn:Hd, (availableCopy s) eqn:Hc,
      (isBorrowing s) eqn:Hb; inversion Hstep; subst.
    unfold handleBorrowConfirm. rewrite Hd.
    destruct (truthyId _ (customerDetails p));
      [destruct (truthyId _ (Some t))|]; simpl;
      rewrite ?Hb, ?Hd, ?Hc; try exact Inv.
    destruct (awaiting s) as [|[b|] [|k l]]; simpl; intuition congruence.
  - destruct (bookData s) eqn:Hd, (availableCopy s) eqn:Hc,
      (isBorrowing s) eqn:Hb; inversion Hstep; subst. simpl.
    destruct (awaiting s) as [|[b|] [|k l]]; simpl; intuition congruence.
  - destruct (awaiting s) as [|[b|] [|k l]] eqn:Hw; simpl in Hstep;
      try tauto; try discriminate.
    inversion Hstep; subst.
    unfold borrowSettled. destruct r; simpl; tauto.
Qed.

Lemma sequential_run (es : list event) (s s' : state) :
  sequential s -> run p es s = Some s' -> sequential s'.
Proof.
  revert s. induction es as [|e es IH]; intros s Inv Hrun; simpl in Hrun.
  - inversion Hrun; subst. exact Inv.
  - destruct (step p e s) as [s1|] eqn:Hstep; [|discriminate].
    eapply IH; [|exact Hrun]. eapply sequential_step; eauto.
Qed.

Lemma sequential_initial : sequential initial.
Proof. split; reflexivity. Qed.

End BorrowSequential.

(** C6. When the search finds a book whose [available_copies] is 0, the
    form shows an error naming the title and the copy counts, holds no
    available copy, offers no confirmation, and from that state no event
    issues a borrow mutation. *)
Theorem no_copies_is_error (p : BorrowBook.props)
    (es : list BorrowBook.event) (s s' : BorrowBook.state)
    (bookId : string) (book : Book.t) :
  Book.available_copies book = 0%Z ->
  BorrowBook.run p es BorrowBook.initial = Some s ->
  BorrowBook.step p (BorrowBook.SearchSettles bookId (Fulfilled book)) s
    = Some s' ->
  BorrowBook.bookData s' = Some book /\
  BorrowBook.availableCopy s' = None /\
  BorrowBook.isSearching s' = false /\
  BorrowBook.errorMessage s' = BorrowBook.noCopiesMessage book /\
  isEmpty (BorrowBook.errorMessage s') = false /\
  Util.includes (Book.title book) (BorrowBook.errorMessage s') /\
  Util.includes ("0/" ++ numberToString (Book.copies_count book))
    (BorrowBook.errorMessage s') /\
  BorrowBook.confirmationEnabled s' = false /\
  BorrowBook.borrowRequests s' = BorrowBook.borrowRequests s /\
  (forall e s'', BorrowBook.step p e s' = Some s'' ->
     BorrowBook.borrowRequests s'' = BorrowBook.borrowRequests s').
Proof.
  intros Hzero Hrun Hstep.
  pose proof (sequential_run p es _ _ sequential_initial Hrun) as Hseq.
  assert (Hfields :
    BorrowBook.bookData s' = Some book /\
    BorrowBook.availableCopy s' = None /\
    BorrowBook.isSearching s' = false /\
    BorrowBook.errorMessage s' = BorrowBook.noCopiesMessage book /\
    BorrowBook.borrowRequests s' = BorrowBook.borrowRequests s).
  { unfold BorrowBook.sequential in Hseq. simpl in Hstep.
    destruct (BorrowBook.awaiting s) as [|[b|] [|k l]]; simpl in Hstep;
      try tauto; try discriminate.
    destruct (String.eqb b bookId); inversion Hstep; subst.
    unfold BorrowBook.searchSettled. rewrite Hzero. simpl. tauto. }
  destruct Hfields as (Hd & Hc & Hs & Hm & Hreq).
  repeat split; try assumption.
  - rewrite Hm. reflexivity.
  - rewrite Hm. apply noCopiesMessage_title.
  - rewrite Hm. pose proof (noCopiesMessage_counts book) as H.
    rewrite Hzero in H. exact H.
  - unfold BorrowBook.confirmationEnabled. rewrite Hc. simpl.
    now rewrite andb_false_r.
  - intros e s'' Hnext. eapply no_copy_no_borrow; eauto.
Qed.

Lemma no_copies_is_error_witness :
  BorrowBook.run Examples.borrowProps
    [BorrowBook.Edit "7"; BorrowBook.Find] BorrowBook.initial
    = Some Examples.searchingDune /\
  BorrowBook.step Examples.borrowProps
    (BorrowBook.SearchSettles "7" (Fulfilled Examples.dune_out))
    Examples.searchingDune = Some Examples.duneUnavailable /\
  BorrowBook.errorMessage Examples.duneUnavailable
    = BorrowBook.noCopiesMessage Examples.dune_out /\
  BorrowBook.noCopiesMessage Examples.dune_out
    = "Book " ++ Util.dquote ++ "Dune" ++ Util.dquote
        ++ " has no available copies (0/3)" /\
  BorrowBook.confirmationEnabled Examples.duneUnavailable = false.
Proof.
  assert (Hzero : Book.available_copies Examples.dune_out = 0%Z)
    by reflexivity.
  assert (Hrun : BorrowBook.run Examples.borrowProps
                   [BorrowBook.Edit "7"; BorrowBook.Find] BorrowBook.initial
                 = Some Examples.searchingDune)
    by (vm_compute; reflexivity).
  assert (Hstep : BorrowBook.step Examples.borrowProps
                    (BorrowBook.SearchSettles "7" (Fulfilled Examples.dune_out))
                    Examples.searchingDune = Some Examples.duneUnavailable)
    by (vm_compute; reflexivity).
  split; [exact Hrun|]. split; [exact Hstep|].
  destruct (no_copies_is_error Examples.borrowProps _ _ _ "7"
              Examples.dune_out Hzero Hrun Hstep)
    as (_ & _ & _ & Hm & _ & _ & _ & Hoff & _).
  split; [exact Hm|]. split; [vm_compute; reflexivity | exact Hoff].
Defined.

(** C7, as the code has it.  Cancel clears the fetched book, the
    available-copy marker and the error message; the entered book
    identifier and the two loading flags keep their values; no request is
    issued and the parent is not called. *)
Theorem handleCancel_clears (s : BorrowBook.state) :
  let s' := BorrowBook.handleCancel s in
  BorrowBook.bookData s' = None /\
  BorrowBook.availableCopy s' = None /\
  BorrowBook.errorMessage s' = "" /\
  BorrowBook.bookId s' = BorrowBook.bookId s /\
  BorrowBook.isSearching s' = BorrowBook.isSearching s /\
  BorrowBook.isBorrowing s' = BorrowBook.isBorrowing s /\
  BorrowBook.requests s' = BorrowBook.requests s /\
  BorrowBook.awaiting s' = BorrowBook.awaiting s /\
  BorrowBook.refreshed s' = BorrowBook.refreshed s.
Proof. simpl. repeat split. Qed.

(** C7 as stated fails: after finding a book and cancelling, the entered
    identifier is still in the form. *)
Lemma handleCancel_keeps_bookId :
  BorrowBook.run Examples.borrowProps
    (Examples.findDune ++ [BorrowBook.Cancel]) BorrowBook.initial
    = Some (Examples.formAfter (Examples.findDune ++ [BorrowBook.Cancel])) /\
  BorrowBook.bookId
    (Examples.formAfter (Examples.findDune ++ [BorrowBook.Cancel])) = "7" /\
  BorrowBook.bookId
    (Examples.formAfter (Examples.findDune ++ [BorrowBook.Cancel]))
    <> BorrowBook.bookId BorrowBook.initial /\
  BorrowBook.bookData
    (Examples.formAfter (Examples.findDune ++ [BorrowBook.Cancel])) = None.
Proof.
  split; [vm_compute; reflexivity|]. split; [vm_compute; reflexivity|].
  split; [vm_compute; discriminate | vm_compute; reflexivity].
Qed.

(** *** The return action *)

(** C5, as the code has it.  For a customer with an id, clicking Return on
    a row issues one [returnBook] request for that record and leaves the
    list alone; right after the click exactly the rows with that record id
    are disabled.  When the request fails the list is unchanged, the
    message is shown with [alert], nothing is requested, and the marker is
    cleared.  When it succeeds the list is not touched locally: the whole
    list is requested again, and the answer replaces it. *)
Theorem return_flow (p : SearchProperties.props) (customerId : Z) :
  Util.truthyId Customer.id (SearchProperties.customerDetails p)
    = Some customerId ->
  (forall s s' id,
     SearchProperties.step p (SearchProperties.ClickReturn id) s = Some s' ->
     (forall row, SearchProperties.rowDisabled s' row
                  = Z.eqb id (BorrowRecord.event_id row)) /\
     SearchProperties.requests s'
       = (SearchProperties.requests s
            ++ [SearchProperties.ReturnBook customerId id])%list /\
     SearchProperties.returnInFlight s' id = true /\
     SearchProperties.borrowed s' = SearchProperties.borrowed s) /\
  (forall s s' id message,
     SearchProperties.step p
       (SearchProperties.ReturnSettles id (Rejected message)) s = Some s' ->
     SearchProperties.borrowed s' = SearchProperties.borrowed s /\
     SearchProperties.alerts s'
       = (SearchProperties.alerts s
            ++ [if isEmpty message then "Return failed" else message])%list /\
     SearchProperties.requests s' = SearchProperties.requests s /\
     SearchProperties.returningId s' = None) /\
  (forall s s' id,
     SearchProperties.step p
       (SearchProperties.ReturnSettles id (Fulfilled tt)) s = Some s' ->
     SearchProperties.borrowed s' = SearchProperties.borrowed s /\
     SearchProperties.requests s'
       = (SearchProperties.requests s
            ++ [SearchProperties.GetCustomerBorrowed customerId])%list /\
     SearchProperties.isLoading s' = true /\
     SearchProperties.alerts s' = SearchProperties.alerts s /\
     forall rows s'',
       SearchProperties.step p
         (SearchProperties.LoadSettles SearchProperties.FromReturn
            (Fulfilled (Some rows))) s' = Some s'' ->
       SearchProperties.borrowed s'' = rows /\
       SearchProperties.isLoading s'' = false /\
       SearchProperties.returningId s'' = None).
Proof.
  intros Hid. split; [|split].
  - intros s s' id Hstep. simpl in Hstep.
    destruct (SearchProperties.returnClickable p s id) eqn:Hc;
      inversion Hstep; subst; clear Hstep.
    unfold SearchProperties.returnClickable in Hc.
    apply andb_prop in Hc. destruct Hc as [Hc _].
    apply andb_prop in Hc. destruct Hc as [_ Hload].
    apply negb_true_iff in Hload.
    unfold SearchProperties.handleReturn. rewrite Hid.
    repeat split.
    + intros row. unfold SearchProperties.rowDisabled. simpl.
      rewrite Hload. reflexivity.
    + unfold SearchProperties.returnInFlight. simpl.
      rewrite existsb_app. simpl. rewrite Z.eqb_refl.
      now rewrite orb_true_r.
  - intros s s' id message Hstep. simpl in Hstep.
    destruct (Util.removeFirst _ _); inversion Hstep; subst.
    repeat split.
  - intros s s' id Hstep. simpl in Hstep.
    destruct (Util.removeFirst _ _) as [rest|]; inversion Hstep; subst.
    unfold SearchProperties.returnSettled, SearchProperties.loadBorrowed.
    rewrite Hid.
    split; [reflexivity|]. split; [reflexivity|].
    split; [reflexivity|]. split; [reflexivity|].
    intros rows s'' Hload. simpl in Hload.
    destruct (Util.removeFirst _ _); inversion Hload; subst.
    repeat split.
Qed.

Lemma return_flow_witness :
  SearchProperties.step Examples.panelProps
    (SearchProperties.ClickReturn 101) Examples.loansOnScreen
    = Some Examples.returningDune /\
  SearchProperties.requests Examples.returningDune
    = (SearchProperties.requests Examples.loansOnScreen
         ++ [SearchProperties.ReturnBook 4 101])%list /\
  (forall row, SearchProperties.rowDisabled Examples.returningDune row
               = Z.eqb 101 (BorrowRecord.event_id row)).
Proof.
  assert (Hid : Util.truthyId Customer.id
                  (SearchProperties.customerDetails Examples.panelProps)
                = Some 4%Z)
    by (vm_compute; reflexivity).
  assert (Hstep : SearchProperties.step Examples.panelProps
                    (SearchProperties.ClickReturn 101) Examples.loansOnScreen
                  = Some Examples.returningDune)
    by (vm_compute; reflexivity).
  split; [exact Hstep|].
  destruct (return_flow Examples.panelProps 4 Hid) as (H & _).
  destruct (H Examples.loansOnScreen Examples.returningDune 101%Z Hstep)
    as (Hrows & Hreq & _).
  split; [exact Hreq | exact Hrows].
Defined.

(** C5 as stated fails: the second row stays clickable while the first
    return is in flight, and clicking it moves the marker, so the first
    row is enabled again although its request has not settled. *)
Lemma overlapping_returns :
  SearchProperties.run Examples.panelProps Examples.twoReturns
    (SearchProperties.mount Examples.panelProps)
    = Some (Examples.panelAfter Examples.twoReturns) /\
  SearchProperties.returnInFlight (Examples.panelAfter Examples.twoReturns) 101
    = true /\
  SearchProperties.rowDisabled (Examples.panelAfter Examples.twoReturns)
    (Examples.loanOf 101 7 "Dune") = false /\
  SearchProperties.rowDisabled (Examples.panelAfter Examples.twoReturns)
    (Examples.loanOf 102 9 "Emma") = true.
Proof.
  split; [vm_compute; reflexivity|]. split; [vm_compute; reflexivity|].
  split; vm_compute; reflexivity.
Qed.

(** *** The book search box *)

Section BookSearchbarFacts.
Import BookSearchbar Util.
Variable p : props.

Lemma isEmpty_true (s : string) : isEmpty s = true <-> s = "".
Proof. destruct s; simpl; split; congruence. Qed.

Lemma isEmpty_false (s : string) : isEmpty s = false <-> s <> "".
Proof. destruct s; simpl; split; congruence. Qed.

Lemma removeFirst_incl {A : Type} (f : A -> bool) (l rest : list A) :
  removeFirst f l = Some rest -> forall x, In x rest -> In x l.
Proof.
  revert rest. induction l as [|a l IH]; intros rest H x Hx; simpl in H.
  - discriminate.
  - destruct (f a).
    + inversion H; subst. now right.
    + destruct (removeFirst f l) as [r'|]; [|discriminate].
      inversion H; subst. destruct Hx as [->|Hx]; [now left|].
      right. eapply IH; eauto.
Qed.

Lemma in_suspended (k k' : pending) (l : list pending) :
  In k (l ++ [k']) -> In k l \/ k = k'.
Proof.
  intros H. apply in_app_or in H. destruct H as [H|[H|[]]]; auto.
Qed.

(** The effect restores [coherent] whatever the refs were. *)
Lemma searchEffect_coherent (t : nat) (s : state) :
  tagged s -> coherent (searchEffect p t s).
Proof.
  intros Htag. unfold searchEffect. cbv zeta.
  change (searchValue (clearTimeout s)) with (searchValue s).
  destruct (isEmpty (trim (searchValue s))) eqn:He.
  - split; simpl.
    + intros tm H. discriminate.
    + intros q n Hin. destruct (Htag q n Hin) as [Hq Hn].
      repeat split; try assumption. intros _ Hcur. congruence.
  - apply isEmpty_false in He. split; simpl.
    + intros tm H. inversion H; subst; simpl. auto.
    + intros q n Hin. destruct (Htag q n Hin) as [Hq Hn].
      repeat split; try assumption; lia.
Qed.

Lemma coherent_tagged (s : state) : coherent s -> tagged s.
Proof.
  intros [_ H] q n Hin. destruct (H q n Hin) as (Hq & Hn & _). auto.
Qed.

Lemma afterRender_coherent (t : nat) (before s : state) :
  tagged s ->
  (searchValue before = searchValue s -> coherent s) ->
  coherent (afterRender p t before s).
Proof.
  intros Htag Hsame. unfold afterRender.
  destruct (String.eqb_spec (searchValue before) (searchValue s)) as [E|E].
  - auto.
  - now apply searchEffect_coherent.
Qed.

Lemma react_coherent (t : nat) (e : event) (s s' : state) :
  coherent s -> react p t e s = Some s' -> coherent s'.
Proof.
  intros Hc Hr. pose proof (coherent_tagged s Hc) as Htag.
  destruct Hc as [Htm Hpend].
  destruct e as [v | | | q0 n0 r | | | | k | r | |]; simpl in Hr.
  - (* Change *)
    inversion Hr; subst; clear Hr.
    assert (Hq : forall v q n,
               In (SearchPending q n) (awaiting (handleInputChange p v s)) ->
               In (SearchPending q n) (awaiting s)).
    { intros w q n. unfold handleInputChange.
      destruct (selectedBook s); [destruct (negb _)|]; simpl; auto. }
    apply afterRender_coherent.
    + intros q n Hin. apply Hq in Hin.
      replace (requestIdRef (handleInputChange p v s)) with (requestIdRef s)
        by (unfold handleInputChange;
            destruct (selectedBook s); [destruct (negb _)|]; reflexivity).
      auto.
    + intros Hsame.
      assert (Hv : searchValue (handleInputChange p v s) = v).
      { unfold handleInputChange.
        destruct (selectedBook s); [destruct (negb _)|]; reflexivity. }
      rewrite Hv in Hsame. subst v.
      unfold handleInputChange.
      destruct (selectedBook s); [destruct (negb _)|]; split; simpl; auto.
  - (* ParentRenders *)
    inversion Hr; subst. now apply searchEffect_coherent.
  - (* TimerFires *)
    destruct (searchTimeoutRef s) as [tm|] eqn:Htimer; [|discriminate].
    destruct (Nat.leb (due tm) t); inversion Hr; subst; clear Hr.
    destruct (Htm tm eq_refl) as (Hid & Hterm & Hne).
    split; simpl.
    + intros tm' H. discriminate.
    + intros q n Hin. apply in_suspended in Hin.
      destruct Hin as [Hin|Heq].
      * destruct (Hpend q n Hin) as (Hq & Hn & _).
        repeat split; try assumption. intros _ Hcur. congruence.
      * inversion Heq; subst. repeat split; try assumption; try lia.
        intros _ _. congruence.
  - (* SearchSettles *)
    destruct (removeFirst _ _) as [rest|] eqn:Hrm; inversion Hr; subst; clear Hr.
    pose proof (removeFirst_incl _ _ _ Hrm) as Hincl.
    unfold searchSettled.
    destruct (isStillCurrent _ _ _); [destruct r as [[found|]|]|];
      split; simpl; auto.
  - (* Focus *)
    inversion Hr; subst. unfold handleFocus.
    destruct (_ && _); split; simpl; auto.
  - (* Blur *)
    inversion Hr; subst. split; simpl; auto.
  - (* BlurTimerFires *)
    destruct (blurTimers s) as [|d rest]; [discriminate|].
    destruct (Nat.leb d t); inversion Hr; subst. split; simpl; auto.
  - (* Pick *)
    destruct (nth_error _ _) as [sg|]; [|discriminate].
    destruct (_ && _); inversion Hr; subst; clear Hr.
    apply afterRender_coherent.
    + intros q n Hin. simpl in Hin. apply in_suspended in Hin.
      destruct Hin as [Hin|Heq]; [|discriminate]. simpl. auto.
    + simpl. intros Hsame. split; simpl.
      * intros tm H. discriminate.
      * intros q n Hin. apply in_suspended in Hin.
        destruct Hin as [Hin|Heq]; [|discriminate].
        rewrite <- Hsame. auto.
  - (* BookSettles *)
    destruct (removeFirst _ _) as [rest|] eqn:Hrm; inversion Hr; subst; clear Hr.
    pose proof (removeFirst_incl _ _ _ Hrm) as Hincl.
    unfold bookSettled. destruct r; split; simpl; auto.
  - (* Act *)
    destruct (_ && _); inversion Hr; subst. unfold handleAction.
    destruct (selectedBook s); [destruct (onAction p)|]; split; simpl; auto.
  - (* Clear *)
    destruct (_ || _); inversion Hr; subst; clear Hr.
    apply afterRender_coherent.
    + intros q n Hin. simpl in Hin. simpl. auto.
    + simpl. intros Hsame. split; simpl.
      * intros tm H. discriminate.
      * intros q n Hin. destruct (Hpend q n Hin) as (Hq & Hn & _).
        repeat split; try assumption. intros _ Hcur. congruence.
Qed.

Lemma step_coherent (t : nat) (e : event) (s s' : state) :
  coherent s -> step p t e s = Some s' -> coherent s'.
Proof.
  intros Hc Hs. unfold step in Hs.
  destruct (Nat.leb (clock s) t); [|discriminate].
  destruct (react p t e s) as [s1|] eqn:Hr; inversion Hs; subst.
  pose proof (react_coherent t e s s1 Hc Hr) as [H1 H2].
  split; simpl; assumption.
Qed.

Lemma run_coherent (es : list (nat * event)) (s s' : state) :
  coherent s -> run p es s = Some s' -> coherent s'.
Proof.
  revert s. induction es as [|[t e] es IH]; intros s Hc Hrun; simpl in Hrun.
  - inversion Hrun; subst. exact Hc.
  - destruct (step p t e s) as [s1|] eqn:Hs; [|discriminate].
    eapply IH; [|exact Hrun]. eapply step_coherent; eauto.
Qed.

Lemma mounted_coherent : coherent (mounted p).
Proof.
  apply searchEffect_coherent. intros q n [].
Qed.

End BookSearchbarFacts.

(** C8. In the book search box, editing the text so that it differs from
    the selected book's title resets the selection and tells the parent
    that nothing is selected, within the same event and before any request
    leaves (none is sent, none is started). *)
Theorem edit_invalidates_selection (p : BookSearchbar.props) (t : nat)
    (s s' : BookSearchbar.state) (book : Book.t) (value : string) :
  BookSearchbar.onBookSelect p = true ->
  BookSearchbar.selectedBook s = Some book ->
  value <> Book.title book ->
  BookSearchbar.step p t (BookSearchbar.Change value) s = Some s' ->
  BookSearchbar.selectedBook s' = None /\
  (BookSearchbar.selections s' = (BookSearchbar.selections s ++ [None])%list \/
   BookSearchbar.selections s'
     = (BookSearchbar.selections s ++ [None; None])%list) /\
  BookSearchbar.requests s' = BookSearchbar.requests s /\
  BookSearchbar.awaiting s' = BookSearchbar.awaiting s.
Proof.
  intros Hcb Hsel Hne Hstep. unfold BookSearchbar.step in Hstep.
  destruct (Nat.leb _ t); [|discriminate]. simpl in Hstep.
  inversion Hstep; subst; clear Hstep.
  unfold BookSearchbar.handleInputChange. rewrite Hsel.
  apply String.eqb_neq in Hne. rewrite Hne. simpl.
  unfold BookSearchbar.afterRender, BookSearchbar.searchEffect. simpl.
  destruct (String.eqb (BookSearchbar.searchValue s) value); simpl.
  - rewrite Hcb. auto.
  - destruct (isEmpty (trim value)); simpl; rewrite Hcb; simpl.
    + rewrite <- app_assoc. simpl. auto.
    + auto.
Qed.

Lemma edit_invalidates_selection_witness :
  BookSearchbar.selectedBook (Examples.stateAfter Examples.pickedDune)
    = Some Examples.dune /\
  BookSearchbar.step Examples.searchProps 2000 (BookSearchbar.Change "Dun")
    (Examples.stateAfter Examples.pickedDune)
    = Some (Examples.stateAfter
              (Examples.pickedDune ++ [(2000, BookSearchbar.Change "Dun")])) /\
  BookSearchbar.selectedBook
    (Examples.stateAfter
       (Examples.pickedDune ++ [(2000, BookSearchbar.Change "Dun")])) = None /\
  BookSearchbar.requests
    (Examples.stateAfter
       (Examples.pickedDune ++ [(2000, BookSearchbar.Change "Dun")]))
    = BookSearchbar.requests (Examples.stateAfter Examples.pickedDune).
Proof.
  assert (Hcb : BookSearchbar.onBookSelect Examples.searchProps = true)
    by reflexivity.
  assert (Hsel : BookSearchbar.selectedBook
                   (Examples.stateAfter Examples.pickedDune)
                 = Some Examples.dune)
    by (vm_compute; reflexivity).
  assert (Hne : "Dun" <> Book.title Examples.dune)
    by (vm_compute; discriminate).
  assert (Hstep : BookSearchbar.step Examples.searchProps 2000
                    (BookSearchbar.Change "Dun")
                    (Examples.stateAfter Examples.pickedDune)
                  = Some (Examples.stateAfter
                            (Examples.pickedDune
                               ++ [(2000, BookSearchbar.Change "Dun")])))
    by (vm_compute; reflexivity).
  split; [exact Hsel|]. split; [exact Hstep|].
  destruct (edit_invalidates_selection Examples.searchProps 2000 _ _
              Examples.dune "Dun" Hcb Hsel Hne Hstep)
    as (H1 & _ & H3 & _).
  split; [exact H1 | exact H3].
Defined.



Lemma removeFirst_in {A : Type} (f : A -> bool) (l rest : list A) :
  Util.removeFirst f l = Some rest -> exists x, In x l /\ f x = true.
Proof.
  revert rest. induction l as [|a l IH]; intros rest H; simpl in H.
  - discriminate.
  - destruct (f a) eqn:Hfa.
    + exists a. split; [now left | assumption].
    + destruct (Util.removeFirst f l) as [r'|]; [|discriminate].
      destruct (IH r' eq_refl) as (x & Hx & Hfx).
      exists x. split; [now right | assumption].
Qed.

(** With the current query cleared, no lookup in flight is current. *)
Lemma settles_after_clear (p : BookSearchbar.props) (t : nat) (q : string)
    (n : nat) (r : settled (option (list Suggestion.t)) string)
    (s s' : BookSearchbar.state) :
  BookSearchbar.coherent s ->
  BookSearchbar.currentSearchRef s = "" ->
  BookSearchbar.step p t (BookSearchbar.SearchSettles q n r) s = Some s' ->
  BookSearchbar.suggestions s' = BookSearchbar.suggestions s /\
  BookSearchbar.showPopup s' = BookSearchbar.showPopup s /\
  BookSearchbar.selectedBook s' = BookSearchbar.selectedBook s.
Proof.
  intros [_ Hpend] Hcur Hstep. unfold BookSearchbar.step in Hstep.
  destruct (Nat.leb _ t); [|discriminate]. simpl in Hstep.
  destruct (Util.removeFirst _ _) as [rest|] eqn:Hrm; [|discriminate].
  inversion Hstep; subst; clear Hstep.
  destruct (removeFirst_in _ _ _ Hrm) as (k & Hin & Hk).
  destruct k as [q' n'|]; simpl in Hk; [|discriminate].
  apply andb_prop in Hk. destruct Hk as [Hq _].
  apply String.eqb_eq in Hq. subst q'.
  destruct (Hpend q n' Hin) as (Hq & _).
  unfold BookSearchbar.searchSettled, BookSearchbar.isStillCurrent. simpl.
  rewrite Hcur. destruct q; [contradiction|]. simpl. auto.
Qed.


(** *** Debouncing in the book search box *)

Section Debounce.
Import BookSearchbar Util.
Variable p : props.

Lemma lookups_app (l l' : list (nat * request)) :
  lookups (l ++ l') = (lookups l ++ lookups l')%list.
Proof.
  induction l as [|[t [q|i]] l IH]; simpl; [reflexivity | now rewrite IH | exact IH].
Qed.

(** Only the debounce timeout sends a lookup, and not before it is due. *)
Lemma react_lookups (t : nat) (e : event) (s s' : state) :
  react p t e s = Some s' ->
  lookups (requests s') = lookups (requests s) \/
  (e = TimerFires /\
   exists tm, searchTimeoutRef s = Some tm /\ due tm <= t /\
     lookups (requests s')
       = (lookups (requests s) ++ [(t, searchTerm tm)])%list /\
     searchTimeoutRef s' = None).
Proof.
  intros Hr.
  destruct e as [v | | | q0 n0 r | | | | k | r | |]; simpl in Hr;
    try (left; split_cases;
         unfold afterRender, searchEffect, handleInputChange, searchSettled,
           handleFocus, bookSettled, handleAction;
         simpl; split_goal; rewrite ?lookups_app, ?app_nil_r; reflexivity).
  right. split; [reflexivity|].
  destruct (searchTimeoutRef s) as [tm|]; [|discriminate].
  destruct (Nat.leb_spec (due tm) t); inversion Hr; subst.
  exists tm. repeat split; try assumption.
  simpl. rewrite lookups_app. reflexivity.
Qed.



Lemma step_clock (t : nat) (e : event) (s s' : state) :
  step p t e s = Some s' ->
  clock s <= t /\ clock s' = t /\
  exists s1, react p t e s = Some s1 /\ s' = setClock t s1.
Proof.
  unfold step. intros H.
  destruct (Nat.leb_spec (clock s) t); [|discriminate].
  destruct (react p t e s) as [s1|]; inversion H; subst.
  repeat split; [assumption|]. exists s1. split; reflexivity.
Qed.








End Debounce.



(** *** The customer search box, and both boxes together *)







(** *** More on the borrow form *)

Section BorrowBookMore.
Import BorrowBook BorrowBookInv Util.
Variable p : props.

Lemma idle_when_enabled (s : state) :
  sequential s -> inputEnabled s = true -> awaiting s = [].
Proof.
  unfold sequential, inputEnabled. intros Hseq He.
  destruct (awaiting s) as [|[b|] [|k l]]; try reflexivity; try contradiction;
    destruct (isSearching s), (isBorrowing s); simpl in He;
    intuition congruence.
Qed.

Lemma not_searching_when_confirming (s : state) :
  sequential s -> isSome (availableCopy s) = true ->
  forall b, ~ In (SearchPending b) (awaiting s).
Proof.
  unfold sequential. intros Hseq Hc b Hin.
  destruct (awaiting s) as [|[b'|] [|k l]]; simpl in Hin; try contradiction.
  - destruct Hseq as (_ & _ & _ & Hnone). rewrite Hnone in Hc. discriminate.
  - destruct Hin as [H|[]]. discriminate.
Qed.

Lemma consistent_step (e : event) (s s' : state) :
  sequential s -> consistent s -> step p e s = Some s' -> consistent s'.
Proof.
  unfold consistent. intros Hseq (Hoffer & Hsearch & Hborrow) Hstep.
  destruct e as [v | | b r | | | r]; simpl in Hstep.
  - (* Edit *)
    destruct (inputEnabled s) eqn:He; inversion Hstep; subst; simpl.
    rewrite (idle_when_enabled s Hseq He) in *.
    split; [assumption|]. split; [intros b []|intros []].
  - (* Find *)
    destruct (inputEnabled s) eqn:He; inversion Hstep; subst.
    pose proof (idle_when_enabled s Hseq He) as Hidle.
    unfold searchBookCopy. destruct (isEmpty _); simpl.
    + rewrite Hidle. split; [assumption|]. split; [intros b []|intros []].
    + rewrite Hidle. simpl.
      split; [intros x Hx; discriminate|].
      split; [|intros [H|[]]; discriminate].
      intros b [Hb|[]]. inversion Hb; subst.
      split; [reflexivity|]. split; [reflexivity|].
      exists (requests s). reflexivity.
  - (* SearchSettles *)
    unfold sequential in Hseq.
    destruct (awaiting s) as [|[b'|] [|k l]] eqn:Hw; simpl in Hstep;
      try contradiction; try discriminate.
    destruct (String.eqb b' b); inversion Hstep; subst.
    unfold searchSettled.
    destruct r as [book|err];
      [destruct (Z.gtb_spec (Book.available_copies book) 0)|]; simpl.
    + split; [|split; [intros b0 []|intros []]].
      intros x Hx. inversion Hx; subst. exists book.
      split; [reflexivity|]. split; [reflexivity|lia].
    + destruct Hseq as (_ & _ & _ & Hnone).
      split; [|split; [intros b0 []|intros []]].
      intros x Hx. congruence.
    + split; [assumption|]. split; [intros b0 []|intros []].
  - (* Confirm *)
    destruct (confirmationEnabled s) eqn:He; inversion Hstep; subst.
    unfold confirmationEnabled in He.
    apply andb_prop in He. destruct He as [He Hb].
    apply andb_prop in He. destruct He as [Hd Hc].
    unfold handleBorrowConfirm.
    destruct (truthyId _ (customerDetails p));
      [destruct (truthyId _ (bookData s))|]; simpl;
      try (split; [assumption|]; split; assumption).
    split; [assumption|]. split.
    + intros b Hin. apply in_app_or in Hin.
      destruct Hin as [Hin|[Hin|[]]]; [|discriminate].
      exfalso. exact (not_searching_when_confirming s Hseq Hc b Hin).
    + intros _. split; assumption.
  - (* Cancel *)
    destruct (confirmationEnabled s) eqn:He; inversion Hstep; subst.
    unfold confirmationEnabled in He.
    apply andb_prop in He. destruct He as [He Hb].
    apply andb_prop in He. destruct He as [Hd Hc].
    simpl. split; [intros x Hx; discriminate|].
    split; [intros b Hin; exfalso;
            exact (not_searching_when_confirming s Hseq Hc b Hin)|].
    intros Hin. exfalso. unfold sequential in Hseq.
    apply negb_true_iff in Hb.
    destruct (awaiting s) as [|[b'|] [|k l]]; simpl in Hin;
      try contradiction.
    * destruct Hin as [H|[]]. discriminate.
    * destruct Hseq. congruence.
  - (* BorrowSettles *)
    unfold sequential in Hseq.
    destruct (awaiting s) as [|[b'|] [|k l]] eqn:Hw; simpl in Hstep;
      try contradiction; try discriminate.
    inversion Hstep; subst.
    unfold borrowSettled. destruct r as [u|m]; simpl.
    + split; [intros x Hx; discriminate|]. split; [intros b []|intros []].
    + split; [assumption|]. split; [intros b []|intros []].
Qed.

Lemma consistent_run (es : list event) (s s' : state) :
  sequential s -> consistent s -> run p es s = Some s' ->
  sequential s' /\ consistent s'.
Proof.
  revert s. induction es as [|e es IH]; intros s Hseq Hc Hrun; simpl in Hrun.
  - inversion Hrun; subst. auto.
  - destruct (step p e s) as [s1|] eqn:Hstep; [|discriminate].
    eapply IH; [| |exact Hrun].
    + eapply sequential_step; eauto.
    + eapply consistent_step; eauto.
Qed.

Lemma consistent_initial : consistent initial.
Proof.
  repeat split; simpl; try discriminate; try contradiction.
Qed.

End BorrowBookMore.

(** X1. The borrow form runs one request at a time: at most one handler is
    suspended; the searching flag is on exactly while a search is in
    flight and the borrowing flag exactly while a borrow is; and while a
    search is in flight no book and no offer is displayed. *)
Theorem one_request_at_a_time (p : BorrowBook.props)
    (es : list BorrowBook.event) (s : BorrowBook.state) :
  BorrowBook.run p es BorrowBook.initial = Some s ->
  List.length (BorrowBook.awaiting s) <= 1 /\
  (BorrowBook.isSearching s = true <->
   exists b, BorrowBook.awaiting s = [BorrowBook.SearchPending b]) /\
  (BorrowBook.isBorrowing s = true <->
   BorrowBook.awaiting s = [BorrowBook.BorrowPending]) /\
  (BorrowBook.isSearching s = true ->
   BorrowBook.bookData s = None /\ BorrowBook.availableCopy s = None).
Proof.
  intros Hrun.
  pose proof (sequential_run p es _ _ sequential_initial Hrun) as Hseq.
  unfold BorrowBook.sequential in Hseq.
  destruct (BorrowBook.awaiting s) as [|[b|] [|k l]]; try contradiction; simpl.
  - destruct Hseq as [Hs Hb]. rewrite Hs, Hb.
    repeat split; try lia; try discriminate.
    intros [b H]. discriminate.
  - destruct Hseq as (Hs & Hb & Hd & Hc). rewrite Hs, Hb.
    repeat split; try lia; try discriminate; try assumption.
    intros _. exists b. reflexivity.
  - destruct Hseq as [Hs Hb]. rewrite Hs, Hb.
    repeat split; try lia; try discriminate.
    intros [b H]. discriminate.
Qed.

Lemma one_request_at_a_time_witness :
  BorrowBook.run Examples.borrowProps
    (Examples.findDune ++ [BorrowBook.Confirm]) BorrowBook.initial
    = Some Examples.borrowingDune /\
  List.length (BorrowBook.awaiting Examples.borrowingDune) <= 1 /\
  BorrowBook.isBorrowing Examples.borrowingDune = true.
Proof.
  assert (Hrun : BorrowBook.run Examples.borrowProps
                   (Examples.findDune ++ [BorrowBook.Confirm])
                   BorrowBook.initial = Some Examples.borrowingDune)
    by (vm_compute; reflexivity).
  split; [exact Hrun|].
  destruct (one_request_at_a_time Examples.borrowProps _ _ Hrun)
    as (H1 & _ & H3 & _).
  split; [exact H1|]. apply H3. vm_compute. reflexivity.
Defined.

(** X2. A borrow mutation is only ever sent by confirming an offer: the
    event is the Borrow button, the request names the customer of the
    panel and the book on display, both with a non-zero id, and that book
    had at least one available copy when it was fetched. *)
Theorem borrow_only_what_is_offered (p : BorrowBook.props)
    (es : list BorrowBook.event) (e : BorrowBook.event)
    (s s' : BorrowBook.state) :
  BorrowBook.run p es BorrowBook.initial = Some s ->
  BorrowBook.step p e s = Some s' ->
  BorrowBook.borrowRequests s' <> BorrowBook.borrowRequests s ->
  e = BorrowBook.Confirm /\
  exists customer book,
    BorrowBook.customerDetails p = Some customer /\
    BorrowBook.bookData s = Some book /\
    Customer.id customer <> 0%Z /\ Book.id book <> 0%Z /\
    (0 < Book.available_copies book)%Z /\
    BorrowBook.requests s'
      = (BorrowBook.requests s
           ++ [BorrowBook.BorrowBookFor (Customer.id customer) (Book.id book)])%list.
Proof.
  intros Hrun Hstep Hnew.
  destruct (consistent_run p es _ _ sequential_initial consistent_initial Hrun)
    as (Hseq & Hoffer & _).
  destruct (BorrowBook.availableCopy s) as [x|] eqn:Hc;
    [|exfalso; apply Hnew; eapply no_copy_no_borrow; eauto].
  destruct (Hoffer x eq_refl) as (book & Hd & Hx & Hpos).
  destruct e as [v | | b r | | | r]; simpl in Hstep.
  - destruct (BorrowBook.inputEnabled s); inversion Hstep; subst.
    now contradiction Hnew.
  - destruct (BorrowBook.inputEnabled s) eqn:He; inversion Hstep; subst.
    exfalso. apply Hnew. unfold BorrowBook.searchBookCopy.
    destruct (isEmpty _); [reflexivity|].
    unfold BorrowBook.borrowRequests. simpl. rewrite filter_app. simpl.
    now rewrite app_nil_r.
  - destruct (Util.removeFirst _ _); inversion Hstep; subst.
    exfalso. apply Hnew. unfold BorrowBook.searchSettled.
    destruct r; [destruct (_ >? _)%Z|]; reflexivity.
  - split; [reflexivity|].
    destruct (BorrowBook.confirmationEnabled s); inversion Hstep; subst.
    unfold BorrowBook.handleBorrowConfirm in *. rewrite Hd in *.
    unfold Util.truthyId in *.
    destruct (BorrowBook.customerDetails p) as [customer|];
      [|now contradiction Hnew].
    destruct (Z.eqb_spec (Customer.id customer) 0); [now contradiction Hnew|].
    destruct (Z.eqb_spec (Book.id book) 0); [now contradiction Hnew|].
    exists customer, book. repeat split; assumption.
  - destruct (BorrowBook.confirmationEnabled s); inversion Hstep; subst.
    now contradiction Hnew.
  - destruct (Util.removeFirst _ _); inversion Hstep; subst.
    exfalso. apply Hnew. unfold BorrowBook.borrowSettled.
    destruct r; reflexivity.
Qed.

Lemma borrow_only_what_is_offered_witness :
  BorrowBook.step Examples.borrowProps BorrowBook.Confirm
    (Examples.formAfter Examples.findDune) = Some Examples.borrowingDune /\
  exists customer book,
    BorrowBook.customerDetails Examples.borrowProps = Some customer /\
    BorrowBook.bookData (Examples.formAfter Examples.findDune) = Some book /\
    Customer.id customer <> 0%Z /\ Book.id book <> 0%Z /\
    (0 < Book.available_copies book)%Z /\
    BorrowBook.requests Examples.borrowingDune
      = (BorrowBook.requests (Examples.formAfter Examples.findDune)
           ++ [BorrowBook.BorrowBookFor (Customer.id customer) (Book.id book)])%list.
Proof.
  assert (Hrun : BorrowBook.run Examples.borrowProps Examples.findDune
                   BorrowBook.initial
                 = Some (Examples.formAfter Examples.findDune))
    by (vm_compute; reflexivity).
  assert (Hstep : BorrowBook.step Examples.borrowProps BorrowBook.Confirm
                    (Examples.formAfter Examples.findDune)
                  = Some Examples.borrowingDune)
    by (vm_compute; reflexivity).
  assert (Hnew : BorrowBook.borrowRequests Examples.borrowingDune
                 <> BorrowBook.borrowRequests
                      (Examples.formAfter Examples.findDune))
    by (vm_compute; discriminate).
  split; [exact Hstep|].
  exact (proj2 (borrow_only_what_is_offered Examples.borrowProps _ _ _ _
                  Hrun Hstep Hnew)).
Defined.

Lemma pending_borrow (p : BorrowBook.props) (s : BorrowBook.state)
    (rest : list BorrowBook.pending) :
  BorrowBook.sequential s ->
  Util.removeFirst BorrowBook.isBorrowPending (BorrowBook.awaiting s) = Some rest ->
  BorrowBook.awaiting s = [BorrowBook.BorrowPending] /\ rest = [] /\
  BorrowBook.isSearching s = false.
Proof.
  unfold BorrowBook.sequential. intros Hseq Hrm.
  destruct (BorrowBook.awaiting s) as [|[b|] [|k l]]; simpl in Hrm;
    try contradiction; try discriminate.
  inversion Hrm; subst. destruct Hseq as [Hs _]. auto.
Qed.

Lemma pending_search (s : BorrowBook.state) (b : string)
    (rest : list BorrowBook.pending) :
  BorrowBook.sequential s ->
  Util.removeFirst (BorrowBook.isSearchPending b) (BorrowBook.awaiting s)
    = Some rest ->
  BorrowBook.awaiting s = [BorrowBook.SearchPending b] /\ rest = [] /\
  BorrowBook.isBorrowing s = false /\
  BorrowBook.bookData s = None /\ BorrowBook.availableCopy s = None.
Proof.
  unfold BorrowBook.sequential. intros Hseq Hrm.
  destruct (BorrowBook.awaiting s) as [|[b'|] [|k l]]; simpl in Hrm;
    try contradiction; try discriminate.
  destruct (String.eqb_spec b' b); inversion Hrm; subst.
  destruct Hseq as (_ & Hb & Hd & Hc). auto.
Qed.

(** X3. When the server refuses a borrow, the form shows the error's
    message ('Failed to borrow book' when it is empty), keeps the entered
    id, the book and the offer, calls no callback and sends nothing; the
    Borrow button is live again, so the user can retry. *)
Theorem failed_borrow_can_be_retried (p : BorrowBook.props)
    (es : list BorrowBook.event) (s s' : BorrowBook.state) (message : string) :
  BorrowBook.run p es BorrowBook.initial = Some s ->
  BorrowBook.step p (BorrowBook.BorrowSettles (Rejected message)) s = Some s' ->
  BorrowBook.errorMessage s'
    = (if isEmpty message then "Failed to borrow book" else message) /\
  BorrowBook.bookId s' = BorrowBook.bookId s /\
  BorrowBook.bookData s' = BorrowBook.bookData s /\
  BorrowBook.availableCopy s' = BorrowBook.availableCopy s /\
  BorrowBook.refreshed s' = BorrowBook.refreshed s /\
  BorrowBook.requests s' = BorrowBook.requests s /\
  BorrowBook.confirmationEnabled s' = true.
Proof.
  intros Hrun Hstep.
  destruct (consistent_run p es _ _ sequential_initial consistent_initial Hrun)
    as (Hseq & _ & _ & Hborrow).
  simpl in Hstep.
  destruct (Util.removeFirst _ _) as [rest|] eqn:Hrm; inversion Hstep; subst.
  destruct (pending_borrow p s rest Hseq Hrm) as (Hw & _ & _).
  destruct Hborrow as [Hd Hc]; [rewrite Hw; now left|].
  unfold BorrowBook.confirmationEnabled. simpl. rewrite Hd, Hc.
  repeat split.
Qed.

Lemma failed_borrow_can_be_retried_witness :
  BorrowBook.step Examples.borrowProps Examples.refused Examples.borrowingDune
    = Some Examples.refusedDune /\
  BorrowBook.errorMessage Examples.refusedDune = "No copies left" /\
  BorrowBook.confirmationEnabled Examples.refusedDune = true.
Proof.
  assert (Hrun : BorrowBook.run Examples.borrowProps
                   (Examples.findDune ++ [BorrowBook.Confirm])
                   BorrowBook.initial = Some Examples.borrowingDune)
    by (vm_compute; reflexivity).
  assert (Hstep : BorrowBook.step Examples.borrowProps Examples.refused
                    Examples.borrowingDune = Some Examples.refusedDune)
    by (vm_compute; reflexivity).
  split; [exact Hstep|].
  destruct (failed_borrow_can_be_retried Examples.borrowProps _ _ _
              "No copies left" Hrun Hstep) as (H1 & _ & _ & _ & _ & _ & H7).
  split; [exact H1 | exact H7].
Defined.

(** X4. When the search request fails, for whatever reason, the form
    reports 'Book with ID "..." not found' quoting the text of the input
    as it was typed, although the request was sent for the trimmed text;
    no book and no offer are displayed, and nothing more is requested. *)
Theorem failed_search_reports_not_found (p : BorrowBook.props)
    (es : list BorrowBook.event) (s s' : BorrowBook.state)
    (typed reason : string) :
  BorrowBook.run p es BorrowBook.initial = Some s ->
  BorrowBook.step p (BorrowBook.SearchSettles typed (Rejected reason)) s
    = Some s' ->
  BorrowBook.bookId s' = typed /\
  BorrowBook.errorMessage s'
    = "Book with ID " ++ Util.dquote ++ typed ++ Util.dquote ++ " not found" /\
  (exists earlier,
     BorrowBook.requests s'
       = (earlier ++ [BorrowBook.GetBook (trim typed)])%list) /\
  BorrowBook.bookData s' = None /\
  BorrowBook.availableCopy s' = None /\
  BorrowBook.isSearching s' = false /\
  BorrowBook.awaiting s' = [] /\
  BorrowBook.confirmationEnabled s' = false.
Proof.
  intros Hrun Hstep.
  destruct (consistent_run p es _ _ sequential_initial consistent_initial Hrun)
    as (Hseq & _ & Hsearch & _).
  simpl in Hstep.
  destruct (Util.removeFirst _ _) as [rest|] eqn:Hrm; inversion Hstep; subst.
  destruct (pending_search s typed rest Hseq Hrm)
    as (Hw & -> & Hb & Hd & Hc).
  destruct (Hsearch typed) as (Hid & _ & Hreq); [rewrite Hw; now left|].
  unfold BorrowBook.confirmationEnabled. simpl. rewrite Hd, Hc.
  repeat split; assumption.
Qed.

Lemma failed_search_reports_not_found_witness :
  BorrowBook.run Examples.borrowProps Examples.findUnknown BorrowBook.initial
    = Some (Examples.formAfter Examples.findUnknown) /\
  BorrowBook.requests (Examples.formAfter Examples.findUnknown)
    = [BorrowBook.GetBook "99"] /\
  BorrowBook.step Examples.borrowProps Examples.unknownBook
    (Examples.formAfter Examples.findUnknown)
    = Some (Examples.formAfter (Examples.findUnknown ++ [Examples.unknownBook])) /\
  BorrowBook.errorMessage
    (Examples.formAfter (Examples.findUnknown ++ [Examples.unknownBook]))
    = "Book with ID " ++ Util.dquote ++ " 99 " ++ Util.dquote ++ " not found".
Proof.
  assert (Hrun : BorrowBook.run Examples.borrowProps Examples.findUnknown
                   BorrowBook.initial
                 = Some (Examples.formAfter Examples.findUnknown))
    by (vm_compute; reflexivity).
  assert (Hstep : BorrowBook.step Examples.borrowProps Examples.unknownBook
                    (Examples.formAfter Examples.findUnknown)
                  = Some (Examples.formAfter
                            (Examples.findUnknown ++ [Examples.unknownBook])))
    by (vm_compute; reflexivity).
  split; [exact Hrun|]. split; [vm_compute; reflexivity|].
  split; [exact Hstep|].
  destruct (failed_search_reports_not_found Examples.borrowProps _ _ _
              " 99 " "HTTP error! status: 404" Hrun Hstep) as (_ & H2 & _).
  exact H2.
Defined.

(** X5. When the search finds a book with at least one available copy,
    the form displays it with an offer for that book's id, shows no error,
    and enables the confirmation. *)
Theorem found_with_copies_is_offered (p : BorrowBook.props)
    (es : list BorrowBook.event) (s s' : BorrowBook.state)
    (typed : string) (book : Book.t) :
  (0 < Book.available_copies book)%Z ->
  BorrowBook.run p es BorrowBook.initial = Some s ->
  BorrowBook.step p (BorrowBook.SearchSettles typed (Fulfilled book)) s
    = Some s' ->
  BorrowBook.bookData s' = Some book /\
  BorrowBook.availableCopy s' = Some (Book.id book) /\
  BorrowBook.errorMessage s' = "" /\
  BorrowBook.isSearching s' = false /\
  BorrowBook.confirmationEnabled s' = true /\
  BorrowBook.borrowRequests s' = BorrowBook.borrowRequests s.
Proof.
  intros Hpos Hrun Hstep.
  destruct (consistent_run p es _ _ sequential_initial consistent_initial Hrun)
    as (Hseq & _ & Hsearch & _).
  simpl in Hstep.
  destruct (Util.removeFirst _ _) as [rest|] eqn:Hrm; inversion Hstep; subst.
  destruct (pending_search s typed rest Hseq Hrm)
    as (Hw & -> & Hb & Hd & Hc).
  destruct (Hsearch typed) as (_ & Herr & _); [rewrite Hw; now left|].
  unfold BorrowBook.searchSettled, BorrowBook.confirmationEnabled.
  destruct (Z.gtb_spec (Book.available_copies book) 0); [|lia].
  simpl. rewrite Hb. repeat split. exact Herr.
Qed.

Lemma found_with_copies_is_offered_witness :
  BorrowBook.step Examples.borrowProps
    (BorrowBook.SearchSettles "7" (Fulfilled Examples.dune))
    Examples.searchingDune
    = Some (Examples.formAfter Examples.findDune) /\
  BorrowBook.availableCopy (Examples.formAfter Examples.findDune) = Some 7%Z /\
  BorrowBook.confirmationEnabled (Examples.formAfter Examples.findDune) = true.
Proof.
  assert (Hpos : (0 < Book.available_copies Examples.dune)%Z)
    by (vm_compute; reflexivity).
  assert (Hrun : BorrowBook.run Examples.borrowProps
                   [BorrowBook.Edit "7"; BorrowBook.Find] BorrowBook.initial
                 = Some Examples.searchingDune)
    by (vm_compute; reflexivity).
  assert (Hstep : BorrowBook.step Examples.borrowProps
                    (BorrowBook.SearchSettles "7" (Fulfilled Examples.dune))
                    Examples.searchingDune
                  = Some (Examples.formAfter Examples.findDune))
    by (vm_compute; reflexivity).
  split; [exact Hstep|].
  destruct (found_with_copies_is_offered Examples.borrowProps _ _ _ "7"
              Examples.dune Hpos Hrun Hstep) as (_ & H2 & _ & _ & H5 & _).
  split; [exact H2 | exact H5].
Defined.

Section NoCustomer.
Import BorrowBook BorrowBookInv Util.
Variable p : props.
Hypothesis no_customer : truthyId Customer.id (customerDetails p) = None.

Lemma neverBorrowed_step (e : event) (s s' : state) :
  neverBorrowed s -> step p e s = Some s' -> neverBorrowed s'.
Proof.
  unfold neverBorrowed, borrowRequests.
  intros (Hreq & Hpend & Href & Hb) Hstep.
  destruct e as [v | | b r | | | r]; simpl in Hstep.
  - destruct (inputEnabled s); inversion Hstep; subst. simpl. auto.
  - destruct (inputEnabled s); inversion Hstep; subst.
    unfold searchBookCopy. destruct (isEmpty _); simpl; [auto|].
    rewrite filter_app, Hreq. simpl. repeat split; try assumption.
    intros Hin. apply in_app_or in Hin.
    destruct Hin as [Hin|[Hin|[]]]; [auto | discriminate].
  - destruct (removeFirst _ _) as [rest|] eqn:Hrm; inversion Hstep; subst.
    pose proof (removeFirst_incl _ _ _ Hrm) as Hincl.
    unfold searchSettled.
    destruct r; [destruct (_ >? _)%Z|]; simpl; repeat split; auto.
  - destruct (confirmationEnabled s); inversion Hstep; subst.
    unfold handleBorrowConfirm. rewrite no_customer. auto.
  - destruct (confirmationEnabled s); inversion Hstep; subst. simpl. auto.
  - destruct (removeFirst _ _) as [rest|] eqn:Hrm; [|discriminate].
    exfalso. destruct (removeFirst_in _ _ _ Hrm) as (k & Hin & Hk).
    destruct k; [discriminate|]. auto.
Qed.

Lemma neverBorrowed_run (es : list event) (s s' : state) :
  neverBorrowed s -> run p es s = Some s' -> neverBorrowed s'.
Proof.
  revert s. induction es as [|e es IH]; intros s Inv Hrun; simpl in Hrun.
  - inversion Hrun; subst. exact Inv.
  - destruct (step p e s) as [s1|] eqn:Hstep; [|discriminate].
    eapply IH; [|exact Hrun]. eapply neverBorrowed_step; eauto.
Qed.

End NoCustomer.

(** X6. Without a customer, or with a customer whose id is missing or 0,
    the form never borrows: whatever is searched and clicked, no borrow
    request is sent, the form never enters the borrowing state and the
    parent's callback is never called. *)
Theorem no_customer_no_borrow (p : BorrowBook.props)
    (es : list BorrowBook.event) (s : BorrowBook.state) :
  Util.truthyId Customer.id (BorrowBook.customerDetails p) = None ->
  BorrowBook.run p es BorrowBook.initial = Some s ->
  BorrowBook.borrowRequests s = [] /\
  BorrowBook.isBorrowing s = false /\
  BorrowBook.refreshed s = 0.
Proof.
  intros Hnone Hrun.
  assert (Hinit : BorrowBookInv.neverBorrowed BorrowBook.initial).
  { repeat split. intros []. }
  destruct (neverBorrowed_run p Hnone es _ _ Hinit Hrun) as (H1 & _ & H3 & H4).
  auto.
Qed.

Lemma no_customer_no_borrow_witness :
  BorrowBook.run Examples.strangerProps
    (Examples.findDune ++ [BorrowBook.Confirm]) BorrowBook.initial
    = Some (Examples.strangerAfter (Examples.findDune ++ [BorrowBook.Confirm])) /\
  BorrowBook.borrowRequests
    (Examples.strangerAfter (Examples.findDune ++ [BorrowBook.Confirm])) = [] /\
  BorrowBook.isBorrowing
    (Examples.strangerAfter (Examples.findDune ++ [BorrowBook.Confirm])) = false.
Proof.
  assert (Hnone : Util.truthyId Customer.id
                    (BorrowBook.customerDetails Examples.strangerProps) = None)
    by reflexivity.
  assert (Hrun : BorrowBook.run Examples.strangerProps
                   (Examples.findDune ++ [BorrowBook.Confirm]) BorrowBook.initial
                 = Some (Examples.strangerAfter
                           (Examples.findDune ++ [BorrowBook.Confirm])))
    by (vm_compute; reflexivity).
  split; [exact Hrun|].
  destruct (no_customer_no_borrow Examples.strangerProps _ _ Hnone Hrun)
    as (H1 & H2 & _).
  split; [exact H1 | exact H2].
Defined.

(** *** More on the customer's actions panel *)

Section SearchPropertiesMore.
Import SearchProperties SearchPropertiesInv Util.
Variable p : props.

Lemma removeFirst_existsb {A : Type} (f g : A -> bool) (l rest : list A) :
  removeFirst f l = Some rest ->
  (forall x, f x = true -> g x = false) ->
  existsb g rest = existsb g l.
Proof.
  revert rest. induction l as [|a l IH]; intros rest H Hfg; simpl in H.
  - discriminate.
  - destruct (f a) eqn:Hfa.
    + inversion H; subst. simpl. now rewrite (Hfg a Hfa).
    + destruct (removeFirst f l) as [r'|]; [|discriminate].
      inversion H; subst. simpl. now rewrite (IH r' eq_refl Hfg).
Qed.

Lemma existsb_suspended {A : Type} (g : A -> bool) (l : list A) (k : A) :
  existsb g (l ++ [k]) = existsb g l || g k.
Proof. rewrite existsb_app. simpl. now rewrite orb_false_r. Qed.

Lemma loadBorrowed_backed (k : caller) (s : state) :
  (isLoading s = true -> existsb isListPending (awaiting s) = true) ->
  (k <> FromReturn ->
   forall id, returningId s = Some id ->
     existsb isReturnRunning (awaiting s) = true) ->
  backed (loadBorrowed p k s).
Proof.
  intros Hload Hret. unfold backed, loadBorrowed.
  destruct (truthyId _ _); simpl.
  - rewrite !existsb_suspended. simpl. split.
    + intros _. apply orb_true_r.
    + intros id Hid. destruct k; simpl; rewrite ?orb_true_r, ?orb_false_r;
        try reflexivity; apply (Hret ltac:(discriminate) id Hid).
  - destruct k; simpl; split; try assumption; try discriminate;
      apply Hret; discriminate.
Qed.

Lemma backed_step (e : event) (s s' : state) :
  backed s -> step p e s = Some s' -> backed s'.
Proof.
  intros [Hload Hret] Hstep.
  destruct e as [t | id | id r | k r |]; simpl in Hstep.
  - destruct (isSome _); inversion Hstep; subst. split; assumption.
  - destruct (returnClickable p s id); inversion Hstep; subst.
    unfold handleReturn, backed. destruct (truthyId _ _); simpl.
    + rewrite !existsb_suspended. simpl. split.
      * intros H. rewrite (Hload H). reflexivity.
      * intros id' _. apply orb_true_r.
    + split; assumption.
  - destruct (removeFirst _ _) as [rest|] eqn:Hrm; inversion Hstep; subst.
    assert (Hkeep : existsb isListPending rest
                    = existsb isListPending (awaiting s)).
    { apply (removeFirst_existsb _ _ _ _ Hrm).
      intros [id'|k'] Hx; simpl in *; [reflexivity | discriminate]. }
    unfold returnSettled. destruct r as [u|m].
    + apply loadBorrowed_backed; simpl.
      * rewrite Hkeep. exact Hload.
      * intros Hk. contradiction.
    + split; simpl; [rewrite Hkeep; exact Hload | discriminate].
  - destruct (removeFirst _ _) as [rest|] eqn:Hrm; inversion Hstep; subst.
    unfold loadSettled, backed.
    destruct k; simpl;
      (split; [destruct r as [[rows|]|m]; simpl; discriminate|]);
      try (destruct r as [[rows|]|m]; simpl; discriminate).
    + destruct r as [[rows|]|m]; simpl; intros id Hid;
        rewrite (removeFirst_existsb _ isReturnRunning _ _ Hrm);
        try (apply (Hret id Hid));
        intros [id'|[| |]] Hx; simpl in *; try reflexivity; discriminate.
    + destruct r as [[rows|]|m]; simpl; intros id Hid;
        rewrite (removeFirst_existsb _ isReturnRunning _ _ Hrm);
        try (apply (Hret id Hid));
        intros [id'|[| |]] Hx; simpl in *; try reflexivity; discriminate.
  - inversion Hstep; subst. unfold handleBorrowSuccess.
    apply loadBorrowed_backed; [assumption|]. intros _. exact Hret.
Qed.

Lemma backed_run (es : list event) (s s' : state) :
  backed s -> run p es s = Some s' -> backed s'.
Proof.
  revert s. induction es as [|e es IH]; intros s Inv Hrun; simpl in Hrun.
  - inversion Hrun; subst. exact Inv.
  - destruct (step p e s) as [s1|] eqn:Hstep; [|discriminate].
    eapply IH; [|exact Hrun]. eapply backed_step; eauto.
Qed.

Lemma backed_mount : backed (mount p).
Proof.
  unfold mount. apply loadBorrowed_backed; simpl; discriminate.
Qed.

End SearchPropertiesMore.

(** X7. The panel's busy markers never stick: whenever the loading flag is
    on, a list request is in flight, and whenever a row is marked as
    returning, a return request or the reload that follows it is in
    flight. *)
Theorem busy_markers_are_backed (p : SearchProperties.props)
    (es : list SearchProperties.event) (s : SearchProperties.state) :
  SearchProperties.run p es (SearchProperties.mount p) = Some s ->
  (SearchProperties.isLoading s = true ->
   existsb SearchPropertiesInv.isListPending (SearchProperties.awaiting s)
     = true) /\
  (forall id, SearchProperties.returningId s = Some id ->
   existsb SearchPropertiesInv.isReturnRunning (SearchProperties.awaiting s)
     = true).
Proof.
  intros Hrun. exact (backed_run p es _ _ (backed_mount p) Hrun).
Qed.

Lemma busy_markers_are_backed_witness :
  SearchProperties.run Examples.panelProps Examples.reloadingAfterReturn
    (SearchProperties.mount Examples.panelProps)
    = Some (Examples.panelAfter Examples.reloadingAfterReturn) /\
  SearchProperties.isLoading
    (Examples.panelAfter Examples.reloadingAfterReturn) = true /\
  SearchProperties.returningId
    (Examples.panelAfter Examples.reloadingAfterReturn) = Some 101%Z /\
  existsb SearchPropertiesInv.isListPending
    (SearchProperties.awaiting
       (Examples.panelAfter Examples.reloadingAfterReturn)) = true /\
  existsb SearchPropertiesInv.isReturnRunning
    (SearchProperties.awaiting
       (Examples.panelAfter Examples.reloadingAfterReturn)) = true.
Proof.
  assert (Hrun : SearchProperties.run Examples.panelProps
                   Examples.reloadingAfterReturn
                   (SearchProperties.mount Examples.panelProps)
                 = Some (Examples.panelAfter Examples.reloadingAfterReturn))
    by (vm_compute; reflexivity).
  assert (Hload : SearchProperties.isLoading
                    (Examples.panelAfter Examples.reloadingAfterReturn) = true)
    by (vm_compute; reflexivity).
  assert (Hret : SearchProperties.returningId
                   (Examples.panelAfter Examples.reloadingAfterReturn)
                 = Some 101%Z)
    by (vm_compute; reflexivity).
  destruct (busy_markers_are_backed Examples.panelProps _ _ Hrun)
    as (Hlist & Hrow).
  split; [exact Hrun|]. split; [exact Hload|]. split; [exact Hret|].
  split; [exact (Hlist Hload) | exact (Hrow 101%Z Hret)].
Defined.

Section NoCustomerId.
Import SearchProperties SearchPropertiesInv Util.
Variable p : props.
Hypothesis no_id : truthyId Customer.id (customerDetails p) = None.

Lemma silent_step (e : event) (s s' : state) :
  silent s -> step p e s = Some s' -> silent s'.
Proof.
  unfold silent. intros (Hreq & Hw & Hb & Hl & Hr & Ha) Hstep.
  destruct e as [t | id | id r | k r |]; simpl in Hstep.
  - destruct (isSome _); inversion Hstep; subst. simpl. auto 10.
  - destruct (returnClickable p s id); inversion Hstep; subst.
    unfold handleReturn. rewrite no_id. auto 10.
  - rewrite Hw in Hstep. discriminate.
  - rewrite Hw in Hstep. discriminate.
  - inversion Hstep; subst.
    unfold handleBorrowSuccess, loadBorrowed. rewrite no_id. simpl. auto 10.
Qed.

Lemma silent_run (es : list event) (s s' : state) :
  silent s -> run p es s = Some s' -> silent s'.
Proof.
  revert s. induction es as [|e es IH]; intros s Inv Hrun; simpl in Hrun.
  - inversion Hrun; subst. exact Inv.
  - destruct (step p e s) as [s1|] eqn:Hstep; [|discriminate].
    eapply IH; [|exact Hrun]. eapply silent_step; eauto.
Qed.

Lemma silent_mount : silent (mount p).
Proof.
  unfold silent, mount, loadBorrowed. rewrite no_id. simpl. auto 10.
Qed.

End NoCustomerId.

(** X8. When no customer is selected, or the customer's id is missing or
    0, the panel never asks the server anything: over any sequence of
    events no request is sent, the borrowed list stays empty, no marker
    is set and no alert is raised. *)
Theorem no_customer_id_no_traffic (p : SearchProperties.props)
    (es : list SearchProperties.event) (s : SearchProperties.state) :
  Util.truthyId Customer.id (SearchProperties.customerDetails p) = None ->
  SearchProperties.run p es (SearchProperties.mount p) = Some s ->
  SearchProperties.requests s = [] /\
  SearchProperties.borrowed s = [] /\
  SearchProperties.isLoading s = false /\
  SearchProperties.returningId s = None /\
  SearchProperties.alerts s = [].
Proof.
  intros Hnone Hrun.
  destruct (silent_run p Hnone es _ _ (silent_mount p Hnone) Hrun)
    as (H1 & _ & H3 & H4 & H5 & H6).
  auto.
Qed.

Lemma no_customer_id_no_traffic_witness :
  SearchProperties.run Examples.nobodyProps Examples.nobodyClicks
    (SearchProperties.mount Examples.nobodyProps)
    = Some (Examples.nobodyAfter Examples.nobodyClicks) /\
  SearchProperties.requests (Examples.nobodyAfter Examples.nobodyClicks) = [].
Proof.
  assert (Hnone : Util.truthyId Customer.id
                    (SearchProperties.customerDetails Examples.nobodyProps)
                  = None)
    by (vm_compute; reflexivity).
  assert (Hrun : SearchProperties.run Examples.nobodyProps Examples.nobodyClicks
                   (SearchProperties.mount Examples.nobodyProps)
                 = Some (Examples.nobodyAfter Examples.nobodyClicks))
    by (vm_compute; reflexivity).
  split; [exact Hrun|].
  exact (proj1 (no_customer_id_no_traffic Examples.nobodyProps _ _ Hnone Hrun)).
Defined.

(** X9. For a customer with an id, the borrowed list changes only when a
    list request settles (there is no local edit of the list anywhere);
    an alert is raised only by a return request that failed, so a failed
    list load is silent; and every request the panel sends is for that
    customer. *)
Theorem panel_changes_only_on_answers (p : SearchProperties.props)
    (customerId : Z) (e : SearchProperties.event)
    (s s' : SearchProperties.state) :
  Util.truthyId Customer.id (SearchProperties.customerDetails p)
    = Some customerId ->
  SearchProperties.step p e s = Some s' ->
  (SearchProperties.borrowed s' <> SearchProperties.borrowed s ->
   exists k r, e = SearchProperties.LoadSettles k r) /\
  (SearchProperties.alerts s' <> SearchProperties.alerts s ->
   exists id message,
     e = SearchProperties.ReturnSettles id (Rejected message)) /\
  (forall r, In r (SearchProperties.requests s') ->
     In r (SearchProperties.requests s) \/
     SearchPropertiesInv.customerOf r = customerId).
Proof.
  intros Hid Hstep.
  destruct e as [t | id | id r | k r |]; simpl in Hstep.
  - destruct (Util.isSome _); inversion Hstep; subst. simpl.
    repeat split; try (intros H; now contradiction H). auto.
  - destruct (SearchProperties.returnClickable p s id); inversion Hstep; subst.
    unfold SearchProperties.handleReturn. rewrite Hid. simpl.
    repeat split; try (intros H; now contradiction H).
    intros r Hin. apply in_app_or in Hin.
    destruct Hin as [Hin|[<-|[]]]; [now left | now right].
  - destruct (Util.removeFirst _ _); inversion Hstep; subst.
    unfold SearchProperties.returnSettled, SearchProperties.loadBorrowed.
    rewrite Hid. destruct r as [u|m]; simpl.
    + repeat split; try (intros H; now contradiction H).
      intros r Hin. apply in_app_or in Hin.
      destruct Hin as [Hin|[<-|[]]]; [now left | now right].
    + repeat split; try (intros H; now contradiction H); eauto.
  - destruct (Util.removeFirst _ _); inversion Hstep; subst.
    unfold SearchProperties.loadSettled.
    split; [intros _; eauto|].
    split; [|destruct k, r as [[rows|]|m]; simpl; auto].
    intros H. exfalso. apply H.
    destruct k, r as [[rows|]|m]; reflexivity.
  - inversion Hstep; subst.
    unfold SearchProperties.handleBorrowSuccess, SearchProperties.loadBorrowed.
    rewrite Hid. simpl.
    repeat split; try (intros H; now contradiction H).
    intros r Hin. apply in_app_or in Hin.
    destruct Hin as [Hin|[<-|[]]]; [now left | now right].
Qed.

Lemma panel_changes_only_on_answers_witness :
  SearchProperties.step Examples.panelProps
    (SearchProperties.ClickReturn 101) Examples.loansOnScreen
    = Some Examples.returningDune /\
  (forall r, In r (SearchProperties.requests Examples.returningDune) ->
     In r (SearchProperties.requests Examples.loansOnScreen) \/
     SearchPropertiesInv.customerOf r = 4%Z).
Proof.
  assert (Hid : Util.truthyId Customer.id
                  (SearchProperties.customerDetails Examples.panelProps)
                = Some 4%Z)
    by (vm_compute; reflexivity).
  assert (Hstep : SearchProperties.step Examples.panelProps
                    (SearchProperties.ClickReturn 101) Examples.loansOnScreen
                  = Some Examples.returningDune)
    by (vm_compute; reflexivity).
  split; [exact Hstep|].
  exact (proj2 (proj2 (panel_changes_only_on_answers Examples.panelProps 4
                         _ _ _ Hid Hstep))).
Defined.

(** *** More on the book search box *)

Section ParentAgrees.
Import BookSearchbar BookSearchbarInv Util.
Variable p : props.
Hypothesis listens : onBookSelect p = true.

Lemma notify_agreed (book : option Book.t) (s : state) :
  agreed (notifyParent p book (setSelectedBook book s)).
Proof.
  unfold agreed. simpl. rewrite listens. exists (selections s). reflexivity.
Qed.

Lemma searchEffect_agreed (t : nat) (s : state) :
  agreed s -> agreed (searchEffect p t s).
Proof.
  intros [l Hl]. unfold searchEffect, agreed. cbv zeta.
  destruct (isEmpty _); simpl.
  - rewrite listens. eexists. reflexivity.
  - exists l. exact Hl.
Qed.

Lemma afterRender_agreed (t : nat) (before s : state) :
  agreed s -> agreed (afterRender p t before s).
Proof.
  intros H. unfold afterRender. destruct (String.eqb _ _); [assumption|].
  now apply searchEffect_agreed.
Qed.

Lemma react_agreed (t : nat) (e : event) (s s' : state) :
  agreed s -> react p t e s = Some s' -> agreed s'.
Proof.
  intros Ha Hr.
  destruct e as [v | | | q0 n0 r | | | | k | r | |]; simpl in Hr.
  - inversion Hr; subst. apply afterRender_agreed.
    unfold handleInputChange.
    destruct (selectedBook s) as [book|] eqn:Hsel.
    + destruct (negb _).
      * unfold agreed. simpl. rewrite listens. eexists. reflexivity.
      * destruct Ha as [l Hl]. exists l. simpl. congruence.
    + destruct Ha as [l Hl]. exists l. simpl. congruence.
  - inversion Hr; subst. now apply searchEffect_agreed.
  - destruct (searchTimeoutRef s) as [tm|]; [|discriminate].
    destruct (Nat.leb _ _); inversion Hr; subst. exact Ha.
  - destruct (removeFirst _ _); inversion Hr; subst.
    unfold searchSettled.
    destruct (isStillCurrent _ _ _); [destruct r as [[found|]|]|]; exact Ha.
  - inversion Hr; subst. unfold handleFocus. destruct (_ && _); exact Ha.
  - inversion Hr; subst. exact Ha.
  - destruct (blurTimers s) as [|d rest]; [discriminate|].
    destruct (Nat.leb _ _); inversion Hr; subst. exact Ha.
  - destruct (nth_error _ _) as [sg|]; [|discriminate].
    destruct (_ && _); inversion Hr; subst.
    apply afterRender_agreed. exact Ha.
  - destruct (removeFirst _ _); inversion Hr; subst.
    unfold bookSettled, agreed. destruct r; simpl; rewrite listens;
      eexists; reflexivity.
  - destruct (_ && _); inversion Hr; subst. unfold handleAction.
    destruct (selectedBook s) eqn:Hsel; [destruct (onAction p)|];
      destruct Ha as [l Hl]; exists l; simpl; congruence.
  - destruct (_ || _); inversion Hr; subst.
    apply afterRender_agreed. unfold agreed. simpl. rewrite listens.
    eexists. reflexivity.
Qed.

Lemma run_agreed (es : list (nat * event)) (s s' : state) :
  agreed s -> run p es s = Some s' -> agreed s'.
Proof.
  revert s. induction es as [|[t e] es IH]; intros s Ha Hrun; simpl in Hrun.
  - inversion Hrun; subst. exact Ha.
  - destruct (step p t e s) as [s1|] eqn:Hs; [|discriminate].
    eapply IH; [|exact Hrun].
    destruct (step_clock p _ _ _ _ Hs) as (_ & _ & s2 & Hr & ->).
    destruct (react_agreed _ _ _ _ Ha Hr) as [l Hl]. exists l. exact Hl.
Qed.

Lemma mounted_agreed : agreed (mounted p).
Proof.
  unfold agreed, mounted. simpl. rewrite listens. exists []. reflexivity.
Qed.

End ParentAgrees.

Lemma told_last (calls : list (option Book.t)) (book : option Book.t)
    (m : Mainwindow.state) :
  Mainwindow.bookDetails (Mainwindow.told (calls ++ [book]) m) = book /\
  Mainwindow.isBookLoading (Mainwindow.told (calls ++ [book]) m) = false.
Proof.
  unfold Mainwindow.told. rewrite fold_left_app. simpl.
  destruct book; split; reflexivity.
Qed.

(** X10. The container and the book search box never disagree: after any
    sequence of events of a mounted search box whose calls of onBookSelect
    went through [handleSelectBook], the container's [bookDetails] is the
    box's selected book, whatever the container held before, and its
    book-loading flag is off. *)
Theorem container_shows_selected_book (p : BookSearchbar.props)
    (es : list (nat * BookSearchbar.event)) (s : BookSearchbar.state)
    (m : Mainwindow.state) :
  BookSearchbar.onBookSelect p = true ->
  BookSearchbar.run p es (BookSearchbar.mounted p) = Some s ->
  Mainwindow.bookDetails (Mainwindow.told (BookSearchbar.selections s) m)
    = BookSearchbar.selectedBook s /\
  Mainwindow.isBookLoading (Mainwindow.told (BookSearchbar.selections s) m)
    = false.
Proof.
  intros Hcb Hrun.
  destruct (run_agreed p Hcb es _ _ (mounted_agreed p Hcb) Hrun) as [l Hl].
  rewrite Hl. apply told_last.
Qed.

Lemma container_shows_selected_book_witness :
  BookSearchbar.run Examples.searchProps Examples.pickedDune
    (BookSearchbar.mounted Examples.searchProps)
    = Some (Examples.stateAfter Examples.pickedDune) /\
  BookSearchbar.selections (Examples.stateAfter Examples.pickedDune)
    = [None; Some Examples.dune] /\
  Mainwindow.bookDetails
    (Mainwindow.told
       (BookSearchbar.selections (Examples.stateAfter Examples.pickedDune))
       Mainwindow.initial)
    = BookSearchbar.selectedBook (Examples.stateAfter Examples.pickedDune).
Proof.
  assert (Hrun : BookSearchbar.run Examples.searchProps Examples.pickedDune
                   (BookSearchbar.mounted Examples.searchProps)
                 = Some (Examples.stateAfter Examples.pickedDune))
    by (vm_compute; reflexivity).
  split; [exact Hrun|]. split; [vm_compute; reflexivity|].
  exact (proj1 (container_shows_selected_book Examples.searchProps _ _
                  Mainwindow.initial eq_refl Hrun)).
Defined.

Section BlankInput.
Import BookSearchbar BookSearchbarInv Util.
Variable p : props.

Lemma searchEffect_blank (t : nat) (s : state) :
  blankIsQuiet (searchEffect p t s).
Proof.
  unfold blankIsQuiet, searchEffect. cbv zeta.
  change (searchValue (clearTimeout s)) with (searchValue s).
  destruct (isEmpty (trim (searchValue s))) eqn:He; simpl.
  - auto.
  - intros Hblank. rewrite Hblank in He. discriminate.
Qed.

Lemma afterRender_blank (t : nat) (before s : state) :
  (searchValue before = searchValue s -> blankIsQuiet s) ->
  blankIsQuiet (afterRender p t before s).
Proof.
  intros H. unfold afterRender.
  destruct (String.eqb_spec (searchValue before) (searchValue s)); [auto|].
  apply searchEffect_blank.
Qed.

Lemma react_blank (t : nat) (e : event) (s s' : state) :
  coherent s -> blankIsQuiet s -> react p t e s = Some s' -> blankIsQuiet s'.
Proof.
  intros [_ Hpend] Hq Hr.
  destruct e as [v | | | q0 n0 r | | | | k | r | |]; simpl in Hr.
  - inversion Hr; subst. apply afterRender_blank. intros Hsame.
    assert (Hv : searchValue (handleInputChange p v s) = v).
    { unfold handleInputChange.
      destruct (selectedBook s); [destruct (negb _)|]; reflexivity. }
    rewrite Hv in Hsame. subst v. unfold blankIsQuiet in *.
    unfold handleInputChange.
    destruct (selectedBook s); [destruct (negb _)|]; simpl; exact Hq.
  - inversion Hr; subst. apply searchEffect_blank.
  - destruct (searchTimeoutRef s) as [tm|]; [|discriminate].
    destruct (Nat.leb _ _); inversion Hr; subst. exact Hq.
  - destruct (removeFirst _ _) as [rest|] eqn:Hrm; inversion Hr; subst.
    destruct (removeFirst_in _ _ _ Hrm) as (k & Hin & Hk).
    destruct k as [q' n'|]; simpl in Hk; [|discriminate].
    apply andb_prop in Hk. destruct Hk as [Hq' Hn'].
    apply String.eqb_eq in Hq'. apply Nat.eqb_eq in Hn'. subst q' n'.
    destruct (Hpend q0 n0 Hin) as (Hne & _ & Hcur).
    unfold searchSettled, isStillCurrent. simpl.
    destruct (String.eqb_spec (currentSearchRef s) q0) as [Eq|Eq];
      destruct (Nat.eqb_spec n0 (requestIdRef s)) as [En|En]; simpl;
      try exact Hq.
    unfold blankIsQuiet. intros Hblank. exfalso. apply Hne.
    rewrite <- (Hcur En Eq).
    destruct r as [[found|]|]; exact Hblank.
  - inversion Hr; subst; clear Hr. unfold handleFocus.
    destruct (isEmpty (trim (searchValue s))) eqn:He; simpl; [exact Hq|].
    destruct (Nat.eqb _ 0); simpl; [exact Hq|].
    unfold blankIsQuiet. simpl.
    intros Hblank. rewrite Hblank in He. discriminate.
  - inversion Hr; subst. exact Hq.
  - destruct (blurTimers s) as [|d rest]; [discriminate|].
    destruct (Nat.leb _ _); inversion Hr; subst.
    unfold blankIsQuiet in *. simpl. intros Hb. destruct (Hq Hb). auto.
  - destruct (nth_error _ _) as [sg|]; [|discriminate].
    destruct (_ && _); inversion Hr; subst.
    apply afterRender_blank. simpl. intros Hsame.
    unfold blankIsQuiet in *. simpl. rewrite <- Hsame.
    intros Hb. destruct (Hq Hb). auto.
  - destruct (removeFirst _ _); inversion Hr; subst.
    unfold bookSettled. destruct r; exact Hq.
  - destruct (_ && _); inversion Hr; subst. unfold handleAction.
    destruct (selectedBook s); [destruct (onAction p)|]; exact Hq.
  - destruct (_ || _); inversion Hr; subst.
    apply afterRender_blank. intros _. unfold blankIsQuiet. simpl. auto.
Qed.

Lemma run_blank (es : list (nat * event)) (s s' : state) :
  coherent s -> blankIsQuiet s -> run p es s = Some s' ->
  coherent s' /\ blankIsQuiet s'.
Proof.
  revert s. induction es as [|[t e] es IH]; intros s Hc Hq Hrun; simpl in Hrun.
  - inversion Hrun; subst. auto.
  - destruct (step p t e s) as [s1|] eqn:Hs; [|discriminate].
    eapply IH; [| |exact Hrun].
    + eapply step_coherent; eauto.
    + destruct (step_clock p _ _ _ _ Hs) as (_ & _ & s2 & Hr & ->).
      exact (react_blank _ _ _ _ Hc Hq Hr).
Qed.

End BlankInput.

(** X11. In the book search box a blank input never shows anything:
    whenever the text of the input is empty or whitespace only, the
    suggestion list is empty and the popup is closed, whatever lookups
    are still in flight or settle late. *)
Theorem blank_input_shows_nothing (p : BookSearchbar.props)
    (es : list (nat * BookSearchbar.event)) (s : BookSearchbar.state) :
  BookSearchbar.run p es (BookSearchbar.mounted p) = Some s ->
  trim (BookSearchbar.searchValue s) = "" ->
  BookSearchbar.suggestions s = [] /\ BookSearchbar.showPopup s = false.
Proof.
  intros Hrun.
  assert (Hq : BookSearchbarInv.blankIsQuiet (BookSearchbar.mounted p)).
  { apply searchEffect_blank. }
  exact (proj2 (run_blank p es _ _ (mounted_coherent p) Hq Hrun)).
Qed.

Lemma blank_input_shows_nothing_witness :
  BookSearchbar.run Examples.searchProps Examples.clearedWhileInFlight
    (BookSearchbar.mounted Examples.searchProps)
    = Some (Examples.stateAfter Examples.clearedWhileInFlight) /\
  BookSearchbar.searchValue (Examples.stateAfter Examples.clearedWhileInFlight)
    = " " /\
  BookSearchbar.suggestions (Examples.stateAfter Examples.clearedWhileInFlight)
    = [] /\
  BookSearchbar.showPopup (Examples.stateAfter Examples.clearedWhileInFlight)
    = false.
Proof.
  assert (Hrun : BookSearchbar.run Examples.searchProps
                   Examples.clearedWhileInFlight
                   (BookSearchbar.mounted Examples.searchProps)
                 = Some (Examples.stateAfter Examples.clearedWhileInFlight))
    by (vm_compute; reflexivity).
  assert (Hblank : trim (BookSearchbar.searchValue
                           (Examples.stateAfter Examples.clearedWhileInFlight))
                   = "")
    by (vm_compute; reflexivity).
  split; [exact Hrun|]. split; [vm_compute; reflexivity|].
  exact (blank_input_shows_nothing Examples.searchProps _ _ Hrun Hblank).
Defined.

Section Tags.
Import BookSearchbar BookSearchbarInv Util.
Variable p : props.

Lemma pendingTags_app (l l' : list pending) :
  pendingTags (l ++ l') = (pendingTags l ++ pendingTags l')%list.
Proof.
  induction l as [|[q n|] l IH]; simpl; [reflexivity | now rewrite IH | exact IH].
Qed.

Lemma removeFirst_split {A : Type} (f : A -> bool) (l rest : list A) :
  removeFirst f l = Some rest ->
  exists l1 x l2, l = (l1 ++ x :: l2)%list /\ rest = (l1 ++ l2)%list.
Proof.
  revert rest. induction l as [|a l IH]; intros rest H; simpl in H.
  - discriminate.
  - destruct (f a).
    + inversion H; subst. exists [], a, rest. split; reflexivity.
    + destruct (removeFirst f l) as [r'|]; [|discriminate].
      inversion H; subst.
      destruct (IH r' eq_refl) as (l1 & x & l2 & -> & ->).
      exists (a :: l1), x, l2. split; reflexivity.
Qed.

Lemma removeFirst_issued (f : pending -> bool) (l rest : list pending) (m : nat) :
  removeFirst f l = Some rest ->
  NoDup (pendingTags l) -> Forall (fun n => n <= m) (pendingTags l) ->
  NoDup (pendingTags rest) /\ Forall (fun n => n <= m) (pendingTags rest) /\
  (forall n, In n (pendingTags rest) -> In n (pendingTags l)).
Proof.
  intros Hrm Hnd Hle.
  destruct (removeFirst_split _ _ _ Hrm) as (l1 & x & l2 & -> & ->).
  rewrite pendingTags_app in *. simpl in *.
  destruct x as [q n|].
  - split; [eapply NoDup_remove_1; eauto|]. split.
    + apply Forall_app in Hle. destruct Hle as [H1 H2].
      inversion H2; subst. apply Forall_app. auto.
    + intros k Hk. rewrite pendingTags_app in *. simpl.
      apply in_app_or in Hk. apply in_or_app.
      destruct Hk; [now left | right; now right].
  - split; [assumption|]. split; [assumption|].
    intros k Hk. rewrite pendingTags_app in *. exact Hk.
Qed.

Lemma distinctTags_issued (s : state) : distinctTags s -> issued s.
Proof. intros (H1 & H2 & _). split; assumption. Qed.

Lemma searchEffect_distinct (t : nat) (s : state) :
  issued s -> distinctTags (searchEffect p t s).
Proof.
  intros [Hnd Hle]. unfold searchEffect, distinctTags. cbv zeta.
  destruct (isEmpty _); simpl.
  - repeat split; try assumption; discriminate.
  - split; [assumption|]. split.
    + eapply Forall_impl; [|exact Hle]. simpl. intros n Hn. lia.
    + intros tm Htm. inversion Htm; subst; simpl. split; [reflexivity|].
      intros Hin. rewrite Forall_forall in Hle. apply Hle in Hin. lia.
Qed.

Lemma afterRender_distinct (t : nat) (before s : state) :
  issued s -> (searchValue before = searchValue s -> distinctTags s) ->
  distinctTags (afterRender p t before s).
Proof.
  intros Hi Hsame. unfold afterRender.
  destruct (String.eqb_spec (searchValue before) (searchValue s)); [auto|].
  now apply searchEffect_distinct.
Qed.

Lemma cleared_distinct (s : state) :
  issued s -> searchTimeoutRef s = None -> distinctTags s.
Proof.
  intros [Hnd Hle] Hnone. unfold distinctTags. rewrite Hnone.
  repeat split; try assumption; discriminate.
Qed.

Lemma react_distinct (t : nat) (e : event) (s s' : state) :
  distinctTags s -> react p t e s = Some s' -> distinctTags s'.
Proof.
  intros Hd Hr. pose proof (distinctTags_issued s Hd) as Hi.
  destruct Hd as (Hnd & Hle & Htm).
  destruct e as [v | | | q0 n0 r | | | | k | r | |]; simpl in Hr.
  - inversion Hr; subst; clear Hr.
    assert (Hsame : awaiting (handleInputChange p v s) = awaiting s /\
                    requestIdRef (handleInputChange p v s) = requestIdRef s /\
                    searchTimeoutRef (handleInputChange p v s)
                      = searchTimeoutRef s).
    { unfold handleInputChange.
      destruct (selectedBook s); [destruct (negb _)|]; auto. }
    destruct Hsame as (Hw & Hid & Ht).
    apply afterRender_distinct.
    + unfold issued. rewrite Hw, Hid. exact Hi.
    + intros _. unfold distinctTags. rewrite Hw, Hid, Ht. auto.
  - inversion Hr; subst. now apply searchEffect_distinct.
  - destruct (searchTimeoutRef s) as [tm|] eqn:Htimer; [|discriminate].
    destruct (Nat.leb _ _); inversion Hr; subst; clear Hr.
    destruct (Htm tm eq_refl) as [Htag Hfresh].
    unfold distinctTags. simpl. rewrite pendingTags_app. simpl.
    rewrite Htag. split; [|split].
    + apply NoDup_app; [assumption | repeat constructor; intros [] |].
      intros n Hn [Hk|[]]. subst. auto.
    + apply Forall_app. split; [assumption|]. repeat constructor.
    + intros tm' H. discriminate.
  - destruct (removeFirst _ _) as [rest|] eqn:Hrm; inversion Hr; subst; clear Hr.
    destruct (removeFirst_issued _ _ _ _ Hrm Hnd Hle) as (H1 & H2 & H3).
    assert (Hkeep : distinctTags (resume rest s)).
    { unfold distinctTags. simpl. repeat split; try assumption.
      - apply (Htm tm H).
      - intros Hin. apply (proj2 (Htm tm H)). auto. }
    unfold searchSettled.
    destruct (isStillCurrent _ _ _); [destruct r as [[found|]|]|]; exact Hkeep.
  - inversion Hr; subst. unfold handleFocus.
    destruct (_ && _); unfold distinctTags; simpl; auto.
  - inversion Hr; subst. unfold distinctTags; simpl; auto.
  - destruct (blurTimers s) as [|d rest]; [discriminate|].
    destruct (Nat.leb _ _); inversion Hr; subst.
    unfold distinctTags; simpl; auto.
  - destruct (nth_error _ _) as [sg|]; [|discriminate].
    destruct (_ && _); inversion Hr; subst; clear Hr.
    assert (Hi' : issued (handleSelectSuggestion t sg s)).
    { unfold issued. simpl. rewrite pendingTags_app. simpl.
      rewrite app_nil_r. exact Hi. }
    apply afterRender_distinct; [exact Hi'|].
    intros _. apply cleared_distinct; [exact Hi' | reflexivity].
  - destruct (removeFirst _ _) as [rest|] eqn:Hrm; inversion Hr; subst; clear Hr.
    destruct (removeFirst_issued _ _ _ _ Hrm Hnd Hle) as (H1 & H2 & H3).
    unfold bookSettled, distinctTags.
    destruct r; simpl; repeat split; try assumption;
      try (apply (Htm tm H));
      intros Hin; apply (proj2 (Htm tm H)); auto.
  - destruct (_ && _); inversion Hr; subst. unfold handleAction.
    destruct (selectedBook s); [destruct (onAction p)|];
      unfold distinctTags; simpl; auto.
  - destruct (_ || _); inversion Hr; subst; clear Hr.
    assert (Hi' : issued (clearSelection p s)) by exact Hi.
    apply afterRender_distinct; [exact Hi'|].
    intros _. apply cleared_distinct; [exact Hi' | reflexivity].
Qed.

Lemma run_distinct (es : list (nat * event)) (s s' : state) :
  distinctTags s -> run p es s = Some s' -> distinctTags s'.
Proof.
  revert s. induction es as [|[t e] es IH]; intros s Hd Hrun; simpl in Hrun.
  - inversion Hrun; subst. exact Hd.
  - destruct (step p t e s) as [s1|] eqn:Hs; [|discriminate].
    eapply IH; [|exact Hrun].
    destruct (step_clock p _ _ _ _ Hs) as (_ & _ & s2 & Hr & ->).
    exact (react_distinct _ _ _ _ Hd Hr).
Qed.

Lemma mounted_distinct : distinctTags (mounted p).
Proof.
  apply searchEffect_distinct. split; constructor.
Qed.

Lemma NoDup_once (x : nat) (l : list nat) :
  NoDup l -> List.length (filter (fun n => Nat.eqb n x) l) <= 1.
Proof.
  induction 1 as [|a l Ha Hl IH]; simpl; [lia|].
  destruct (Nat.eqb_spec a x); [|exact IH]. subst. simpl.
  assert (Hnone : filter (fun n => Nat.eqb n x) l = []).
  { clear IH Hl. induction l as [|b l IH]; simpl; [reflexivity|].
    destruct (Nat.eqb_spec b x).
    - subst. exfalso. apply Ha. now left.
    - apply IH. intros H. apply Ha. now right. }
  rewrite Hnone. simpl. lia.
Qed.

End Tags.

(** X12. Sequence tags separate the lookups in flight: their tags are
    pairwise distinct and none is greater than the latest issued, so at
    most one lookup in flight can still pass the stale-response guard. *)
Theorem one_current_lookup (p : BookSearchbar.props)
    (es : list (nat * BookSearchbar.event)) (s : BookSearchbar.state) :
  BookSearchbar.run p es (BookSearchbar.mounted p) = Some s ->
  NoDup (BookSearchbarInv.pendingTags (BookSearchbar.awaiting s)) /\
  Forall (fun n => n <= BookSearchbar.requestIdRef s)
    (BookSearchbarInv.pendingTags (BookSearchbar.awaiting s)) /\
  List.length (BookSearchbarInv.currentLookups s) <= 1.
Proof.
  intros Hrun.
  destruct (run_distinct p es _ _ (mounted_distinct p) Hrun) as (H1 & H2 & _).
  split; [exact H1|]. split; [exact H2|].
  unfold BookSearchbarInv.currentLookups. now apply NoDup_once.
Qed.

Lemma one_current_lookup_witness :
  BookSearchbar.run Examples.searchProps Examples.twoInFlight
    (BookSearchbar.mounted Examples.searchProps)
    = Some (Examples.stateAfter Examples.twoInFlight) /\
  BookSearchbar.awaiting (Examples.stateAfter Examples.twoInFlight)
    = [BookSearchbar.SearchPending "Du" 1; BookSearchbar.SearchPending "Dun" 2] /\
  List.length
    (BookSearchbarInv.currentLookups (Examples.stateAfter Examples.twoInFlight))
    <= 1.
Proof.
  assert (Hrun : BookSearchbar.run Examples.searchProps Examples.twoInFlight
                   (BookSearchbar.mounted Examples.searchProps)
                 = Some (Examples.stateAfter Examples.twoInFlight))
    by (vm_compute; reflexivity).
  split; [exact Hrun|]. split; [vm_compute; reflexivity|].
  exact (proj2 (proj2 (one_current_lookup Examples.searchProps _ _ Hrun))).
Defined.

Section LookupText.
Import BookSearchbar BookSearchbarInv Util.
Variable p : props.

Lemma step_nonBlank (t : nat) (e : event) (s s' : state) :
  coherent s -> nonBlank (lookups (requests s)) ->
  step p t e s = Some s' -> nonBlank (lookups (requests s')).
Proof.
  intros [Htm _] Hnb Hstep.
  destruct (step_clock p _ _ _ _ Hstep) as (_ & _ & s1 & Hr & ->). simpl.
  destruct (react_lookups p _ _ _ _ Hr)
    as [Hsame | (_ & tm & Hpending & _ & Hnew & _)].
  - rewrite Hsame. exact Hnb.
  - rewrite Hnew. apply Forall_app. split; [exact Hnb|].
    constructor; [|constructor]. simpl. apply (Htm tm Hpending).
Qed.

Lemma run_nonBlank (es : list (nat * event)) (s s' : state) :
  coherent s -> nonBlank (lookups (requests s)) ->
  run p es s = Some s' -> nonBlank (lookups (requests s')).
Proof.
  revert s. induction es as [|[t e] es IH]; intros s Hc Hnb Hrun; simpl in Hrun.
  - inversion Hrun; subst. exact Hnb.
  - destruct (step p t e s) as [s1|] eqn:Hs; [|discriminate].
    eapply IH; [| |exact Hrun].
    + eapply step_coherent; eauto.
    + eapply step_nonBlank; eauto.
Qed.

End LookupText.

(** X13. A lookup always asks for what the input holds: when the debounce
    timeout runs, the request sent is [searchBooks] of the trimmed text of
    the input at that moment, which is not empty, tagged with the latest
    sequence number; it becomes the stored current query and turns the
    loading flag on.  Hence no lookup ever sent has an empty query. *)
Theorem lookup_asks_current_text (p : BookSearchbar.props)
    (es : list (nat * BookSearchbar.event)) (s s' : BookSearchbar.state)
    (t : nat) :
  BookSearchbar.run p es (BookSearchbar.mounted p) = Some s ->
  BookSearchbar.step p t BookSearchbar.TimerFires s = Some s' ->
  trim (BookSearchbar.searchValue s) <> "" /\
  BookSearchbar.requests s'
    = (BookSearchbar.requests s
         ++ [(t, BookSearchbar.SearchBooks (trim (BookSearchbar.searchValue s)))])%list /\
  BookSearchbar.awaiting s'
    = (BookSearchbar.awaiting s
         ++ [BookSearchbar.SearchPending (trim (BookSearchbar.searchValue s))
               (BookSearchbar.requestIdRef s)])%list /\
  BookSearchbar.currentSearchRef s' = trim (BookSearchbar.searchValue s) /\
  BookSearchbar.isLoading s' = true /\
  BookSearchbar.searchTimeoutRef s' = None /\
  BookSearchbarInv.nonBlank (BookSearchbar.lookups (BookSearchbar.requests s')).
Proof.
  intros Hrun Hstep.
  pose proof (run_coherent p es _ _ (mounted_coherent p) Hrun) as Hc.
  assert (Hnb : BookSearchbarInv.nonBlank
                  (BookSearchbar.lookups (BookSearchbar.requests s'))).
  { eapply step_nonBlank; [exact Hc| |exact Hstep].
    eapply run_nonBlank; [apply mounted_coherent| |exact Hrun].
    constructor. }
  destruct Hc as [Htm _].
  destruct (step_clock p _ _ _ _ Hstep) as (_ & _ & s1 & Hr & ->).
  simpl in Hr.
  destruct (BookSearchbar.searchTimeoutRef s) as [tm|]; [|discriminate].
  destruct (Nat.leb _ _); inversion Hr; subst; clear Hr.
  destruct (Htm tm eq_refl) as (Hid & Hterm & Hne).
  simpl. rewrite <- Hterm, <- Hid. repeat split; assumption.
Qed.

Lemma lookup_asks_current_text_witness :
  BookSearchbar.run Examples.searchProps Examples.typedPadded
    (BookSearchbar.mounted Examples.searchProps)
    = Some (Examples.stateAfter Examples.typedPadded) /\
  BookSearchbar.step Examples.searchProps 300 BookSearchbar.TimerFires
    (Examples.stateAfter Examples.typedPadded)
    = Some (Examples.stateAfter
              (Examples.typedPadded ++ [(300, BookSearchbar.TimerFires)])) /\
  BookSearchbar.requests
    (Examples.stateAfter
       (Examples.typedPadded ++ [(300, BookSearchbar.TimerFires)]))
    = [(300, BookSearchbar.SearchBooks "Du")].
Proof.
  assert (Hrun : BookSearchbar.run Examples.searchProps Examples.typedPadded
                   (BookSearchbar.mounted Examples.searchProps)
                 = Some (Examples.stateAfter Examples.typedPadded))
    by (vm_compute; reflexivity).
  assert (Hstep : BookSearchbar.step Examples.searchProps 300
                    BookSearchbar.TimerFires
                    (Examples.stateAfter Examples.typedPadded)
                  = Some (Examples.stateAfter
                            (Examples.typedPadded
                               ++ [(300, BookSearchbar.TimerFires)])))
    by (vm_compute; reflexivity).
  split; [exact Hrun|]. split; [exact Hstep|].
  destruct (lookup_asks_current_text Examples.searchProps _ _ _ 300 Hrun Hstep)
    as (_ & H2 & _).
  rewrite H2. vm_compute. reflexivity.
Defined.

(** X14. The clear button empties the box at once: the input, the
    suggestions, the selection and the stored current query are reset, the
    popup is closed, the pending debounce timeout is cancelled so that no
    lookup follows, the parent is called with null (once by the handler
    when the input was already empty, and once more by the search effect
    when it was not), nothing is sent, and a lookup still in flight cannot
    fill the suggestions afterwards. *)
Theorem clear_button_resets (p : BookSearchbar.props)
    (es : list (nat * BookSearchbar.event)) (s s' : BookSearchbar.state)
    (t : nat) :
  BookSearchbar.run p es (BookSearchbar.mounted p) = Some s ->
  BookSearchbar.step p t BookSearchbar.Clear s = Some s' ->
  BookSearchbar.searchValue s' = "" /\
  BookSearchbar.suggestions s' = [] /\
  BookSearchbar.showPopup s' = false /\
  BookSearchbar.selectedBook s' = None /\
  BookSearchbar.currentSearchRef s' = "" /\
  BookSearchbar.searchTimeoutRef s' = None /\
  BookSearchbar.requests s' = BookSearchbar.requests s /\
  (BookSearchbar.onBookSelect p = true ->
   BookSearchbar.selections s'
     = (BookSearchbar.selections s
          ++ (if String.eqb (BookSearchbar.searchValue s) ""
              then [None] else [None; None]))%list) /\
  (forall t', BookSearchbar.step p t' BookSearchbar.TimerFires s' = None) /\
  (forall t' q n r s'',
     BookSearchbar.step p t' (BookSearchbar.SearchSettles q n r) s' = Some s'' ->
     BookSearchbar.suggestions s'' = [] /\
     BookSearchbar.showPopup s'' = false /\
     BookSearchbar.selectedBook s'' = None).
Proof.
  intros Hrun Hstep.
  pose proof (run_coherent p es _ _ (mounted_coherent p) Hrun) as Hc.
  pose proof (step_coherent p _ _ _ _ Hc Hstep) as Hc'.
  assert (Hnow :
    BookSearchbar.searchValue s' = "" /\
    BookSearchbar.suggestions s' = [] /\
    BookSearchbar.showPopup s' = false /\
    BookSearchbar.selectedBook s' = None /\
    BookSearchbar.currentSearchRef s' = "" /\
    BookSearchbar.searchTimeoutRef s' = None /\
    BookSearchbar.requests s' = BookSearchbar.requests s /\
    (BookSearchbar.onBookSelect p = true ->
     BookSearchbar.selections s'
       = (BookSearchbar.selections s
            ++ (if String.eqb (BookSearchbar.searchValue s) ""
                then [None] else [None; None]))%list)).
  { destruct (step_clock p _ _ _ _ Hstep) as (_ & _ & s1 & Hr & ->).
    simpl in Hr. destruct (_ || _); inversion Hr; subst; clear Hr.
    unfold BookSearchbar.afterRender, BookSearchbar.searchEffect.
    cbv zeta. simpl.
    destruct (String.eqb (BookSearchbar.searchValue s) ""); simpl;
      do 7 (split; [reflexivity|]);
      intros Hcb; rewrite Hcb; simpl; rewrite <- ?app_assoc; reflexivity. }
  destruct Hnow as (H1 & H2 & H3 & H4 & H5 & H6 & H7 & H8).
  do 8 (split; [assumption|]). split.
  - intros t'. unfold BookSearchbar.step.
    destruct (Nat.leb (BookSearchbar.clock s') t'); [|reflexivity].
    simpl. rewrite H6. reflexivity.
  - intros t' q n r s'' Hlate.
    destruct (settles_after_clear p _ _ _ _ _ _ Hc' H5 Hlate) as (G1 & G2 & G3).
    repeat split; congruence.
Qed.

Lemma clear_button_resets_witness :
  BookSearchbar.run Examples.searchProps Examples.pickedDune
    (BookSearchbar.mounted Examples.searchProps)
    = Some (Examples.stateAfter Examples.pickedDune) /\
  BookSearchbar.searchTimeoutRef (Examples.stateAfter Examples.pickedDune)
    <> None /\
  BookSearchbar.step Examples.searchProps 1000 BookSearchbar.Clear
    (Examples.stateAfter Examples.pickedDune)
    = Some (Examples.stateAfter Examples.pickedThenCleared) /\
  BookSearchbar.searchValue (Examples.stateAfter Examples.pickedThenCleared)
    = "" /\
  BookSearchbar.searchTimeoutRef (Examples.stateAfter Examples.pickedThenCleared)
    = None.
Proof.
  assert (Hrun : BookSearchbar.run Examples.searchProps Examples.pickedDune
                   (BookSearchbar.mounted Examples.searchProps)
                 = Some (Examples.stateAfter Examples.pickedDune))
    by (vm_compute; reflexivity).
  assert (Hstep : BookSearchbar.step Examples.searchProps 1000
                    BookSearchbar.Clear
                    (Examples.stateAfter Examples.pickedDune)
                  = Some (Examples.stateAfter Examples.pickedThenCleared))
    by (vm_compute; reflexivity).
  split; [exact Hrun|]. split; [vm_compute; discriminate|].
  split; [exact Hstep|].
  destruct (clear_button_resets Examples.searchProps _ _ _ 1000 Hrun Hstep)
    as (H1 & _ & _ & _ & _ & H6 & _).
  split; [exact H1 | exact H6].
Defined.

(** X15. Picking a suggestion puts its text into the input, closes the
    popup, turns the loading flag on and sends exactly one [getBook]
    request, for the suggestion's id.  The debounce timeout that was
    pending for the typed text is cancelled; when the suggestion's text
    differs from the input and is not blank, the search effect runs again
    and schedules a lookup for that text 300 ms later, and when the text
    is the input's, no timeout is left. *)
Theorem pick_fetches_details (p : BookSearchbar.props) (t n : nat)
    (suggestion : Suggestion.t) (s s' : BookSearchbar.state) :
  nth_error (BookSearchbar.suggestions s) n = Some suggestion ->
  BookSearchbar.step p t (BookSearchbar.Pick n) s = Some s' ->
  BookSearchbar.searchValue s' = Suggestion.text suggestion /\
  BookSearchbar.showPopup s' = false /\
  BookSearchbar.isLoading s' = true /\
  BookSearchbar.requests s'
    = (BookSearchbar.requests s
         ++ [(t, BookSearchbar.GetBook (Suggestion.id suggestion))])%list /\
  BookSearchbar.awaiting s'
    = (BookSearchbar.awaiting s ++ [BookSearchbar.BookPending])%list /\
  (Suggestion.text suggestion = BookSearchbar.searchValue s ->
   BookSearchbar.searchTimeoutRef s' = None) /\
  (Suggestion.text suggestion <> BookSearchbar.searchValue s ->
   trim (Suggestion.text suggestion) <> "" ->
   BookSearchbar.searchTimeoutRef s'
     = Some {| BookSearchbar.due := t + 300;
               BookSearchbar.searchTerm := trim (Suggestion.text suggestion);
               BookSearchbar.currentRequestId
                 := S (BookSearchbar.requestIdRef s) |}).
Proof.
  intros Hnth Hstep.
  destruct (step_clock p _ _ _ _ Hstep) as (_ & _ & s1 & Hr & ->).
  simpl in Hr. rewrite Hnth in Hr.
  destruct (_ && _); inversion Hr; subst; clear Hr.
  unfold BookSearchbar.afterRender, BookSearchbar.searchEffect. cbv zeta.
  simpl.
  destruct (String.eqb_spec (BookSearchbar.searchValue s)
              (Suggestion.text suggestion)) as [E|E]; simpl.
  - do 5 (split; [reflexivity|]). split; [reflexivity|].
    intros Hne. congruence.
  - destruct (isEmpty (trim (Suggestion.text suggestion))) eqn:He; simpl.
    + do 5 (split; [reflexivity|]). split; [reflexivity|].
      intros _ Hterm. apply isEmpty_true in He. contradiction.
    + do 5 (split; [reflexivity|]). split; [|reflexivity].
      intros Heq. congruence.
Qed.

Lemma pick_fetches_details_witness :
  nth_error
    (BookSearchbar.suggestions (Examples.stateAfter Examples.suggested)) 1
    = Some Examples.suggestDubliners /\
  BookSearchbar.step Examples.searchProps 900 (BookSearchbar.Pick 1)
    (Examples.stateAfter Examples.suggested)
    = Some (Examples.stateAfter
              (Examples.suggested ++ [(900, BookSearchbar.Pick 1)])) /\
  BookSearchbar.requests
    (Examples.stateAfter (Examples.suggested ++ [(900, BookSearchbar.Pick 1)]))
    = (BookSearchbar.requests (Examples.stateAfter Examples.suggested)
         ++ [(900, BookSearchbar.GetBook 8)])%list /\
  BookSearchbar.searchValue
    (Examples.stateAfter (Examples.suggested ++ [(900, BookSearchbar.Pick 1)]))
    = "Dubliners".
Proof.
  assert (Hnth : nth_error
                   (BookSearchbar.suggestions
                      (Examples.stateAfter Examples.suggested)) 1
                 = Some Examples.suggestDubliners)
    by (vm_compute; reflexivity).
  assert (Hstep : BookSearchbar.step Examples.searchProps 900
                    (BookSearchbar.Pick 1)
                    (Examples.stateAfter Examples.suggested)
                  = Some (Examples.stateAfter
                            (Examples.suggested ++ [(900, BookSearchbar.Pick 1)])))
    by (vm_compute; reflexivity).
  split; [exact Hnth|]. split; [exact Hstep|].
  destruct (pick_fetches_details Examples.searchProps 900 1 _ _ _ Hnth Hstep)
    as (H1 & _ & _ & H4 & _).
  split; [exact H4 | exact H1].
Defined.

(** *** More on the customer search box *)

Section SearchBarMore.
Import SearchBar SearchBarInv Util.
Variable p : props.

Lemma removeFirst_length {A : Type} (f : A -> bool) (l rest : list A) :
  removeFirst f l = Some rest -> List.length l = S (List.length rest).
Proof.
  intros H. destruct (removeFirst_split _ _ _ H) as (l1 & x & l2 & -> & ->).
  rewrite !length_app. simpl. lia.
Qed.

Lemma sound_step (t : nat) (e : event) (s s' : state) :
  sound s -> step p t e s = Some s' -> sound s'.
Proof.
  unfold sound. intros (Hreq & Hpend & Hload & Hlen) Hstep.
  unfold step in Hstep. destruct (Nat.leb _ _); [|discriminate].
  destruct e as [v | q r | | | | n]; simpl in Hstep.
  - inversion Hstep; subst; clear Hstep. unfold handleInputChange.
    destruct (isEmpty (trim v)) eqn:He; simpl.
    + auto.
    + apply isEmpty_false in He.
      repeat split.
      * apply Forall_app. split; [assumption|]. repeat constructor. exact He.
      * apply Forall_app. split; [assumption|]. repeat constructor. exact He.
      * intros _ H. apply app_eq_nil in H. destruct H. discriminate.
      * rewrite !length_app. simpl. lia.
  - destruct (removeFirst _ _) as [rest|] eqn:Hrm; inversion Hstep; subst.
    pose proof (removeFirst_incl _ _ _ Hrm) as Hincl.
    pose proof (removeFirst_length _ _ _ Hrm) as Hl.
    assert (Hrest : Forall (fun q0 => trim q0 <> "") rest).
    { rewrite Forall_forall in *. auto. }
    unfold searchSettled. destruct r as [[found|]|]; simpl;
      repeat split; try assumption; try discriminate; lia.
  - inversion Hstep; subst. unfold handleFocus.
    destruct (negb _); simpl; auto.
  - inversion Hstep; subst. simpl. auto.
  - destruct (blurTimers s) as [|d rest]; [discriminate|].
    destruct (Nat.leb _ _); inversion Hstep; subst. simpl. auto.
  - destruct (nth_error _ _) as [sg|]; [|discriminate].
    destruct (_ && _); inversion Hstep; subst. simpl. auto.
Qed.

Lemma sound_run (es : list (nat * event)) (s s' : state) :
  sound s -> run p es s = Some s' -> sound s'.
Proof.
  revert s. induction es as [|[t e] es IH]; intros s Inv Hrun; simpl in Hrun.
  - inversion Hrun; subst. exact Inv.
  - destruct (step p t e s) as [s1|] eqn:Hs; [|discriminate].
    eapply IH; [|exact Hrun]. eapply sound_step; eauto.
Qed.

Lemma sound_initial : sound initial.
Proof.
  unfold sound. simpl. repeat split; try constructor. discriminate.
Qed.

End SearchBarMore.

(** X16. The customer search box never sends a blank query, and its
    loading flag never sticks: over any sequence of events every query
    passed to [searchCustomers] has a non-blank text, and whenever the
    loading flag is on a lookup is still in flight. *)
Theorem customer_queries_are_not_blank (p : SearchBar.props)
    (es : list (nat * SearchBar.event)) (s : SearchBar.state) :
  SearchBar.run p es SearchBar.initial = Some s ->
  Forall (fun r => trim (snd r) <> "") (SearchBar.requests s) /\
  (SearchBar.isLoading s = true -> SearchBar.awaiting s <> []) /\
  List.length (SearchBar.awaiting s) <= List.length (SearchBar.requests s).
Proof.
  intros Hrun.
  destruct (sound_run p es _ _ sound_initial Hrun) as (H1 & _ & H3 & H4).
  auto.
Qed.

Lemma customer_queries_are_not_blank_witness :
  SearchBar.run Examples.customerProps Examples.emptiedEarly SearchBar.initial
    = Some (Examples.customerAfter Examples.emptiedEarly) /\
  SearchBar.requests (Examples.customerAfter Examples.emptiedEarly)
    = [(0, "Al")] /\
  Forall (fun r => trim (snd r) <> "")
    (SearchBar.requests (Examples.customerAfter Examples.emptiedEarly)).
Proof.
  assert (Hrun : SearchBar.run Examples.customerProps Examples.emptiedEarly
                   SearchBar.initial
                 = Some (Examples.customerAfter Examples.emptiedEarly))
    by (vm_compute; reflexivity).
  split; [exact Hrun|]. split; [vm_compute; reflexivity|].
  exact (proj1 (customer_queries_are_not_blank Examples.customerProps _ _ Hrun)).
Defined.

(** X17. In the customer search box a request is sent only by a change of
    the input to a non-blank text: exactly one, at once, for the text as
    typed (untrimmed).  The parent is called only by a click on a
    suggestion that is shown: once, with that suggestion, whose text
    replaces the input while the popup closes and nothing is sent. *)
Theorem customer_box_traffic (p : SearchBar.props) (t : nat)
    (e : SearchBar.event) (s s' : SearchBar.state) :
  SearchBar.step p t e s = Some s' ->
  (SearchBar.requests s' <> SearchBar.requests s ->
   exists value,
     e = SearchBar.Change value /\ trim value <> "" /\
     SearchBar.requests s' = (SearchBar.requests s ++ [(t, value)])%list) /\
  (SearchBar.chosen s' <> SearchBar.chosen s ->
   exists n suggestion,
     e = SearchBar.Pick n /\
     nth_error (SearchBar.suggestions s) n = Some suggestion /\
     SearchBar.chosen s' = (SearchBar.chosen s ++ [suggestion])%list /\
     SearchBar.searchValue s' = Suggestion.text suggestion /\
     SearchBar.showPopup s' = false /\
     SearchBar.requests s' = SearchBar.requests s).
Proof.
  intros Hstep. unfold SearchBar.step in Hstep.
  destruct (Nat.leb _ _); [|discriminate].
  destruct e as [v | q r | | | | n]; simpl in Hstep.
  - inversion Hstep; subst; clear Hstep. unfold SearchBar.handleInputChange.
    destruct (isEmpty (trim v)) eqn:He; simpl.
    + split; intros H; now contradiction H.
    + split; [|intros H; now contradiction H].
      intros _. exists v. apply isEmpty_false in He. auto.
  - destruct (Util.removeFirst _ _); inversion Hstep; subst.
    unfold SearchBar.searchSettled. destruct r as [[found|]|]; simpl;
      split; intros H; now contradiction H.
  - inversion Hstep; subst. unfold SearchBar.handleFocus.
    destruct (negb _); simpl; split; intros H; now contradiction H.
  - inversion Hstep; subst. simpl. split; intros H; now contradiction H.
  - destruct (SearchBar.blurTimers s) as [|d rest]; [discriminate|].
    destruct (Nat.leb _ _); inversion Hstep; subst. simpl.
    split; intros H; now contradiction H.
  - destruct (nth_error _ _) as [sg|] eqn:Hnth; [|discriminate].
    destruct (_ && _); inversion Hstep; subst. simpl.
    split; [intros H; now contradiction H|].
    destruct (SearchBar.onSelectSuggestion p); [|intros H; now contradiction H].
    intros _. exists n, sg. auto 10.
Qed.

Lemma customer_box_traffic_witness :
  SearchBar.step Examples.customerProps 100 (SearchBar.Change "Ali ")
    (Examples.customerAfter [(0, SearchBar.Change "Al")])
    = Some (Examples.customerAfter
              [(0, SearchBar.Change "Al"); (100, SearchBar.Change "Ali ")]) /\
  exists value,
    SearchBar.Change "Ali " = SearchBar.Change value /\ trim value <> "" /\
    SearchBar.requests
      (Examples.customerAfter
         [(0, SearchBar.Change "Al"); (100, SearchBar.Change "Ali ")])
    = (SearchBar.requests (Examples.customerAfter [(0, SearchBar.Change "Al")])
         ++ [(100, value)])%list.
Proof.
  assert (Hstep : SearchBar.step Examples.customerProps 100
                    (SearchBar.Change "Ali ")
                    (Examples.customerAfter [(0, SearchBar.Change "Al")])
                  = Some (Examples.customerAfter
                            [(0, SearchBar.Change "Al");
                             (100, SearchBar.Change "Ali ")]))
    by (vm_compute; reflexivity).
  split; [exact Hstep|].
  apply (proj1 (customer_box_traffic Examples.customerProps 100 _ _ _ Hstep)).
  vm_compute. discriminate.
Defined.

(** *** From the server's answer to what the user reads *)

(** X18. What the server says about a refused borrow or return is what the
    user reads.  For a response that is not 2xx: when its body is a JSON
    object whose [detail] is a non-empty string, the borrow form shows
    exactly that string as its error and the return action alerts exactly
    that string; when the body does not parse, both show 'HTTP error!
    status: N'; the components' own fallback texts appear when the
    message is empty, as for a [detail] that is an empty array. *)
Theorem server_detail_is_shown (D : doubles) (r : ApiService.Response D)
    (pb : BorrowBook.props) (sb : BorrowBook.state)
    (pp : SearchProperties.props) (sp : SearchProperties.state) :
  ApiService.ok r = false ->
  (forall members d,
     ApiService.body r = Some (JObj members) ->
     lookup "detail" members = ofJson (JStr d) -> d <> "" ->
     Wiring.outcome (Fulfilled r) = Some (Rejected d) /\
     BorrowBook.errorMessage (BorrowBook.borrowSettled pb (Rejected d) sb) = d /\
     SearchProperties.alerts (SearchProperties.returnSettled pp (Rejected d) sp)
       = (SearchProperties.alerts sp ++ [d])%list) /\
  (ApiService.body r = None ->
   Wiring.outcome (Fulfilled r) = Some (Rejected (ApiService.httpError r)) /\
   BorrowBook.errorMessage
     (BorrowBook.borrowSettled pb (Rejected (ApiService.httpError r)) sb)
     = "HTTP error! status: " ++ numberToString (ApiService.status r) /\
   SearchProperties.alerts
     (SearchProperties.returnSettled pp (Rejected (ApiService.httpError r)) sp)
     = (SearchProperties.alerts sp ++ [ApiService.httpError r])%list) /\
  (forall members,
     ApiService.body r = Some (JObj members) ->
     lookup "detail" members = ofJson (JArr []) ->
     Wiring.outcome (Fulfilled r) = Some (Rejected "") /\
     BorrowBook.errorMessage (BorrowBook.borrowSettled pb (Rejected "") sb)
       = "Failed to borrow book" /\
     SearchProperties.alerts (SearchProperties.returnSettled pp (Rejected "") sp)
       = (SearchProperties.alerts sp ++ ["Return failed"])%list).
Proof.
  intros Hok. split; [|split].
  - intros members d Hb Hd Hne.
    assert (Ht : truthy (ofJson (D := D) (JStr d)) = true)
      by (destruct d; [contradiction | reflexivity]).
    unfold Wiring.outcome.
    rewrite (request_detail D r members (JStr d) d Hok Hb Hd Ht eq_refl). simpl.
    destruct d; [contradiction|]. repeat split.
  - intros Hb. unfold Wiring.outcome.
    rewrite (request_generic D r Hok (or_introl Hb)). simpl. repeat split.
  - intros members Hb Hd. unfold Wiring.outcome.
    rewrite (request_detail D r members (JArr []) "" Hok Hb Hd eq_refl eq_refl).
    simpl.
    repeat split.
Qed.

Lemma server_detail_is_shown_witness :
  ApiService.ok Examples.withDetail = false /\
  Wiring.outcome (Fulfilled Examples.withDetail)
    = Some (Rejected "No copies left") /\
  BorrowBook.errorMessage
    (BorrowBook.borrowSettled Examples.borrowProps (Rejected "No copies left")
       Examples.borrowingDune) = "No copies left" /\
  ApiService.ok Examples.badGateway = false /\
  Wiring.outcome (Fulfilled Examples.badGateway)
    = Some (Rejected (ApiService.httpError Examples.badGateway)) /\
  ApiService.httpError Examples.badGateway = "HTTP error! status: 502".
Proof.
  assert (Hok : ApiService.ok Examples.withDetail = false)
    by (vm_compute; reflexivity).
  assert (Hok' : ApiService.ok Examples.badGateway = false)
    by (vm_compute; reflexivity).
  split; [exact Hok|].
  destruct (server_detail_is_shown Examples.integers Examples.withDetail
              Examples.borrowProps
              Examples.borrowingDune Examples.panelProps Examples.loansOnScreen
              Hok) as (H & _).
  destruct (H [("detail", JStr "No copies left")] "No copies left"
              eq_refl eq_refl ltac:(discriminate)) as (H1 & H2 & _).
  split; [exact H1|]. split; [exact H2|]. split; [exact Hok'|].
  destruct (server_detail_is_shown Examples.integers Examples.badGateway
              Examples.borrowProps
              Examples.borrowingDune Examples.panelProps Examples.loansOnScreen
              Hok') as (_ & H' & _).
  destruct (H' eq_refl) as (H3 & _).
  split; [exact H3 | vm_compute; reflexivity].
Defined.

(** *** The container *)

Section MainwindowFacts.
Import Mainwindow MainwindowInv.

Lemma run_snoc (es : list event) (e : event) (s : state) :
  run (es ++ [e]) s =
  match run es s with
  | Some s' => step e s'
  | None => None
  end.
Proof.
  revert s. induction es as [|a es IH]; intros s; simpl.
  - destruct (step e s); reflexivity.
  - destruct (step a s); [apply IH | reflexivity].
Qed.

Lemma picked_snoc (es : list event) (e : event) :
  picked (es ++ [e]) = (picked es ++ picked [e])%list.
Proof.
  induction es as [|a es IH]; simpl; [reflexivity|].
  destruct a; simpl; rewrite IH; reflexivity.
Qed.

Lemma settledCount_snoc (es : list event) (e : event) :
  settledCount (es ++ [e]) = settledCount es + settledCount [e].
Proof.
  induction es as [|a es IH]; simpl; [reflexivity|].
  destruct a; simpl; rewrite IH; reflexivity.
Qed.

End MainwindowFacts.

(** X19. The container asks for the details of every customer picked, by
    the suggestion's id and in the order of the picks, and for nothing
    else; each pick is either answered or still awaited, and whenever the
    customer loading flag is on, a request is still awaited. *)
Theorem container_fetches_each_pick (es : list Mainwindow.event)
    (s : Mainwindow.state) :
  Mainwindow.run es Mainwindow.initial = Some s ->
  Mainwindow.requests s = MainwindowInv.picked es /\
  List.length (MainwindowInv.picked es)
    = MainwindowInv.settledCount es + Mainwindow.awaiting s /\
  (Mainwindow.isLoading s = true -> 0 < Mainwindow.awaiting s).
Proof.
  revert s. induction es as [|e es IH] using rev_ind; intros s Hrun.
  - inversion Hrun; subst. simpl. repeat split. discriminate.
  - rewrite run_snoc in Hrun.
    destruct (Mainwindow.run es Mainwindow.initial) as [s0|]; [|discriminate].
    destruct (IH s0 eq_refl) as (Hreq & Hcount & Hload).
    rewrite picked_snoc, settledCount_snoc, length_app.
    destruct e as [t | customer | r | book]; simpl in Hrun.
    + inversion Hrun; subst. simpl. rewrite app_nil_r.
      repeat split; try assumption. lia.
    + inversion Hrun; subst. simpl.
      repeat split; try congruence; try lia.
    + destruct (Mainwindow.awaiting s0) as [|k] eqn:Hw; inversion Hrun; subst.
      unfold Mainwindow.customerSettled. destruct r; simpl; rewrite app_nil_r, Hw;
        repeat split; try assumption; try discriminate; lia.
    + inversion Hrun; subst. unfold Mainwindow.handleSelectBook.
      destruct book; simpl; rewrite app_nil_r;
        repeat split; try assumption; lia.
Qed.


Lemma container_fetches_each_pick_witness :
  Mainwindow.run Examples.twoPicks Mainwindow.initial
    = Some (Examples.containerAfter Examples.twoPicks) /\
  Mainwindow.requests (Examples.containerAfter Examples.twoPicks)
    = MainwindowInv.picked Examples.twoPicks /\
  MainwindowInv.picked Examples.twoPicks = [5%Z; 4%Z].
Proof.
  assert (Hrun : Mainwindow.run Examples.twoPicks Mainwindow.initial
                 = Some (Examples.containerAfter Examples.twoPicks))
    by (vm_compute; reflexivity).
  split; [exact Hrun|].
  split; [exact (proj1 (container_fetches_each_pick _ _ Hrun))|].
  vm_compute. reflexivity.
Defined.
